(** * Referral polling worker: a shallow embedding of [services/bot.ts],
    [services/email.ts], [services/sms.ts] and the two Mongoose models.

    The worker logs into a portal, reads and stores the rows of the portal's
    referral list on the way, POSTs to the referral API, keeps the referrals
    whose [requestOn] is later than the module-level watermark
    [lastCheckTime], stores the ones it has not stored before, notifies by
    e-mail and SMS and finally moves the watermark.

    Modelling choices.
    - Module-level variables ([browser], [page], [lastCheckTime]) and the two
      collections live in one [World] record that every function threads.
    - An [async] function is a computation [M A]: it takes a world and returns
      either a value or a thrown error, together with the world as the function
      left it (an error does not undo assignments that were already made).
    - Everything outside the code is a field of the [Env] record, one record
      per polling cycle: [process.env], whether the browser launches, whether
      the steps on the portal's pages go through, the rows its referral list
      shows, the cookie jar, what the API answers, what the clock reads,
      whether a transport call succeeds.
    - Calls that leave the process are recorded, in order, in [trace];
      [console.error] and [console.warn] lines are recorded in [console].
      Screenshots and [console.log] lines are not.
    - The two collections are lists in insertion order; the store itself is
      taken to be available (its calls do not fail for reasons of their own).
    - A [Date] is its time value, an integer number of milliseconds.
    - Polling cycles run one after the other. *)

From Stdlib Require Import List String Ascii ZArith Bool Arith Lia.
Import ListNotations.
Local Open Scope string_scope.
Local Open Scope list_scope.

(* ===================================================================== *)
(** * JavaScript string operations used by the sources *)
(* ===================================================================== *)

Module Js.

Definition comma : ascii := ","%char.
Definition semicolon : ascii := ";"%char.

(** [s.split(",")]: the pieces between commas; never an empty array. *)
Fixpoint split (sep : ascii) (s : string) : list string :=
  match s with
  | EmptyString => [ EmptyString ]
  | String c rest =>
      if Ascii.eqb c sep then EmptyString :: split sep rest
      else match split sep rest with
           | piece :: pieces => String c piece :: pieces
           | [] => [ String c EmptyString ]
           end
  end.

(** White space of the ASCII range: TAB, LF, VT, FF, CR and SPACE. *)
Definition isSpace (c : ascii) : bool :=
  let n := nat_of_ascii c in
  ((9 <=? n)%nat && (n <=? 13)%nat) || (n =? 32)%nat.

Fixpoint trimStart (s : string) : string :=
  match s with
  | EmptyString => EmptyString
  | String c rest => if isSpace c then trimStart rest else s
  end.

Fixpoint trimEnd (s : string) : string :=
  match s with
  | EmptyString => EmptyString
  | String c rest =>
      match trimEnd rest with
      | EmptyString => if isSpace c then EmptyString else String c EmptyString
      | kept => String c kept
      end
  end.

(** [s.trim()] *)
Definition trim (s : string) : string := trimEnd (trimStart s).

(** [arr.join(sep)] *)
Definition join (sep : string) (l : list string) : string := String.concat sep l.

(** [!v] for a value that is a string or [undefined]. *)
Definition falsy (v : option string) : bool :=
  match v with
  | None => true
  | Some s => String.eqb s EmptyString
  end.

(** [a || b] for [a] a string or [undefined] and [b] a string. *)
Definition orElse (v : option string) (d : string) : string :=
  match v with
  | None => d
  | Some s => if String.eqb s EmptyString then d else s
  end.

(** The longest prefix of [s] without [;]: what [[^;]+] consumes. *)
Fixpoint untilSemicolon (s : string) : string :=
  match s with
  | EmptyString => EmptyString
  | String c rest =>
      if Ascii.eqb c semicolon then EmptyString else String c (untilSemicolon rest)
  end.

Fixpoint dropPrefix (n : nat) (s : string) : string :=
  match n, s with
  | O, _ => s
  | S k, String _ rest => dropPrefix k rest
  | S _, EmptyString => EmptyString
  end.

Definition xsrfName : string := "XSRF-TOKEN=".

(** [s.match(/XSRF-TOKEN=([^;]+)/)], reduced to its first capture group:
    the leftmost position where the literal is followed by at least one
    character other than [;]; the group is greedy. *)
Fixpoint matchXsrf (s : string) : option string :=
  match s with
  | EmptyString => None
  | String _ rest =>
      if String.prefix xsrfName s then
        match untilSemicolon (dropPrefix (String.length xsrfName) s) with
        | EmptyString => matchXsrf rest
        | group => Some group
        end
      else matchXsrf rest
  end.

(** [hay.includes(needle)] *)
Fixpoint includes (needle hay : string) : bool :=
  String.prefix needle hay
  || match hay with
     | EmptyString => false
     | String _ rest => includes needle rest
     end.

Definition nl : string := String (ascii_of_nat 10) EmptyString.

Fixpoint decimalDigits (fuel n : nat) (acc : string) : string :=
  match fuel with
  | O => acc
  | S fuel' =>
      let acc' := String (ascii_of_nat (48 + n mod 10)) acc in
      if (n / 10 =? 0)%nat then acc' else decimalDigits fuel' (n / 10) acc'
  end.

(** A counter in a template literal: its decimal digits. *)
Definition decimal (n : nat) : string := decimalDigits (S n) n EmptyString.

End Js.

(* ===================================================================== *)
(** * Data *)
(* ===================================================================== *)

(** An element of [ReferralResponse.referrals] (bot.ts, lines 26-39). *)
Module Api.
Record referral := {
  memberName : string;
  memberID : string;
  serviceName : string;
  regionName : string;
  county : string;
  plan : string;
  preferredStartDate : string;
  status : string;
  requestOn : string
}.
End Api.

(** [MemberData], a row scraped from the rendered referral list
    (bot.ts, lines 42-49); [?] fields may be [undefined]. *)
Module Member.
Record data := {
  memberName : string;
  memberID : string;
  serviceName : option string;
  status : option string;
  requestDate : option string;
  additionalInfo : option string
}.
End Member.

(** A document of the [Referral] collection (models/referrals.ts),
    with the paths that bot.ts writes.  The schema declares no index and no
    required path.  Paths that neither writer sets ([memberFirstName],
    [startDate], [providerStatus], [declinedReason], the three nested
    objects) and the defaulted [createdAt] are left out. *)
Module Doc.
Record t := {
  _id : nat;
  memberID : string;
  memberName : string;
  serviceName : string;
  regionName : option string;
  requestOn : string;
  county : option string;
  plan : option string;
  preferredStartDate : option string;
  status : string;
  isNotified : bool
}.

Definition setNotified (b : bool) (d : t) : t :=
  {| _id := _id d; memberID := memberID d; memberName := memberName d;
     serviceName := serviceName d; regionName := regionName d;
     requestOn := requestOn d; county := county d; plan := plan d;
     preferredStartDate := preferredStartDate d; status := status d;
     isNotified := b |}.
End Doc.

(** A document of the [Notification] collection (models/notification.ts);
    [isRead] takes its default. *)
Module Note.
Record t := {
  _id : nat;
  referralId : nat;
  memberName : string;
  memberID : string;
  message : string;
  isRead : bool
}.
End Note.

(** The filter object handed to [Referral.findOne]. *)
Inductive Query :=
| ByRequestOn (memberID requestOn : string)   (* bot.ts 1323-1326 *)
| ByMemberName (memberID memberName : string) (* bot.ts 1211-1214 *).

Definition matches (q : Query) (d : Doc.t) : bool :=
  match q with
  | ByRequestOn i r => String.eqb (Doc.memberID d) i && String.eqb (Doc.requestOn d) r
  | ByMemberName i n => String.eqb (Doc.memberID d) i && String.eqb (Doc.memberName d) n
  end.

(** The natural key of a stored referral. *)
Definition keyOf (d : Doc.t) : string * string := (Doc.memberID d, Doc.requestOn d).

Definition hasKey (k : string * string) (d : Doc.t) : bool :=
  matches (ByRequestOn (fst k) (snd k)) d.

(** How many stored referrals carry the natural key [k]. *)
Definition countKey (k : string * string) (docs : list Doc.t) : nat :=
  List.length (filter (hasKey k) docs).

(** Store-level uniqueness: no natural key is stored twice. *)
Definition uniqueKeys (docs : list Doc.t) : Prop :=
  forall k, (countKey k docs <= 1)%nat.

(** Calls that leave the process, as they are issued. *)
Inductive Event :=
| EvLaunch                                    (* puppeteer.launch *)
| EvNewPage                                   (* browser.newPage *)
| EvPortalLogin                               (* page.goto(LOGIN_URL) and what follows it *)
| EvCookies                                   (* page.cookies() *)
| EvPost (cookie xsrf : string)               (* axios.post(REFERRALS_API_URL, ...) *)
| EvFindOne (q : Query)                       (* Referral.findOne *)
| EvCreateReferral (d : Doc.t)                (* Referral.create *)
| EvCreateNotification (n : Note.t)           (* Notification.create *)
| EvSave (id : nat)                           (* savedReferral.save() *)
| EvSendMail (from to subject text : string)  (* transporter.sendMail *)
| EvTwilioCreate (body from to : string)      (* client.messages.create *)
| EvBrowserClose                              (* browser.close() *).

(** What a function can throw. *)
Inductive Error :=
| ErrSetup                       (* puppeteer could not launch, open or configure a page *)
| ErrPageNotInitialized          (* new Error("Browser page not initialized") / ("Page not initialized") *)
| ErrPortalLogin                 (* a step of the portal login or of the navigation threw *)
| ErrScrape                      (* reading the rows of the referral list threw *)
| ErrFailedToLogin               (* new Error("Failed to login to Availity") *)
| ErrAxios (status : option Z)   (* AxiosError; [Some s] when a response with status [s] came back *)
| ErrTypeError                   (* response.data.referrals is undefined *)
| ErrValidation                  (* Mongoose ValidationError: a required path is empty *)
| ErrSmtp                        (* transporter.sendMail rejected *)
| ErrTwilio                      (* client.messages.create rejected *)
| ErrClose                       (* browser.close() rejected *).

Inductive Result (A : Type) :=
| Ok (a : A)
| Throw (e : Error).
Arguments Ok {A} a.
Arguments Throw {A} e.

(** [process.env], as the two channels read it. *)
Record Config := {
  EMAIL_USER : option string;    (* email.ts 22: read when the transporter is created *)
  EMAIL_PASS : option string;    (* email.ts 23: read when the transporter is created *)
  EMAIL_FROM : option string;
  EMAIL_RECIPIENTS : option string;
  TWILIO_SID : option string;
  TWILIO_AUTH_TOKEN : option string;
  TWILIO_PHONE_NUMBER : option string;
  SMS_RECIPIENTS : option string
}.

Inductive SetupOutcome :=
| SetupOk
| LaunchFails        (* puppeteer.launch rejects *)
| NewPageFails       (* browser.newPage rejects: [browser] is already assigned *)
| PageConfigFails    (* a page setter rejects: [browser] and [page] are assigned *).

(** How [axios.post] settles. *)
Inductive PostOutcome :=
| Response (status : Z) (referrals : option (list Api.referral))
    (* an answer came back; [None] when its body has no [referrals] array *)
| NoResponse
    (* no answer: axios rejects with an error that has no [response] *).

(** The world outside the process during one polling cycle. *)
Record Env := {
  processEnv : Config;
  setup : SetupOutcome;
  portalLogin : bool;                        (* the page steps of the login and of the way to
                                                the referral list go through *)
  scraped : option (list Member.data);       (* the rows read off the referral list; [None]
                                                when reading them throws *)
  storedAt : Member.data -> Z;               (* what [new Date()] reads when a row is stored *)
  jar : list (string * string);              (* page.cookies(): name, value *)
  post : string -> string -> PostOutcome;    (* the API's answer to a Cookie and X-XSRF-TOKEN header *)
  enteredAt : Z;                             (* the clock when checkForNewReferrals is called *)
  now : Z;                                   (* what [new Date()] reads at bot.ts:1303 *)
  smtpOk : string -> string -> string -> bool;  (* to, subject, text *)
  twilioOk : string -> string -> bool;          (* to, body *)
  closeOk : bool                             (* browser.close() resolves *)
}.

(** Module state of bot.ts, the two collections, and what has been observed. *)
Record World := {
  browser : option nat;
  page : option nat;
  lastCheckTime : Z;
  referrals : list Doc.t;
  notifications : list Note.t;
  nextId : nat;              (* the next ObjectId *)
  launched : nat;            (* browsers launched so far; names the handles *)
  trace : list Event;
  console : list string
}.

Definition setBrowser (b : option nat) (w : World) : World :=
  {| browser := b; page := page w; lastCheckTime := lastCheckTime w;
     referrals := referrals w; notifications := notifications w;
     nextId := nextId w; launched := launched w; trace := trace w;
     console := console w |}.

Definition setPage (p : option nat) (w : World) : World :=
  {| browser := browser w; page := p; lastCheckTime := lastCheckTime w;
     referrals := referrals w; notifications := notifications w;
     nextId := nextId w; launched := launched w; trace := trace w;
     console := console w |}.

Definition setLastCheckTime (t : Z) (w : World) : World :=
  {| browser := browser w; page := page w; lastCheckTime := t;
     referrals := referrals w; notifications := notifications w;
     nextId := nextId w; launched := launched w; trace := trace w;
     console := console w |}.

Definition setReferrals (l : list Doc.t) (w : World) : World :=
  {| browser := browser w; page := page w; lastCheckTime := lastCheckTime w;
     referrals := l; notifications := notifications w;
     nextId := nextId w; launched := launched w; trace := trace w;
     console := console w |}.

Definition setNotifications (l : list Note.t) (w : World) : World :=
  {| browser := browser w; page := page w; lastCheckTime := lastCheckTime w;
     referrals := referrals w; notifications := l;
     nextId := nextId w; launched := launched w; trace := trace w;
     console := console w |}.

Definition setNextId (n : nat) (w : World) : World :=
  {| browser := browser w; page := page w; lastCheckTime := lastCheckTime w;
     referrals := referrals w; notifications := notifications w;
     nextId := n; launched := launched w; trace := trace w;
     console := console w |}.

Definition setLaunched (n : nat) (w : World) : World :=
  {| browser := browser w; page := page w; lastCheckTime := lastCheckTime w;
     referrals := referrals w; notifications := notifications w;
     nextId := nextId w; launched := n; trace := trace w;
     console := console w |}.

Definition setTrace (t : list Event) (w : World) : World :=
  {| browser := browser w; page := page w; lastCheckTime := lastCheckTime w;
     referrals := referrals w; notifications := notifications w;
     nextId := nextId w; launched := launched w; trace := t;
     console := console w |}.

Definition setConsole (c : list string) (w : World) : World :=
  {| browser := browser w; page := page w; lastCheckTime := lastCheckTime w;
     referrals := referrals w; notifications := notifications w;
     nextId := nextId w; launched := launched w; trace := trace w;
     console := c |}.

(* ===================================================================== *)
(** * Computations: state with exceptions *)
(* ===================================================================== *)

Definition M (A : Type) : Type := World -> Result A * World.

Definition ret {A} (a : A) : M A := fun w => (Ok a, w).

Definition bind {A B} (m : M A) (k : A -> M B) : M B :=
  fun w => match m w with
           | (Ok a, w') => k a w'
           | (Throw e, w') => (Throw e, w')
           end.

Definition throw {A} (e : Error) : M A := fun w => (Throw e, w).

(** [try { m } catch (e) { h e }] *)
Definition tryCatch {A} (m : M A) (h : Error -> M A) : M A :=
  fun w => match m w with
           | (Ok a, w') => (Ok a, w')
           | (Throw e, w') => h e w'
           end.

Definition get : M World := fun w => (Ok w, w).
Definition modify (f : World -> World) : M unit := fun w => (Ok tt, f w).

Declare Scope js_scope.
Delimit Scope js_scope with js.
Notation "x <- c1 ;; c2" := (bind c1 (fun x => c2))
  (at level 61, c1 at next level, right associativity) : js_scope.
Notation "c1 ;; c2" := (bind c1 (fun _ => c2))
  (at level 61, right associativity) : js_scope.
Local Open Scope js_scope.

Definition emit (e : Event) : M unit := modify (fun w => setTrace (trace w ++ [e]) w).
Definition consoleError (line : string) : M unit :=
  modify (fun w => setConsole (console w ++ [line]) w).
Definition consoleWarn (line : string) : M unit :=
  modify (fun w => setConsole (console w ++ [line]) w).

(** [for (const x of l) { await body(x) }] *)
Fixpoint forOf {A} (l : list A) (body : A -> M unit) : M unit :=
  match l with
  | [] => ret tt
  | x :: rest => body x ;; forOf rest body
  end.

Definition run {A} (m : M A) (w : World) : World := snd (m w).
Definition outcome {A} (m : M A) (w : World) : Result A := fst (m w).

(** The events a computation adds to a world's trace. *)
Definition since (w w' : World) : list Event := skipn (List.length (trace w)) (trace w').

(* ===================================================================== *)
(** * services/email.ts *)
(* ===================================================================== *)

(** [process.env.EMAIL_RECIPIENTS?.split(",").map((r) => r.trim()) || []]
    (email.ts, line 54).  An array is truthy, so [[]] is taken only when the
    variable is not set. *)
Definition emailRecipients (cfg : Config) : list string :=
  match EMAIL_RECIPIENTS cfg with
  | Some s => map Js.trim (Js.split Js.comma s)
  | None => []
  end.

Definition defaultSender : string := "adeoyeoluwaferanmi@gmail.com".

(** [sendEmail] (email.ts, lines 49-75). *)
Definition sendEmail (env : Env) (subject text : string) : M unit :=
  tryCatch
    (let recipients := emailRecipients (processEnv env) in
     if (List.length recipients =? 0)%nat then
       consoleWarn "No email recipients configured in environment variables"
     else
       let from := Js.orElse (EMAIL_FROM (processEnv env)) defaultSender in
       let to := Js.join "," recipients in
       emit (EvSendMail from to subject text) ;;
       if smtpOk env to subject text then ret tt else throw ErrSmtp)
    (fun error =>
       consoleError "Error sending email notification:" ;;
       throw error).

(* ===================================================================== *)
(** * services/sms.ts *)
(* ===================================================================== *)

(** [process.env.SMS_RECIPIENTS?.split(",") || []] (sms.ts, line 9). *)
Definition toNumbers (cfg : Config) : list string :=
  match SMS_RECIPIENTS cfg with
  | Some s => Js.split Js.comma s
  | None => []
  end.

(** [sendSMS] (sms.ts, lines 11-48).  The four constants of lines 6-9 are read
    from the environment of the cycle. *)
Definition sendSMS (env : Env) (message : string) : M unit :=
  let cfg := processEnv env in
  tryCatch
    (if Js.falsy (TWILIO_SID cfg) || Js.falsy (TWILIO_AUTH_TOKEN cfg)
        || Js.falsy (TWILIO_PHONE_NUMBER cfg) then
       consoleWarn "Twilio credentials not configured in environment variables"
     else if (List.length (toNumbers cfg) =? 0)%nat then
       consoleWarn "No SMS recipients configured in environment variables"
     else
       let fromNumber := Js.orElse (TWILIO_PHONE_NUMBER cfg) "" in
       forOf (toNumbers cfg) (fun toNumber =>
         emit (EvTwilioCreate message fromNumber (Js.trim toNumber)) ;;
         if twilioOk env (Js.trim toNumber) message then ret tt else throw ErrTwilio))
    (fun error =>
       consoleError "Error sending SMS notification:" ;;
       throw error).

(* ===================================================================== *)
(** * The two collections *)
(* ===================================================================== *)

(** [Referral.findOne(q)]: the first stored document that matches. *)
Definition findOne (q : Query) : M (option Doc.t) :=
  emit (EvFindOne q) ;;
  w <- get ;;
  ret (find (matches q) (referrals w)).

(** [Referral.create(fields)]: [fields] is the document without its [_id]. *)
Definition createReferral (fields : nat -> Doc.t) : M Doc.t :=
  w <- get ;;
  let d := fields (nextId w) in
  emit (EvCreateReferral d) ;;
  modify (fun w => setReferrals (referrals w ++ [d]) (setNextId (S (nextId w)) w)) ;;
  ret d.

(** [doc.isNotified = true; await doc.save()]: the modified path is written
    to the stored document that has the [_id] of [doc]. *)
Definition saveNotified (d : Doc.t) : M unit :=
  emit (EvSave (Doc._id d)) ;;
  modify (fun w =>
    setReferrals
      (map (fun x => if (Doc._id x =? Doc._id d)%nat then Doc.setNotified true x else x)
           (referrals w)) w).

(** A [required: true] string path rejects the empty string. *)
Definition requiredString (s : string) : bool := negb (String.eqb s EmptyString).

(** [Notification.create({referralId, memberName, memberID, message})]:
    validation runs before anything is written. *)
Definition createNotification (referralId : nat) (memberName memberID message : string)
  : M Note.t :=
  if requiredString memberName && requiredString memberID && requiredString message then
    w <- get ;;
    let n := {| Note._id := nextId w; Note.referralId := referralId;
                Note.memberName := memberName; Note.memberID := memberID;
                Note.message := message; Note.isRead := false |} in
    emit (EvCreateNotification n) ;;
    modify (fun w => setNotifications (notifications w ++ [n]) (setNextId (S (nextId w)) w)) ;;
    ret n
  else throw ErrValidation.

(* ===================================================================== *)
(** * services/bot.ts: the browser session *)
(* ===================================================================== *)

Definition isNull {A} (v : option A) : bool :=
  match v with Some _ => false | None => true end.

(** [setupBot] (bot.ts, lines 94-135).  The two module variables are assigned
    as the steps go through; a rejected step leaves the earlier assignments. *)
Definition setupBot (env : Env) : M unit :=
  tryCatch
    (emit EvLaunch ;;
     match setup env with
     | LaunchFails => throw ErrSetup
     | later =>
         w <- get ;;
         let handle := launched w in
         modify (fun w => setBrowser (Some handle) (setLaunched (S handle) w)) ;;
         emit EvNewPage ;;
         match later with
         | NewPageFails => throw ErrSetup
         | later' =>
             modify (setPage (Some handle)) ;;
             match later' with
             | PageConfigFails => throw ErrSetup
             | _ => ret tt
             end
         end
     end)
    (fun error =>
       consoleError "Error setting up bot:" ;;
       throw error).

(** [cookies.map((cookie) => `${cookie.name}=${cookie.value}`).join("; ")] *)
Definition cookieString (cookies : list (string * string)) : string :=
  Js.join "; " (map (fun cookie => (fst cookie ++ "=" ++ snd cookie)%string) cookies).

(** [getSessionCookies] (bot.ts, lines 74-81). *)
Definition getSessionCookies (env : Env) : M string :=
  w <- get ;;
  match page w with
  | None => throw ErrPageNotInitialized
  | Some _ =>
      emit EvCookies ;;
      ret (cookieString (jar env))
  end.

(** [closeBrowser] (bot.ts, lines 83-92). *)
Definition closeBrowser (env : Env) : M unit :=
  w <- get ;;
  match browser w with
  | Some _ =>
      emit EvBrowserClose ;;
      (if closeOk env then ret tt else throw ErrClose) ;;
      modify (setBrowser None) ;;
      modify (setPage None)
  | None => ret tt
  end.

(** [extractXsrfToken] (bot.ts, lines 1401-1404). *)
Definition extractXsrfToken (cookies : string) : string :=
  match Js.matchXsrf cookies with
  | Some group => group
  | None => ""
  end.



(* ===================================================================== *)
(** * services/bot.ts: the polling cycle *)
(* ===================================================================== *)

(** [axios.post(REFERRALS_API_URL, body, {headers})] followed by the read of
    [response.data.referrals.length] (bot.ts, lines 1279-1301).  The default
    [validateStatus] resolves for 200..299 and rejects otherwise. *)
Definition axiosPost (env : Env) (cookies xsrfToken : string) : M (list Api.referral) :=
  emit (EvPost cookies xsrfToken) ;;
  match post env cookies xsrfToken with
  | Response status body =>
      if (200 <=? status)%Z && (status <? 300)%Z then
        match body with
        | Some referrals => ret referrals
        | None => throw ErrTypeError
        end
      else throw (ErrAxios (Some status))
  | NoResponse => throw (ErrAxios None)
  end.

(** The document that [Referral.create({...referral, isNotified: false})]
    stores (bot.ts, lines 1331-1334). *)
Definition docOfReferral (r : Api.referral) (id : nat) : Doc.t :=
  {| Doc._id := id;
     Doc.memberID := Api.memberID r;
     Doc.memberName := Api.memberName r;
     Doc.serviceName := Api.serviceName r;
     Doc.regionName := Some (Api.regionName r);
     Doc.requestOn := Api.requestOn r;
     Doc.county := Some (Api.county r);
     Doc.plan := Some (Api.plan r);
     Doc.preferredStartDate := Some (Api.preferredStartDate r);
     Doc.status := Api.status r;
     Doc.isNotified := false |}.

Definition notificationMessage (r : Api.referral) : string :=
  ("New referral for " ++ Api.memberName r ++ " (" ++ Api.serviceName r
   ++ ") received on " ++ Api.requestOn r)%string.

Definition emailSubject : string := "New Referral Notification".

Definition emailText (r : Api.referral) : string :=
  ("New referral received for " ++ Api.memberName r ++ " (ID: " ++ Api.memberID r ++ ")."
   ++ Js.nl ++ Js.nl
   ++ "Service: " ++ Api.serviceName r ++ Js.nl
   ++ "Region: " ++ Api.regionName r ++ Js.nl
   ++ "County: " ++ Api.county r ++ Js.nl
   ++ "Plan: " ++ Api.plan r ++ Js.nl
   ++ "Preferred Start Date: " ++ Api.preferredStartDate r ++ Js.nl
   ++ "Status: " ++ Api.status r)%string.

Definition smsText (r : Api.referral) : string :=
  ("New referral: " ++ Api.memberName r ++ " (" ++ Api.memberID r ++ ") for "
   ++ Api.serviceName r ++ ". Check dashboard for details.")%string.

(** The body of the loop over [newReferrals] (bot.ts, lines 1316-1371). *)
Definition processReferral (env : Env) (referral : Api.referral) : M unit :=
  existingReferral <- findOne (ByRequestOn (Api.memberID referral) (Api.requestOn referral)) ;;
  match existingReferral with
  | None =>
      savedReferral <- createReferral (docOfReferral referral) ;;
      _ <- createNotification (Doc._id savedReferral) (Api.memberName referral)
             (Api.memberID referral) (notificationMessage referral) ;;
      sendEmail env emailSubject (emailText referral) ;;
      sendSMS env (smsText referral) ;;
      saveNotified savedReferral
  | Some _ => ret tt
  end.

(** The [catch] clause of [checkForNewReferrals] (bot.ts, lines 1381-1398). *)
Definition catchCheckError (env : Env) (error : Error) : M unit :=
  consoleError "Error checking for new referrals:" ;;
  match error with
  | ErrAxios (Some status) =>
      if (status =? 401)%Z || (status =? 403)%Z then
        closeBrowser env ;;
        modify (setBrowser None) ;;
        modify (setPage None) ;;
        throw error
      else throw error
  | _ => throw error
  end.

Section Dates.

(** [new Date(s)]: the time value, or [None] for an Invalid Date. *)
Variable parseDate : string -> option Z.
(** [d.toISOString()] *)
Variable toISOString : Z -> string.

(** The document that [saveMembersToDatabase] creates (bot.ts, lines
    1220-1227). *)
Definition docOfMember (env : Env) (member : Member.data) (id : nat) : Doc.t :=
  {| Doc._id := id;
     Doc.memberID := Member.memberID member;
     Doc.memberName := Member.memberName member;
     Doc.serviceName := Js.orElse (Member.serviceName member) "";
     Doc.regionName := None;
     Doc.requestOn := Js.orElse (Member.requestDate member)
                                (toISOString (storedAt env member));
     Doc.county := None;
     Doc.plan := None;
     Doc.preferredStartDate := None;
     Doc.status := Js.orElse (Member.status member) "";
     Doc.isNotified := true |}.

Definition memberMessage (member : Member.data) : string :=
  ("Member found in referrals: " ++ Member.memberName member ++ " ("
   ++ Js.orElse (Member.serviceName member) "No service specified" ++ ")")%string.

Definition memberSms (member : Member.data) : string :=
  ("New member in referrals: " ++ Member.memberName member ++ " ("
   ++ Member.memberID member ++ "). Check dashboard for details.")%string.

(** The body of the loop of [saveMembersToDatabase] (bot.ts, lines 1209-1247). *)
Definition saveMember (env : Env) (member : Member.data) : M unit :=
  existingMember <- findOne (ByMemberName (Member.memberID member) (Member.memberName member)) ;;
  match existingMember with
  | None =>
      newReferral <- createReferral (docOfMember env member) ;;
      _ <- createNotification (Doc._id newReferral) (Member.memberName member)
             (Member.memberID member) (memberMessage member) ;;
      sendSMS env (memberSms member)
  | Some _ => ret tt
  end.

(** [saveMembersToDatabase] (bot.ts, lines 1204-1253). *)
Definition saveMembersToDatabase (env : Env) (members : list Member.data) : M unit :=
  tryCatch (forOf members (saveMember env))
           (fun _ => consoleError "Error saving members to database:").

(** The text that [sendMemberInformationEmail] builds (bot.ts, lines
    1173-1193); [index] counts the rows from 0. *)
Fixpoint memberLines (index : nat) (members : list Member.data) : string :=
  match members with
  | [] => ""
  | member :: rest =>
      ("Member " ++ Js.decimal (index + 1) ++ ":" ++ Js.nl
       ++ "Name: " ++ Member.memberName member ++ Js.nl
       ++ "ID: " ++ Member.memberID member ++ Js.nl
       ++ (if Js.falsy (Member.serviceName member) then ""
           else "Service: " ++ Js.orElse (Member.serviceName member) "" ++ Js.nl)
       ++ (if Js.falsy (Member.status member) then ""
           else "Status: " ++ Js.orElse (Member.status member) "" ++ Js.nl)
       ++ (if Js.falsy (Member.requestDate member) then ""
           else "Request Date: " ++ Js.orElse (Member.requestDate member) "" ++ Js.nl)
       ++ Js.nl
       ++ memberLines (S index) rest)%string
  end.

Definition memberEmailContent (members : list Member.data) : string :=
  ("Current Members in Referrals:" ++ Js.nl ++ Js.nl ++ memberLines 0 members)%string.

Definition memberEmailSubject : string := "Availity Referrals - Current Members".

(** [sendMemberInformationEmail] (bot.ts, lines 1168-1201). *)
Definition sendMemberInformationEmail (env : Env) (members : list Member.data) : M unit :=
  tryCatch (sendEmail env memberEmailSubject (memberEmailContent members))
           (fun _ => consoleError "Error sending member information email:").

(** [extractMemberInformation] (bot.ts, lines 1023-1166): the rows are read
    off the page, mailed when there are any, and stored.  Screenshots are not
    modelled. *)
Definition extractMemberInformation (env : Env) : M (list Member.data) :=
  tryCatch
    (match scraped env with
     | None => throw ErrScrape
     | Some members =>
         (if (0 <? List.length members)%nat then sendMemberInformationEmail env members
          else ret tt) ;;
         saveMembersToDatabase env members ;;
         ret members
     end)
    (fun _ =>
       consoleError "Error extracting member information:" ;;
       ret []).

(** [loginToAvaility] (bot.ts, lines 197-300), with [navigateToCareCentral]
    (lines 611-1021), which it ends with.  The steps on the page (the login
    form, the second factor, the pop-ups, the way to the referral list; lines
    211-290 and 613-1011) are one step that either goes through or throws;
    [navigateToCareCentral] then calls [extractMemberInformation]. *)
Definition loginToAvaility (env : Env) : M bool :=
  tryCatch
    (w <- get ;;
     (if isNull (browser w) || isNull (page w) then setupBot env else ret tt) ;;
     w <- get ;;
     match page w with
     | None =>
         consoleError "Browser page not initialized after setup attempt" ;;
         throw ErrPageNotInitialized
     | Some _ =>
         emit EvPortalLogin ;;
         (if portalLogin env then ret tt else throw ErrPortalLogin) ;;
         _ <- extractMemberInformation env ;;
         ret true
     end)
    (fun error =>
       consoleError "Error during login attempt:" ;;
       throw error).

(** [new Date(referral.requestOn) > lastCheckTime] (bot.ts, lines 1307-1310);
    a comparison with an Invalid Date is false. *)
Definition isNew (lastCheck : Z) (referral : Api.referral) : bool :=
  match parseDate (Api.requestOn referral) with
  | Some requestDate => (requestDate >? lastCheck)%Z
  | None => false
  end.

(** [checkForNewReferrals] (bot.ts, lines 1256-1399). *)
Definition checkForNewReferrals (env : Env) : M unit :=
  tryCatch
    (isLoggedIn <- loginToAvaility env ;;
     (if negb isLoggedIn then
        consoleError "Failed to login to Availity" ;; throw ErrFailedToLogin
      else ret tt) ;;
     cookies <- getSessionCookies env ;;
     let xsrfToken := extractXsrfToken cookies in
     response <- axiosPost env cookies xsrfToken ;;
     let currentTime := now env in
     w <- get ;;
     let newReferrals := filter (isNew (lastCheckTime w)) response in
     (if (0 <? List.length newReferrals)%nat then
        forOf newReferrals (processReferral env)
      else ret tt) ;;
     modify (setLastCheckTime currentTime))
    (catchCheckError env).

(** One round of [startReferralMonitoring] (bot.ts, lines 1411-1428): the
    error of a check is logged under [label] and goes no further. *)
Definition monitoredCheck (label : string) (env : Env) : M unit :=
  tryCatch (checkForNewReferrals env) (fun _ => consoleError label).

(** [startReferralMonitoring]: the initial check and the scheduled ones, one
    environment each, one after the other. *)
Definition startReferralMonitoring (first : Env) (ticks : list Env) : M unit :=
  monitoredCheck "Error in initial referral check:" first ;;
  forOf ticks (monitoredCheck "Error in scheduled referral check:").

(** The handler of [POST /start-bot] (app.ts, lines 19-33); the result is the
    status of the response. *)
Definition startBot (env : Env) : M Z :=
  tryCatch
    (setupBot env ;;
     loginSuccess <- loginToAvaility env ;;
     if loginSuccess then ret 200%Z else ret 500%Z)
    (fun _ =>
       consoleError "Error starting bot:" ;;
       ret 500%Z).

End Dates.

(** The state of the process once bot.ts is loaded at time [start], over a
    store that holds [docs] and [notes] (bot.ts, lines 16-18). *)
Definition moduleLoad (start : Z) (docs : list Doc.t) (notes : list Note.t) (fresh : nat)
  : World :=
  {| browser := None; page := None; lastCheckTime := start;
     referrals := docs; notifications := notes; nextId := fresh;
     launched := 0; trace := []; console := [] |}.

(* ===================================================================== *)
(** * Scenarios *)
(* ===================================================================== *)

(** Concrete dates, environments and worlds on which the worker is run
    further down. *)
Module Demo.

Definition digitOf (c : ascii) : option Z :=
  let n := nat_of_ascii c in
  if (48 <=? n)%nat && (n <=? 57)%nat then Some (Z.of_nat (n - 48)) else None.

Fixpoint readDigits (count : nat) (acc : Z) (s : string) : option (Z * string) :=
  match count, s with
  | O, _ => Some (acc, s)
  | S k, String c rest =>
      match digitOf c with
      | Some d => readDigits k (acc * 10 + d)%Z rest
      | None => None
      end
  | S _, EmptyString => None
  end.

Definition readChar (c : ascii) (s : string) : option string :=
  match s with
  | String c' rest => if Ascii.eqb c c' then Some rest else None
  | EmptyString => None
  end.

Definition isLeap (y : Z) : bool :=
  ((y mod 4 =? 0) && (negb (y mod 100 =? 0) || (y mod 400 =? 0)))%Z.

Definition daysInMonth (y m : Z) : Z :=
  if (m =? 2)%Z then (if isLeap y then 29 else 28)%Z
  else if ((m =? 4) || (m =? 6) || (m =? 9) || (m =? 11))%Z then 30%Z else 31%Z.

(** Days from 1970-01-01 to the given day of the proleptic Gregorian
    calendar. *)
Definition daysFromCivil (y m d : Z) : Z :=
  (let y' := if m <=? 2 then y - 1 else y in
   let era := y' / 400 in
   let yoe := y' - era * 400 in
   let mp := (m + 9) mod 12 in
   let doy := (153 * mp + 2) / 5 + d - 1 in
   let doe := yoe * 365 + yoe / 4 - yoe / 100 + doy in
   era * 146097 + doe - 719468)%Z.

Definition inRange (lo hi v : Z) : bool := ((lo <=? v) && (v <=? hi))%Z.

Definition andThen {A B} (v : option A) (k : A -> option B) : option B :=
  match v with Some a => k a | None => None end.

(** An instance of [new Date(s)]: the time value of a string in the form
    [YYYY-MM-DDTHH:mm:ss.sssZ], the one [toISOString] prints; any other
    string is an Invalid Date here. *)
Definition utcDate (s : string) : option Z :=
  andThen (readDigits 4 0 s) (fun '(y, s) =>
  andThen (readChar "-" s) (fun s =>
  andThen (readDigits 2 0 s) (fun '(mo, s) =>
  andThen (readChar "-" s) (fun s =>
  andThen (readDigits 2 0 s) (fun '(d, s) =>
  andThen (readChar "T" s) (fun s =>
  andThen (readDigits 2 0 s) (fun '(h, s) =>
  andThen (readChar ":" s) (fun s =>
  andThen (readDigits 2 0 s) (fun '(mi, s) =>
  andThen (readChar ":" s) (fun s =>
  andThen (readDigits 2 0 s) (fun '(sec, s) =>
  andThen (readChar "." s) (fun s =>
  andThen (readDigits 3 0 s) (fun '(ms, s) =>
  andThen (readChar "Z" s) (fun s =>
    match s with
    | EmptyString =>
        if inRange 1 12 mo && inRange 1 (daysInMonth y mo) d && inRange 0 23 h
           && inRange 0 59 mi && inRange 0 59 sec
        then Some ((((daysFromCivil y mo d * 24 + h) * 60 + mi) * 60 + sec) * 1000 + ms)%Z
        else None
    | _ => None
    end)))))))))))))).

Definition digitChar (v : Z) : ascii := ascii_of_nat (48 + Z.to_nat (v mod 10)).

(** [v] in [width] decimal digits. *)
Fixpoint pad (width : nat) (v : Z) : string :=
  match width with
  | O => EmptyString
  | S k => (pad k (v / 10) ++ String (digitChar v) EmptyString)%string
  end.

(** An instance of [toISOString], for the years 0000 to 9999. *)
Definition isoString (t : Z) : string :=
  let days := (t / 86400000)%Z in
  let rest := (t mod 86400000)%Z in
  let z := (days + 719468)%Z in
  let era := (z / 146097)%Z in
  let doe := (z - era * 146097)%Z in
  let yoe := ((doe - doe / 1460 + doe / 36524 - doe / 146096) / 365)%Z in
  let doy := (doe - (365 * yoe + yoe / 4 - yoe / 100))%Z in
  let mp := ((5 * doy + 2) / 153)%Z in
  let d := (doy - (153 * mp + 2) / 5 + 1)%Z in
  let m := (if mp <? 10 then mp + 3 else mp - 9)%Z in
  let y := (yoe + era * 400 + (if m <=? 2 then 1 else 0))%Z in
  (pad 4 y ++ "-" ++ pad 2 m ++ "-" ++ pad 2 d ++ "T"
   ++ pad 2 (rest / 3600000)%Z ++ ":" ++ pad 2 ((rest / 60000) mod 60)%Z ++ ":"
   ++ pad 2 ((rest / 1000) mod 60)%Z ++ "." ++ pad 3 (rest mod 1000)%Z ++ "Z")%string.

Definition cfg : Config :=
  {| EMAIL_USER := Some "apikey";
     EMAIL_PASS := Some "SG.0001";
     EMAIL_FROM := None;
     EMAIL_RECIPIENTS := Some "ops@example.org, lead@example.org";
     TWILIO_SID := Some "AC0001";
     TWILIO_AUTH_TOKEN := Some "0001";
     TWILIO_PHONE_NUMBER := Some "+15550100";
     SMS_RECIPIENTS := Some "+15550101, +15550102" |}.

(** Recipients are configured, the SMTP credentials are not. *)
Definition cfgNoSmtpLogin : Config :=
  {| EMAIL_USER := None;
     EMAIL_PASS := None;
     EMAIL_FROM := None;
     EMAIL_RECIPIENTS := Some "ops@example.org";
     TWILIO_SID := Some "AC0001";
     TWILIO_AUTH_TOKEN := Some "0001";
     TWILIO_PHONE_NUMBER := Some "+15550100";
     SMS_RECIPIENTS := Some "+15550101" |}.

(** Nothing is configured. *)
Definition cfgEmpty : Config :=
  {| EMAIL_USER := None; EMAIL_PASS := None; EMAIL_FROM := None;
     EMAIL_RECIPIENTS := None; TWILIO_SID := None; TWILIO_AUTH_TOKEN := None;
     TWILIO_PHONE_NUMBER := None; SMS_RECIPIENTS := None |}.

Definition referralOf (name id requested : string) : Api.referral :=
  {| Api.memberName := name; Api.memberID := id;
     Api.serviceName := "Personal Care"; Api.regionName := "Middle";
     Api.county := "Davidson"; Api.plan := "CHOICES";
     Api.preferredStartDate := "2024-05-10"; Api.status := "NEW";
     Api.requestOn := requested |}.

Definition early : Api.referral := referralOf "ROE, RICHARD" "A099" "2024-04-30T09:00:00.000Z".
Definition jane : Api.referral := referralOf "DOE, JANE" "A100" "2024-05-02T10:00:00.000Z".
Definition john : Api.referral := referralOf "POE, JOHN" "A101" "2024-05-02T10:07:30.000Z".

(** 2024-05-01T00:00:00.000Z *)
Definition processStart : Z := 1714521600000.
(** 2024-05-02T10:05:00.000Z *)
Definition firstTick : Z := 1714644300000.
(** 2024-05-02T10:08:00.000Z *)
Definition secondTick : Z := 1714644480000.

(** A cycle in which everything outside goes well: it is entered at
    [entered], the referral list of the page is empty, the API answers
    [answer], and the clock is read 4.2 s after the cycle was entered. *)
Definition cycle (config : Config) (answer : PostOutcome) (entered : Z) : Env :=
  {| processEnv := config; setup := SetupOk; portalLogin := true;
     scraped := Some []; storedAt := fun _ => (entered + 2100)%Z;
     jar := [("JSESSIONID", "9f2c"); ("XSRF-TOKEN", "7d1e")];
     post := fun _ _ => answer;
     enteredAt := entered; now := (entered + 4200)%Z;
     smtpOk := fun _ _ _ => true; twilioOk := fun _ _ => true; closeOk := true |}.

(** The same cycle with a mail transport that rejects every message. *)
Definition smtpDown (env : Env) : Env :=
  {| processEnv := processEnv env; setup := setup env; portalLogin := portalLogin env;
     scraped := scraped env; storedAt := storedAt env;
     jar := jar env; post := post env; enteredAt := enteredAt env; now := now env;
     smtpOk := fun _ _ _ => false; twilioOk := twilioOk env; closeOk := closeOk env |}.

(** The same cycle with another cookie jar. *)
Definition withJar (cookies : list (string * string)) (env : Env) : Env :=
  {| processEnv := processEnv env; setup := setup env; portalLogin := portalLogin env;
     scraped := scraped env; storedAt := storedAt env;
     jar := cookies; post := post env; enteredAt := enteredAt env; now := now env;
     smtpOk := smtpOk env; twilioOk := twilioOk env; closeOk := closeOk env |}.

(** The same cycle with rows on the referral list of the page. *)
Definition withRows (rows : list Member.data) (env : Env) : Env :=
  {| processEnv := processEnv env; setup := setup env; portalLogin := portalLogin env;
     scraped := Some rows; storedAt := storedAt env;
     jar := jar env; post := post env; enteredAt := enteredAt env; now := now env;
     smtpOk := smtpOk env; twilioOk := twilioOk env; closeOk := closeOk env |}.

(** The same cycle with an SMS transport that rejects the messages to one
    number. *)
Definition smsDownFor (number : string) (env : Env) : Env :=
  {| processEnv := processEnv env; setup := setup env; portalLogin := portalLogin env;
     scraped := scraped env; storedAt := storedAt env;
     jar := jar env; post := post env; enteredAt := enteredAt env; now := now env;
     smtpOk := smtpOk env;
     twilioOk := fun to _ => negb (String.eqb to number);
     closeOk := closeOk env |}.

(** The same cycle with another way for the browser to start. *)
Definition withSetup (outcome : SetupOutcome) (env : Env) : Env :=
  {| processEnv := processEnv env; setup := outcome; portalLogin := portalLogin env;
     scraped := scraped env; storedAt := storedAt env;
     jar := jar env; post := post env; enteredAt := enteredAt env; now := now env;
     smtpOk := smtpOk env; twilioOk := twilioOk env; closeOk := closeOk env |}.

(** The same cycle with a browser that refuses to close. *)
Definition closeFails (env : Env) : Env :=
  {| processEnv := processEnv env; setup := setup env; portalLogin := portalLogin env;
     scraped := scraped env; storedAt := storedAt env;
     jar := jar env; post := post env; enteredAt := enteredAt env; now := now env;
     smtpOk := smtpOk env; twilioOk := twilioOk env; closeOk := false |}.

(** The same cycle with a portal that does not let the worker through. *)
Definition portalFails (env : Env) : Env :=
  {| processEnv := processEnv env; setup := setup env; portalLogin := false;
     scraped := scraped env; storedAt := storedAt env;
     jar := jar env; post := post env; enteredAt := enteredAt env; now := now env;
     smtpOk := smtpOk env; twilioOk := twilioOk env; closeOk := closeOk env |}.

(** A referral that the API sends without the member's name. *)
Definition nameless : Api.referral := referralOf "" "A102" "2024-05-02T10:01:00.000Z".

Definition first : Env := cycle cfg (Response 200 (Some [early; jane])) firstTick.
Definition second : Env := cycle cfg (Response 200 (Some [early; jane; john])) secondTick.
Definition denied : Env := cycle cfg (Response 401 None) firstTick.
Definition idle (entered : Z) : Env := cycle cfg (Response 200 (Some [])) entered.
Definition unavailable : Env := cycle cfg (Response 503 None) firstTick.
Definition bodyless : Env := cycle cfg (Response 200 None) firstTick.

(** The row of the page for the member of [jane], without a date. *)
Definition janeRow : Member.data :=
  {| Member.memberName := "DOE, JANE"; Member.memberID := "A100";
     Member.serviceName := Some "Personal Care"; Member.status := Some "NEW";
     Member.requestDate := None; Member.additionalInfo := None |}.

(** A row for the same member and a request made a month later. *)
Definition janeRowLater : Member.data :=
  {| Member.memberName := "DOE, JANE"; Member.memberID := "A100";
     Member.serviceName := Some "Respite"; Member.status := Some "NEW";
     Member.requestDate := Some "2024-06-01T08:00:00.000Z";
     Member.additionalInfo := None |}.

(** A row of the page whose name had not rendered when it was read. *)
Definition unnamedRow : Member.data :=
  {| Member.memberName := "Unknown"; Member.memberID := "REF-77";
     Member.serviceName := Some "Personal Care"; Member.status := Some "";
     Member.requestDate := Some "05/02/2024"; Member.additionalInfo := None |}.

(** The same row, read with its name. *)
Definition namedRow : Member.data :=
  {| Member.memberName := "DOE, JANE"; Member.memberID := "REF-77";
     Member.serviceName := Some "Personal Care"; Member.status := Some "NEW";
     Member.requestDate := Some "05/02/2024"; Member.additionalInfo := None |}.

(** The row of the page for the referral of [john]. *)
Definition johnRow : Member.data :=
  {| Member.memberName := "POE, JOHN"; Member.memberID := "A101";
     Member.serviceName := Some "Personal Care"; Member.status := Some "NEW";
     Member.requestDate := Some "2024-05-02T10:07:30.000Z";
     Member.additionalInfo := None |}.

(** A jar without a cookie named XSRF-TOKEN. *)
Definition foreignJar : list (string * string) :=
  [("JSESSIONID", "9f2c"); ("MY-XSRF-TOKEN", "abc")].

(** The process right after start, over an empty store. *)
Definition start : World := moduleLoad processStart [] [] 0.

End Demo.

(* ===================================================================== *)
(** * Reasoning about computations *)
(* ===================================================================== *)

(** What a computation leaves unchanged is stated as a relation between the
    world before and the world after. *)
Definition keeps {A} (R : World -> World -> Prop) (m : M A) : Prop :=
  forall w, R w (run m w).

(** The store and the watermark are as before. *)
Definition sameData (w w' : World) : Prop :=
  lastCheckTime w' = lastCheckTime w /\ referrals w' = referrals w
  /\ notifications w' = notifications w /\ nextId w' = nextId w.

(** The browser session is as before. *)
Definition sameSession (w w' : World) : Prop :=
  browser w' = browser w /\ page w' = page w /\ launched w' = launched w.

(** The watermark is as before. *)
Definition sameClock (w w' : World) : Prop := lastCheckTime w' = lastCheckTime w.

(** The [Referral] collection is as before. *)
Definition sameReferrals (w w' : World) : Prop := referrals w' = referrals w.

(** The trace has only grown. *)
Definition extends (w w' : World) : Prop := exists evs, trace w' = trace w ++ evs.

(** No natural key is stored more often than before, unless it was absent,
    and then it is stored once at most. *)
Definition keyBound (w w' : World) : Prop :=
  forall k, (countKey k (referrals w') <= Nat.max 1 (countKey k (referrals w)))%nat.

(** The stored natural keys are as before, in the same order. *)
Definition sameKeys (w w' : World) : Prop :=
  map keyOf (referrals w') = map keyOf (referrals w).

(** The events with which a cycle opens a browser session when the module
    holds none. *)
Definition opening (w : World) : list Event :=
  if isNull (browser w) || isNull (page w) then [EvLaunch; EvNewPage] else [].

(** The filters of the [Referral.findOne] calls among some events. *)
Definition lookups (evs : list Event) : list Query :=
  flat_map (fun e => match e with EvFindOne q => [q] | _ => [] end) evs.

(** The lookups by natural key among some events: those of the API path. *)
Definition keyLookups (evs : list Event) : list Query :=
  flat_map (fun e => match e with
                     | EvFindOne (ByRequestOn i r) => [ByRequestOn i r]
                     | _ => []
                     end) evs.

(** The trace has grown by events that are no lookups by natural key. *)
Definition silent (w w' : World) : Prop :=
  exists evs, trace w' = trace w ++ evs /\ keyLookups evs = [].

(** How many events are calls of the referral API. *)
Definition posts (evs : list Event) : nat :=
  List.length (filter (fun e => match e with EvPost _ _ => true | _ => false end) evs).

(** The trace has grown by events that are no calls of the referral API. *)
Definition offline (w w' : World) : Prop :=
  exists evs, trace w' = trace w ++ evs /\ posts evs = 0%nat.

(** Whether an event is a call of a notification transport. *)
Definition isTransport (e : Event) : bool :=
  match e with
  | EvSendMail _ _ _ _ | EvTwilioCreate _ _ _ => true
  | _ => false
  end.

(** The lookup that [processReferral] makes for a candidate. *)
Definition queryOf (r : Api.referral) : Query :=
  ByRequestOn (Api.memberID r) (Api.requestOn r).

(** The notification that [processReferral] stores for a candidate. *)
Definition noteOfReferral (r : Api.referral) (referralId id : nat) : Note.t :=
  {| Note._id := id; Note.referralId := referralId;
     Note.memberName := Api.memberName r; Note.memberID := Api.memberID r;
     Note.message := notificationMessage r; Note.isRead := false |}.

(** What [saveNotified] does to a stored document. *)
Definition markNotified (id : nat) (x : Doc.t) : Doc.t :=
  if (Doc._id x =? id)%nat then Doc.setNotified true x else x.

(** The transport calls of [sendEmail] when nothing fails. *)
Definition emailDispatch (env : Env) (subject text : string) : list Event :=
  match emailRecipients (processEnv env) with
  | [] => []
  | recipients =>
      [EvSendMail (Js.orElse (EMAIL_FROM (processEnv env)) defaultSender)
                  (Js.join "," recipients) subject text]
  end.

(** The transport calls of [sendSMS] when nothing fails. *)
Definition smsDispatch (env : Env) (message : string) : list Event :=
  let cfg := processEnv env in
  if Js.falsy (TWILIO_SID cfg) || Js.falsy (TWILIO_AUTH_TOKEN cfg)
     || Js.falsy (TWILIO_PHONE_NUMBER cfg) then []
  else map (fun toNumber =>
              EvTwilioCreate message (Js.orElse (TWILIO_PHONE_NUMBER cfg) "") (Js.trim toNumber))
           (toNumbers cfg).

(** The watermark is as before and no lookup by natural key has been made. *)
Definition calm (w w' : World) : Prop := sameClock w w' /\ silent w w'.


(** A lookup by natural key whose [requestOn] is a date later than [t0]. *)
Definition laterThan (parseDate : string -> option Z) (t0 : Z) (q : Query) : Prop :=
  match q with
  | ByRequestOn _ requestOn => exists t, parseDate requestOn = Some t /\ (t0 < t)%Z
  | ByMemberName _ _ => False
  end.

(** What [axiosPost] throws for an answer of the API, if anything. *)
Definition fetchError (answer : PostOutcome) : option Error :=
  match answer with
  | Response status body =>
      if (200 <=? status)%Z && (status <? 300)%Z then
        match body with
        | Some _ => None
        | None => Some ErrTypeError
        end
      else Some (ErrAxios (Some status))
  | NoResponse => Some (ErrAxios None)
  end.

(** The errors on which the [catch] clause of the cycle closes the browser. *)
Definition isAuthFailure (e : Error) : bool :=
  match e with
  | ErrAxios (Some status) => (status =? 401)%Z || (status =? 403)%Z
  | _ => false
  end.

(** How many events start or end a browser. *)
Definition browserEvents (evs : list Event) : nat :=
  List.length (filter (fun e => match e with
                                | EvLaunch | EvNewPage | EvBrowserClose => true
                                | _ => false
                                end) evs).

(** The trace has grown by events that neither start nor end a browser. *)
Definition tidy (w w' : World) : Prop :=
  exists evs, trace w' = trace w ++ evs /\ browserEvents evs = 0%nat.

(** How many stored referrals a filter matches. *)
Definition countBy (q : Query) (docs : list Doc.t) : nat :=
  List.length (filter (matches q) docs).

(** No pair of memberID and memberName comes to be stored more often than
    before, unless it was absent, and then it is stored once at most. *)
Definition nameBound (w w' : World) : Prop :=
  forall i n, (countBy (ByMemberName i n) (referrals w')
               <= Nat.max 1 (countBy (ByMemberName i n) (referrals w)))%nat.

(** Every stored referral has an [_id] that was handed out before. *)
Definition wellFormed (w : World) : Prop :=
  Forall (fun d => (Doc._id d < nextId w)%nat) (referrals w).

(** Over a well-formed store: the documents of before are all there,
    unchanged and in their order, in front of the new ones. *)
Definition grown (w w' : World) : Prop :=
  wellFormed w ->
  wellFormed w' /\ (nextId w <= nextId w')%nat
  /\ exists added, referrals w' = referrals w ++ added.

(** No document was added or taken away, and none was changed, unless it is
    the document [id], which may have been marked as notified. *)
Definition marked (id : nat) (w w' : World) : Prop :=
  (nextId w <= nextId w')%nat
  /\ (referrals w' = referrals w \/ referrals w' = map (markNotified id) (referrals w)).

(** The documents under which the rows of the page of a cycle are stored,
    when they are stored (the [_id] apart). *)
Definition rowDocs (toISOString : Z -> string) (env : Env) : list Doc.t :=
  match scraped env with
  | Some rows => map (fun member => docOfMember toISOString env member 0) rows
  | None => []
  end.

(** No row of the page shows the referral of [d], told by its natural key,
    under another member name than [d] has. *)
Definition oneName (shown : list Doc.t) (d : Doc.t) : Prop :=
  forall x, In x shown -> keyOf x = keyOf d -> Doc.memberName x = Doc.memberName d.

(** As long as the rows show no stored referral under another name, this
    stays so, and no natural key comes to be stored more often than before,
    or more than once. *)
Definition guarded (shown : list Doc.t) (w w' : World) : Prop :=
  Forall (oneName shown) (referrals w) ->
  Forall (oneName shown) (referrals w') /\ keyBound w w'.

Section Keeps.

Variable R : World -> World -> Prop.
Hypothesis R_refl : forall w, R w w.
Hypothesis R_trans : forall w1 w2 w3, R w1 w2 -> R w2 w3 -> R w1 w3.

Lemma keeps_ret {A} (a : A) : keeps R (ret a).
Proof. intro w. apply R_refl. Qed.

Lemma keeps_throw {A} (e : Error) : keeps R (@throw A e).
Proof. intro w. apply R_refl. Qed.

Lemma keeps_get : keeps R get.
Proof. intro w. apply R_refl. Qed.

Lemma keeps_bind {A B} (m : M A) (k : A -> M B) :
  keeps R m -> (forall a, keeps R (k a)) -> keeps R (bind m k).
Proof.
  intros Hm Hk w. specialize (Hm w). unfold run, bind in *.
  destruct (m w) as [[a|e] w1]; simpl in *; [|exact Hm].
  eapply R_trans; [exact Hm|]. apply (Hk a w1).
Qed.

Lemma keeps_tryCatch {A} (m : M A) (h : Error -> M A) :
  keeps R m -> (forall e, keeps R (h e)) -> keeps R (tryCatch m h).
Proof.
  intros Hm Hh w. specialize (Hm w). unfold run, tryCatch in *.
  destruct (m w) as [[a|e] w1]; simpl in *; [exact Hm|].
  eapply R_trans; [exact Hm|]. apply (Hh e w1).
Qed.

Lemma keeps_forOf {A} (l : list A) (body : A -> M unit) :
  (forall x, keeps R (body x)) -> keeps R (forOf l body).
Proof.
  intro Hb. induction l as [|x l IH]; simpl.
  - apply keeps_ret.
  - apply keeps_bind; [apply Hb | intros _; exact IH].
Qed.

Lemma keeps_modify (f : World -> World) :
  (forall w, R w (f w)) -> keeps R (modify f).
Proof. intros Hf w. apply Hf. Qed.

End Keeps.

Lemma sameData_refl w : sameData w w.
Proof. unfold sameData; auto. Qed.

Lemma sameData_trans w1 w2 w3 : sameData w1 w2 -> sameData w2 w3 -> sameData w1 w3.
Proof. unfold sameData; intuition congruence. Qed.

Lemma sameSession_refl w : sameSession w w.
Proof. unfold sameSession; auto. Qed.

Lemma sameSession_trans w1 w2 w3 :
  sameSession w1 w2 -> sameSession w2 w3 -> sameSession w1 w3.
Proof. unfold sameSession; intuition congruence. Qed.

Lemma sameClock_refl w : sameClock w w.
Proof. reflexivity. Qed.

Lemma sameClock_trans w1 w2 w3 : sameClock w1 w2 -> sameClock w2 w3 -> sameClock w1 w3.
Proof. unfold sameClock; congruence. Qed.

Lemma sameReferrals_refl w : sameReferrals w w.
Proof. reflexivity. Qed.

Lemma sameReferrals_trans w1 w2 w3 :
  sameReferrals w1 w2 -> sameReferrals w2 w3 -> sameReferrals w1 w3.
Proof. unfold sameReferrals; congruence. Qed.

Lemma extends_refl w : extends w w.
Proof. exists []. now rewrite app_nil_r. Qed.

Lemma extends_trans w1 w2 w3 : extends w1 w2 -> extends w2 w3 -> extends w1 w3.
Proof.
  intros [e1 H1] [e2 H2]. exists (e1 ++ e2). now rewrite H2, H1, app_assoc.
Qed.

(** One step of a proof that a computation keeps a relation: take the
    computation apart along its outermost construct. *)
Ltac keeps_step refl trans :=
  lazymatch goal with
  | |- keeps _ (bind _ _) => apply (keeps_bind _ trans); [| intro]
  | |- keeps _ (tryCatch _ _) => apply (keeps_tryCatch _ trans); [| intro]
  | |- keeps _ (forOf _ _) => apply (keeps_forOf _ refl trans); intro
  | |- keeps _ (ret _) => apply (keeps_ret _ refl)
  | |- keeps _ (throw _) => apply (keeps_throw _ refl)
  | |- keeps _ get => apply (keeps_get _ refl)
  | |- keeps _ (modify _) => apply keeps_modify; intro
  | |- keeps _ (emit _) => apply keeps_modify; intro
  | |- keeps _ (consoleError _) => apply keeps_modify; intro
  | |- keeps _ (consoleWarn _) => apply keeps_modify; intro
  | |- keeps _ (if ?b then _ else _) => destruct b
  | |- keeps _ (match ?x with _ => _ end) => destruct x
  | |- keeps _ (let _ := _ in _) => cbv zeta
  end.

Create HintDb keeps.

Ltac keeps_with refl trans :=
  repeat (first [ assumption | solve [ auto with keeps ] | keeps_step refl trans ]).

Ltac keeps_data :=
  keeps_with sameData_refl sameData_trans; try (unfold sameData; simpl; tauto).

Ltac keeps_session :=
  keeps_with sameSession_refl sameSession_trans; try (unfold sameSession; simpl; tauto).

Ltac keeps_clock :=
  keeps_with sameClock_refl sameClock_trans; try (unfold sameClock; simpl; reflexivity).

Ltac keeps_referrals :=
  keeps_with sameReferrals_refl sameReferrals_trans;
  try (unfold sameReferrals; simpl; reflexivity).

Ltac keeps_trace :=
  keeps_with extends_refl extends_trans;
  try (unfold extends; simpl; first [ now eexists | (exists []; now rewrite app_nil_r) ]).

Lemma sendEmail_sameData env subject text : keeps sameData (sendEmail env subject text).
Proof. unfold sendEmail. keeps_data. Qed.

Lemma sendEmail_sameSession env subject text : keeps sameSession (sendEmail env subject text).
Proof. unfold sendEmail. keeps_session. Qed.

Lemma sendEmail_extends env subject text : keeps extends (sendEmail env subject text).
Proof. unfold sendEmail. keeps_trace. Qed.

Lemma sendSMS_sameData env message : keeps sameData (sendSMS env message).
Proof. unfold sendSMS. keeps_data. Qed.

Lemma sendSMS_sameSession env message : keeps sameSession (sendSMS env message).
Proof. unfold sendSMS. keeps_session. Qed.

Lemma sendSMS_extends env message : keeps extends (sendSMS env message).
Proof. unfold sendSMS. keeps_trace. Qed.


Lemma sendEmail_sameReferrals env subject text :
  keeps sameReferrals (sendEmail env subject text).
Proof. unfold sendEmail. keeps_referrals. Qed.

Lemma sendSMS_sameReferrals env message : keeps sameReferrals (sendSMS env message).
Proof. unfold sendSMS. keeps_referrals. Qed.

Lemma sameData_sameClock w w' : sameData w w' -> sameClock w w'.
Proof. intros H; apply H. Qed.

Lemma sendEmail_sameClock env subject text : keeps sameClock (sendEmail env subject text).
Proof. intro w. apply sameData_sameClock, sendEmail_sameData. Qed.

Lemma sendSMS_sameClock env message : keeps sameClock (sendSMS env message).
Proof. intro w. apply sameData_sameClock, sendSMS_sameData. Qed.

#[local] Hint Resolve sendEmail_sameData sendEmail_sameSession sendEmail_extends
  sendEmail_sameReferrals sendEmail_sameClock sendSMS_sameData sendSMS_sameSession
  sendSMS_extends sendSMS_sameReferrals sendSMS_sameClock : keeps.

Lemma setupBot_sameData env : keeps sameData (setupBot env).
Proof. unfold setupBot. keeps_data. Qed.

Lemma setupBot_extends env : keeps extends (setupBot env).
Proof. unfold setupBot. keeps_trace. Qed.

#[local] Hint Resolve setupBot_sameData setupBot_extends : keeps.

Lemma getSessionCookies_sameData env : keeps sameData (getSessionCookies env).
Proof. unfold getSessionCookies. keeps_data. Qed.

Lemma getSessionCookies_sameSession env : keeps sameSession (getSessionCookies env).
Proof. unfold getSessionCookies. keeps_session. Qed.

Lemma getSessionCookies_extends env : keeps extends (getSessionCookies env).
Proof. unfold getSessionCookies. keeps_trace. Qed.

Lemma closeBrowser_sameData env : keeps sameData (closeBrowser env).
Proof. unfold closeBrowser. keeps_data. Qed.

Lemma closeBrowser_extends env : keeps extends (closeBrowser env).
Proof. unfold closeBrowser. keeps_trace. Qed.

Lemma axiosPost_sameData env cookies xsrf : keeps sameData (axiosPost env cookies xsrf).
Proof. unfold axiosPost. keeps_data. Qed.

Lemma axiosPost_sameSession env cookies xsrf : keeps sameSession (axiosPost env cookies xsrf).
Proof. unfold axiosPost. keeps_session. Qed.

Lemma axiosPost_extends env cookies xsrf : keeps extends (axiosPost env cookies xsrf).
Proof. unfold axiosPost. keeps_trace. Qed.

Lemma findOne_sameData q : keeps sameData (findOne q).
Proof. unfold findOne. keeps_data. Qed.

Lemma findOne_sameSession q : keeps sameSession (findOne q).
Proof. unfold findOne. keeps_session. Qed.

Lemma findOne_extends q : keeps extends (findOne q).
Proof. unfold findOne. keeps_trace. Qed.

Lemma createReferral_sameSession fields : keeps sameSession (createReferral fields).
Proof. unfold createReferral. keeps_session. Qed.

Lemma createReferral_sameClock fields : keeps sameClock (createReferral fields).
Proof. unfold createReferral. keeps_clock. Qed.

Lemma createReferral_extends fields : keeps extends (createReferral fields).
Proof. unfold createReferral. keeps_trace. Qed.

Lemma createNotification_sameSession i n m t : keeps sameSession (createNotification i n m t).
Proof. unfold createNotification. keeps_session. Qed.

Lemma createNotification_sameClock i n m t : keeps sameClock (createNotification i n m t).
Proof. unfold createNotification. keeps_clock. Qed.

Lemma createNotification_sameReferrals i n m t :
  keeps sameReferrals (createNotification i n m t).
Proof. unfold createNotification. keeps_referrals. Qed.

Lemma createNotification_extends i n m t : keeps extends (createNotification i n m t).
Proof. unfold createNotification. keeps_trace. Qed.

Lemma saveNotified_sameSession d : keeps sameSession (saveNotified d).
Proof. unfold saveNotified. keeps_session. Qed.

Lemma saveNotified_sameClock d : keeps sameClock (saveNotified d).
Proof. unfold saveNotified. keeps_clock. Qed.

Lemma saveNotified_extends d : keeps extends (saveNotified d).
Proof. unfold saveNotified. keeps_trace. Qed.

#[local] Hint Resolve getSessionCookies_sameData getSessionCookies_sameSession getSessionCookies_extends
  closeBrowser_sameData closeBrowser_extends axiosPost_sameData axiosPost_sameSession
  axiosPost_extends findOne_sameData findOne_sameSession findOne_extends
  createReferral_sameSession createReferral_sameClock createReferral_extends
  createNotification_sameSession createNotification_sameClock
  createNotification_sameReferrals createNotification_extends
  saveNotified_sameSession saveNotified_sameClock saveNotified_extends : keeps.

Lemma processReferral_sameSession env r : keeps sameSession (processReferral env r).
Proof. unfold processReferral. keeps_session. Qed.

Lemma processReferral_sameClock env r : keeps sameClock (processReferral env r).
Proof.
  unfold processReferral. keeps_clock.
  intro w. apply sameData_sameClock, findOne_sameData.
Qed.

Lemma processReferral_extends env r : keeps extends (processReferral env r).
Proof. unfold processReferral. keeps_trace. Qed.

#[local] Hint Resolve processReferral_sameSession processReferral_sameClock
  processReferral_extends : keeps.

(* ===================================================================== *)
(** * The natural key in the store *)
(* ===================================================================== *)

Lemma keyBound_refl w : keyBound w w.
Proof. intro k. lia. Qed.

Lemma keyBound_trans w1 w2 w3 : keyBound w1 w2 -> keyBound w2 w3 -> keyBound w1 w3.
Proof. intros H1 H2 k. specialize (H1 k). specialize (H2 k). lia. Qed.

Lemma sameKeys_refl w : sameKeys w w.
Proof. reflexivity. Qed.

Lemma sameKeys_trans w1 w2 w3 : sameKeys w1 w2 -> sameKeys w2 w3 -> sameKeys w1 w3.
Proof. unfold sameKeys; congruence. Qed.

Lemma run_bind {A B} (m : M A) (k : A -> M B) w :
  run (bind m k) w
  = match m w with
    | (Ok a, w1) => run (k a) w1
    | (Throw _, w1) => w1
    end.
Proof. unfold run, bind. destruct (m w) as [[a|e] w1]; reflexivity. Qed.

Lemma hasKey_keyOf k d d' : keyOf d = keyOf d' -> hasKey k d = hasKey k d'.
Proof. unfold keyOf, hasKey, matches. intro H. injection H as H1 H2. now rewrite H1, H2. Qed.

Lemma hasKey_true k d : hasKey k d = true -> k = keyOf d.
Proof.
  destruct k as [i r]. unfold hasKey, matches, keyOf. simpl.
  rewrite andb_true_iff, !String.eqb_eq. intros [H1 H2]. now subst.
Qed.

Lemma countKey_keys k l : forall l', map keyOf l = map keyOf l' -> countKey k l = countKey k l'.
Proof.
  unfold countKey. induction l as [|d l IH]; intros [|d' l'] H; simpl in *; try discriminate.
  - reflexivity.
  - injection H as H1 H2 Hl.
    rewrite (hasKey_keyOf k d d') by (unfold keyOf; congruence).
    destruct (hasKey k d'); simpl; auto.
Qed.

Lemma countKey_app k l l' : countKey k (l ++ l') = (countKey k l + countKey k l')%nat.
Proof. unfold countKey. now rewrite filter_app, length_app. Qed.

Lemma countKey_absent q l :
  find (matches q) l = None -> List.length (filter (matches q) l) = 0%nat.
Proof.
  intro H. induction l as [|d l IH]; simpl in *; [reflexivity|].
  destruct (matches q d); [discriminate | auto].
Qed.

Lemma sameData_keyBound w w' : sameData w w' -> keyBound w w'.
Proof. intros (_ & H & _) k. rewrite H. lia. Qed.

Lemma sameKeys_keyBound w w' : sameKeys w w' -> keyBound w w'.
Proof. intros H k. rewrite (countKey_keys k _ _ H). lia. Qed.

Lemma sameReferrals_sameKeys w w' : sameReferrals w w' -> sameKeys w w'.
Proof. unfold sameReferrals, sameKeys. now intros ->. Qed.

Lemma keeps_weaken {A} (R R' : World -> World -> Prop) (m : M A) :
  (forall w w', R w w' -> R' w w') -> keeps R m -> keeps R' m.
Proof. intros H Hm w. apply H, Hm. Qed.

Lemma saveNotified_sameKeys d : keeps sameKeys (saveNotified d).
Proof.
  intro w. unfold sameKeys, saveNotified, run, bind, emit, modify. simpl.
  rewrite map_map. apply map_ext. intro x.
  destruct (Doc._id x =? Doc._id d)%nat; reflexivity.
Qed.

(** What follows the creation of the document in [processReferral]. *)
Lemma afterCreate_sameKeys env r d :
  keeps sameKeys
    (bind (createNotification (Doc._id d) (Api.memberName r) (Api.memberID r)
             (notificationMessage r))
          (fun _ => bind (sendEmail env emailSubject (emailText r))
                      (fun _ => bind (sendSMS env (smsText r))
                                  (fun _ => saveNotified d)))).
Proof.
  assert (Hweak : forall A (m : M A), keeps sameReferrals m -> keeps sameKeys m).
  { intros A m. apply keeps_weaken. exact sameReferrals_sameKeys. }
  apply (keeps_bind _ sameKeys_trans); [ apply Hweak; auto with keeps | intros _ ].
  apply (keeps_bind _ sameKeys_trans); [ apply Hweak; auto with keeps | intros _ ].
  apply (keeps_bind _ sameKeys_trans); [ apply Hweak; auto with keeps | intros _ ].
  apply saveNotified_sameKeys.
Qed.

Lemma countKey_find_none i r l :
  find (matches (ByRequestOn i r)) l = None -> countKey (i, r) l = 0%nat.
Proof. intro H. exact (countKey_absent (ByRequestOn i r) l H). Qed.

Lemma processReferral_keyBound env r : keeps keyBound (processReferral env r).
Proof.
  intros w k.
  remember (Nat.max 1 (countKey k (referrals w))) as bound eqn:Hb.
  unfold processReferral. rewrite run_bind. simpl.
  destruct (find _ (referrals w)) eqn:Hfind; simpl.
  - lia.
  - unfold createReferral at 1. rewrite run_bind. simpl.
    match goal with
    | |- context [run ?m ?w1] =>
        pose proof (afterCreate_sameKeys env r (docOfReferral r (nextId w)) w1) as Hk
    end.
    unfold sameKeys in Hk. simpl in Hk.
    rewrite (countKey_keys k _ _ Hk), countKey_app.
    apply countKey_find_none in Hfind.
    unfold countKey at 2. simpl.
    destruct (hasKey k (docOfReferral r (nextId w))) eqn:Hk'; simpl; [|lia].
    apply hasKey_true in Hk'. change (keyOf (docOfReferral r (nextId w))) with (Api.memberID r, Api.requestOn r) in Hk'.
    subst k. rewrite Hfind in *. lia.
Qed.

(* ===================================================================== *)
(** * What the steps add to the trace *)
(* ===================================================================== *)

Lemma forOf_guard {A} (l : list A) (body : A -> M unit) w :
  (if (0 <? List.length l)%nat then forOf l body else ret tt) w = forOf l body w.
Proof. destruct l; reflexivity. Qed.

Lemma setTrace_setTrace t t' w : setTrace t (setTrace t' w) = setTrace t w.
Proof. reflexivity. Qed.

Lemma keyLookups_app evs evs' : keyLookups (evs ++ evs') = keyLookups evs ++ keyLookups evs'.
Proof. unfold keyLookups. apply flat_map_app. Qed.

Lemma silent_refl w : silent w w.
Proof. exists []. now rewrite app_nil_r. Qed.

Lemma silent_trans w1 w2 w3 : silent w1 w2 -> silent w2 w3 -> silent w1 w3.
Proof.
  intros (e1 & H1 & Q1) (e2 & H2 & Q2). exists (e1 ++ e2). split.
  - now rewrite H2, H1, app_assoc.
  - now rewrite keyLookups_app, Q1, Q2.
Qed.

Ltac keeps_silent :=
  keeps_with silent_refl silent_trans;
  try (unfold silent; simpl;
       first [ (eexists; split; [reflexivity | reflexivity])
             | (exists []; rewrite app_nil_r; split; reflexivity) ]).

Lemma sendEmail_silent env subject text : keeps silent (sendEmail env subject text).
Proof. unfold sendEmail. keeps_silent. Qed.

Lemma sendSMS_silent env message : keeps silent (sendSMS env message).
Proof. unfold sendSMS. keeps_silent. Qed.

Lemma setupBot_silent env : keeps silent (setupBot env).
Proof. unfold setupBot. keeps_silent. Qed.

#[local] Hint Resolve sendEmail_silent sendSMS_silent setupBot_silent : keeps.

Lemma findOne_silent i n : keeps silent (findOne (ByMemberName i n)).
Proof. unfold findOne. keeps_silent. Qed.

Lemma getSessionCookies_silent env : keeps silent (getSessionCookies env).
Proof. unfold getSessionCookies. keeps_silent. Qed.

Lemma axiosPost_silent env cookies xsrf : keeps silent (axiosPost env cookies xsrf).
Proof. unfold axiosPost. keeps_silent. Qed.

Lemma closeBrowser_silent env : keeps silent (closeBrowser env).
Proof. unfold closeBrowser. keeps_silent. Qed.

Lemma createReferral_silent fields : keeps silent (createReferral fields).
Proof. unfold createReferral. keeps_silent. Qed.

Lemma createNotification_silent i n m t : keeps silent (createNotification i n m t).
Proof. unfold createNotification. keeps_silent. Qed.

Lemma saveNotified_silent d : keeps silent (saveNotified d).
Proof. unfold saveNotified. keeps_silent. Qed.

#[local] Hint Resolve findOne_silent getSessionCookies_silent axiosPost_silent
  closeBrowser_silent createReferral_silent createNotification_silent
  saveNotified_silent : keeps.

Lemma catchCheckError_silent env e : keeps silent (catchCheckError env e).
Proof. unfold catchCheckError. keeps_silent. Qed.

Lemma catchCheckError_sameData env e : keeps sameData (catchCheckError env e).
Proof. unfold catchCheckError. keeps_data. Qed.

Lemma catchCheckError_extends env e : keeps extends (catchCheckError env e).
Proof. unfold catchCheckError. keeps_trace. Qed.

(** The [catch] clause always rethrows. *)
Lemma catchCheckError_throws env e w : exists e', outcome (catchCheckError env e) w = Throw e'.
Proof.
  unfold outcome. cbv [catchCheckError bind consoleError modify closeBrowser get emit throw ret].
  destruct e as [| | | | |[status|]| | | | |]; try (eexists; reflexivity).
  destruct (status =? 401)%Z, (status =? 403)%Z; cbn [orb]; try (eexists; reflexivity);
    cbn [browser setConsole]; destruct (browser w); try (eexists; reflexivity);
    destruct (closeOk env); eexists; reflexivity.
Qed.

#[local] Hint Resolve catchCheckError_silent catchCheckError_sameData
  catchCheckError_extends : keeps.


Lemma posts_app evs evs' : posts (evs ++ evs') = (posts evs + posts evs')%nat.
Proof. unfold posts. now rewrite filter_app, length_app. Qed.

Lemma offline_refl w : offline w w.
Proof. exists []. now rewrite app_nil_r. Qed.

Lemma offline_trans w1 w2 w3 : offline w1 w2 -> offline w2 w3 -> offline w1 w3.
Proof.
  intros (e1 & H1 & Q1) (e2 & H2 & Q2). exists (e1 ++ e2). split.
  - now rewrite H2, H1, app_assoc.
  - now rewrite posts_app, Q1, Q2.
Qed.

Ltac keeps_offline :=
  keeps_with offline_refl offline_trans;
  try (unfold offline; simpl;
       first [ (eexists; split; [reflexivity | reflexivity])
             | (exists []; rewrite app_nil_r; split; reflexivity) ]).

Lemma sendEmail_offline env subject text : keeps offline (sendEmail env subject text).
Proof. unfold sendEmail. keeps_offline. Qed.

Lemma sendSMS_offline env message : keeps offline (sendSMS env message).
Proof. unfold sendSMS. keeps_offline. Qed.

Lemma setupBot_offline env : keeps offline (setupBot env).
Proof. unfold setupBot. keeps_offline. Qed.

Lemma findOne_offline q : keeps offline (findOne q).
Proof. unfold findOne. keeps_offline. Qed.

Lemma createReferral_offline fields : keeps offline (createReferral fields).
Proof. unfold createReferral. keeps_offline. Qed.

Lemma createNotification_offline i n m t : keeps offline (createNotification i n m t).
Proof. unfold createNotification. keeps_offline. Qed.

Lemma closeBrowser_offline env : keeps offline (closeBrowser env).
Proof. unfold closeBrowser. keeps_offline. Qed.

#[local] Hint Resolve sendEmail_offline sendSMS_offline setupBot_offline findOne_offline
  createReferral_offline createNotification_offline closeBrowser_offline : keeps.

Lemma catchCheckError_offline env e : keeps offline (catchCheckError env e).
Proof. unfold catchCheckError. keeps_offline. Qed.

Lemma catchCheckError_sameClock env e : keeps sameClock (catchCheckError env e).
Proof. intro w. apply sameData_sameClock, catchCheckError_sameData. Qed.

#[local] Hint Resolve catchCheckError_offline catchCheckError_sameClock : keeps.

Lemma since_app w w' evs : trace w' = trace w ++ evs -> since w w' = evs.
Proof.
  intro H. unfold since. rewrite H. rewrite skipn_app, skipn_all, Nat.sub_diag. reflexivity.
Qed.

(** Every candidate that reaches the loop body is looked up once, by its
    natural key, before anything else happens for it. *)
Lemma processReferral_lookup env r w :
  exists evs,
    trace (run (processReferral env r) w) = trace w ++ EvFindOne (queryOf r) :: evs
    /\ keyLookups evs = [].
Proof.
  unfold processReferral. rewrite run_bind. simpl.
  destruct (find _ (referrals w)) eqn:Hfind.
  - exists []. split; reflexivity.
  - match goal with
    | |- context [run ?m ?w1] =>
        assert (Hk : keeps silent m) by keeps_silent; pose proof (Hk w1) as Hs
    end.
    destruct Hs as (evs & Ht & Hq). exists evs. simpl in Ht. rewrite Ht, <- app_assoc.
    split; [reflexivity | exact Hq].
Qed.

(** The loop looks up the candidates in the order of the list, and stops at
    the first one whose processing throws. *)
Lemma loop_lookups env l : forall w,
  exists evs k,
    trace (run (forOf l (processReferral env)) w) = trace w ++ evs
    /\ keyLookups evs = map queryOf (firstn k l)
    /\ (outcome (forOf l (processReferral env)) w = Ok tt -> keyLookups evs = map queryOf l).
Proof.
  induction l as [|r l IH]; intro w.
  - exists [], 0%nat. simpl. rewrite app_nil_r. auto.
  - simpl forOf. destruct (processReferral_lookup env r w) as (evs1 & H1 & Q1).
    unfold outcome. rewrite run_bind. unfold bind at 1. unfold run in H1.
    destruct (processReferral env r w) as [[u|e] w1]; simpl in H1.
    + destruct (IH w1) as (evs2 & k & H2 & Q2 & Q3).
      exists ((EvFindOne (queryOf r) :: evs1) ++ evs2), (S k).
      split; [rewrite H2, H1, app_assoc; reflexivity|].
      rewrite keyLookups_app. simpl. rewrite Q1, Q2. simpl. split; [reflexivity|].
      intro Hok. rewrite <- (Q3 Hok), Q2. reflexivity.
    + exists (EvFindOne (queryOf r) :: evs1), 1%nat. split; [exact H1|].
      simpl. rewrite Q1. split; [reflexivity | discriminate].
Qed.

(* ===================================================================== *)
(** * The two channels *)
(* ===================================================================== *)

Lemma length_zero_nil {A} (l : list A) : (List.length l =? 0)%nat = true -> l = [].
Proof. destruct l; [reflexivity | discriminate]. Qed.

(** When the transport accepts the message, [sendEmail] returns after one
    transport call, or after none when there is no recipient list. *)
Lemma sendEmail_ok env subject text w :
  smtpOk env (Js.join "," (emailRecipients (processEnv env))) subject text = true ->
  outcome (sendEmail env subject text) w = Ok tt
  /\ trace (run (sendEmail env subject text) w) = trace w ++ emailDispatch env subject text.
Proof.
  intro Hok. unfold outcome, run, sendEmail, emailDispatch, tryCatch.
  destruct (emailRecipients (processEnv env)) as [|r rs] eqn:Hr.
  - simpl. rewrite app_nil_r. auto.
  - cbn [List.length Nat.eqb]. unfold bind, emit, modify. rewrite Hok. simpl. auto.
Qed.

(** When the transport rejects the message, [sendEmail] logs and rethrows. *)
Lemma sendEmail_fails env subject text w :
  emailRecipients (processEnv env) <> [] ->
  smtpOk env (Js.join "," (emailRecipients (processEnv env))) subject text = false ->
  sendEmail env subject text w
  = (Throw ErrSmtp,
     setConsole (console w ++ ["Error sending email notification:"])
       (setTrace (trace w ++ emailDispatch env subject text) w)).
Proof.
  intros Hne Hko. unfold sendEmail, emailDispatch, tryCatch.
  destruct (emailRecipients (processEnv env)) as [|r rs] eqn:Hr; [congruence|].
  cbn [List.length Nat.eqb]. unfold bind, emit, modify. rewrite Hko. reflexivity.
Qed.

(** The loop of [sendSMS] when every message is accepted. *)
Lemma twilio_loop_ok env message from l : forall w,
  (forall n, In n l -> twilioOk env (Js.trim n) message = true) ->
  forOf l (fun toNumber =>
             bind (emit (EvTwilioCreate message from (Js.trim toNumber)))
                  (fun _ => if twilioOk env (Js.trim toNumber) message
                            then ret tt else throw ErrTwilio)) w
  = (Ok tt,
     setTrace (trace w ++ map (fun n => EvTwilioCreate message from (Js.trim n)) l) w).
Proof.
  induction l as [|n l IH]; intros w Hok.
  - simpl. rewrite app_nil_r. unfold ret. destruct w; reflexivity.
  - simpl forOf. unfold bind at 1. unfold bind at 1. unfold emit at 1, modify at 1.
    rewrite (Hok n (or_introl eq_refl)). unfold ret at 1.
    rewrite IH by (intros; apply Hok; now right).
    rewrite setTrace_setTrace. simpl. rewrite <- app_assoc. reflexivity.
Qed.

(** When every message is accepted, [sendSMS] returns after one transport
    call per entry of the recipient list, or after none when it is not
    configured. *)
Lemma sendSMS_ok env message w :
  (forall n, In n (toNumbers (processEnv env)) -> twilioOk env (Js.trim n) message = true) ->
  outcome (sendSMS env message) w = Ok tt
  /\ trace (run (sendSMS env message) w) = trace w ++ smsDispatch env message.
Proof.
  intro Hok. unfold outcome, run, sendSMS, smsDispatch, tryCatch. cbv zeta.
  destruct (Js.falsy (TWILIO_SID (processEnv env)) || Js.falsy (TWILIO_AUTH_TOKEN (processEnv env))
            || Js.falsy (TWILIO_PHONE_NUMBER (processEnv env))).
  - simpl. rewrite app_nil_r. auto.
  - destruct (List.length (toNumbers (processEnv env)) =? 0)%nat eqn:Hlen.
    + apply length_zero_nil in Hlen. rewrite Hlen. simpl. rewrite app_nil_r. auto.
    + rewrite (twilio_loop_ok env message _ _ w Hok). simpl. auto.
Qed.

(* ===================================================================== *)
(** * One candidate *)
(* ===================================================================== *)

Lemma findOne_eq q w :
  findOne q w = (Ok (find (matches q) (referrals w)), setTrace (trace w ++ [EvFindOne q]) w).
Proof. reflexivity. Qed.

Lemma createReferral_eq fields w :
  createReferral fields w
  = (Ok (fields (nextId w)),
     setReferrals (referrals w ++ [fields (nextId w)])
       (setNextId (S (nextId w))
          (setTrace (trace w ++ [EvCreateReferral (fields (nextId w))]) w))).
Proof. reflexivity. Qed.

Lemma createNotification_eq i name id message w :
  name <> "" -> id <> "" -> message <> "" ->
  createNotification i name id message w
  = (Ok {| Note._id := nextId w; Note.referralId := i; Note.memberName := name;
           Note.memberID := id; Note.message := message; Note.isRead := false |},
     setNotifications
       (notifications w
        ++ [{| Note._id := nextId w; Note.referralId := i; Note.memberName := name;
               Note.memberID := id; Note.message := message; Note.isRead := false |}])
       (setNextId (S (nextId w))
          (setTrace
             (trace w
              ++ [EvCreateNotification
                    {| Note._id := nextId w; Note.referralId := i; Note.memberName := name;
                       Note.memberID := id; Note.message := message; Note.isRead := false |}])
             w))).
Proof.
  intros H1 H2 H3. unfold createNotification, requiredString.
  apply String.eqb_neq in H1, H2, H3. rewrite H1, H2, H3. reflexivity.
Qed.

Lemma createNotification_invalid i name id message w :
  name = "" \/ id = "" ->
  createNotification i name id message w = (Throw ErrValidation, w).
Proof.
  intros [-> | ->]; unfold createNotification, requiredString; simpl.
  - reflexivity.
  - rewrite andb_false_r. reflexivity.
Qed.

Lemma saveNotified_eq d w :
  saveNotified d w
  = (Ok tt,
     setReferrals (map (markNotified (Doc._id d)) (referrals w))
       (setTrace (trace w ++ [EvSave (Doc._id d)]) w)).
Proof. reflexivity. Qed.

Lemma notificationMessage_nonempty r : notificationMessage r <> "".
Proof. unfold notificationMessage. simpl. discriminate. Qed.

(** A candidate whose key is stored already: one lookup and nothing else. *)
Lemma processReferral_present env r w d0 :
  find (matches (queryOf r)) (referrals w) = Some d0 ->
  processReferral env r w = (Ok tt, setTrace (trace w ++ [EvFindOne (queryOf r)]) w).
Proof.
  intro Hfind. unfold processReferral. unfold bind at 1. rewrite findOne_eq.
  fold (queryOf r). rewrite Hfind. reflexivity.
Qed.

(** A candidate whose key is not stored, when both channels go through. *)
Lemma processReferral_absent env r w :
  find (matches (queryOf r)) (referrals w) = None ->
  Api.memberName r <> "" -> Api.memberID r <> "" ->
  smtpOk env (Js.join "," (emailRecipients (processEnv env))) emailSubject (emailText r) = true ->
  (forall n, In n (toNumbers (processEnv env)) ->
             twilioOk env (Js.trim n) (smsText r) = true) ->
  let d := docOfReferral r (nextId w) in
  let n := noteOfReferral r (nextId w) (S (nextId w)) in
  exists w',
    processReferral env r w = (Ok tt, w')
    /\ trace w' = trace w
                  ++ [EvFindOne (queryOf r); EvCreateReferral d; EvCreateNotification n]
                  ++ emailDispatch env emailSubject (emailText r)
                  ++ smsDispatch env (smsText r)
                  ++ [EvSave (nextId w)]
    /\ referrals w' = map (markNotified (nextId w)) (referrals w ++ [d])
    /\ notifications w' = notifications w ++ [n]
    /\ sameClock w w' /\ sameSession w w'.
Proof.
  intros Hfind Hname Hid Hmail Hsms d n.
  pose proof (processReferral_sameClock env r w) as HC.
  pose proof (processReferral_sameSession env r w) as HS. unfold run in HC, HS.
  destruct (processReferral env r w) as [res w'] eqn:Hrun. simpl in HC, HS.
  exists w'. revert Hrun.
  unfold processReferral. unfold bind at 1. rewrite findOne_eq.
  fold (queryOf r). rewrite Hfind. cbv iota beta.
  unfold bind at 1. rewrite createReferral_eq. cbv iota beta.
  unfold bind at 1.
  rewrite createNotification_eq by (auto using notificationMessage_nonempty).
  cbv iota beta. cbn [nextId setReferrals setNextId setTrace trace notifications Doc._id docOfReferral].
  fold d. fold (noteOfReferral r (nextId w) (S (nextId w))). fold n.
  match goal with
  | |- bind _ _ ?x = _ -> _ => set (w3 := x)
  end.
  destruct (sendEmail_ok env emailSubject (emailText r) w3 Hmail) as (Ho4 & Ht4).
  pose proof (sendEmail_sameData env emailSubject (emailText r) w3) as D4.
  unfold outcome, run in Ho4, Ht4, D4. unfold bind at 1.
  destruct (sendEmail env emailSubject (emailText r) w3) as [[u4|e4] w4]; simpl in Ho4, Ht4, D4;
    [|discriminate]. cbv iota beta.
  destruct (sendSMS_ok env (smsText r) w4 Hsms) as (Ho5 & Ht5).
  pose proof (sendSMS_sameData env (smsText r) w4) as D5.
  unfold outcome, run in Ho5, Ht5, D5. unfold bind at 1.
  destruct (sendSMS env (smsText r) w4) as [[u5|e5] w5]; simpl in Ho5, Ht5, D5;
    [|discriminate]. cbv iota beta.
  rewrite saveNotified_eq. intro Hrun. injection Hrun as <- <-. simpl.
  destruct D4 as (_ & R4 & N4 & _). destruct D5 as (_ & R5 & N5 & _).
  rewrite Ht5, Ht4, R5, R4, N5, N4.
  subst w3. simpl. rewrite <- !app_assoc. simpl.
  unfold sameSession, sameClock in *. simpl in HS, HC. intuition.
Qed.

(** A candidate whose key is not stored, when the mail transport rejects the
    message: the document and the notification are stored, the error has
    been logged by [sendEmail] and is thrown on; nothing after the call of
    [sendEmail] has run. *)
Lemma processReferral_email_fails env r w :
  find (matches (queryOf r)) (referrals w) = None ->
  Api.memberName r <> "" -> Api.memberID r <> "" ->
  emailRecipients (processEnv env) <> [] ->
  smtpOk env (Js.join "," (emailRecipients (processEnv env))) emailSubject (emailText r) = false ->
  let d := docOfReferral r (nextId w) in
  let n := noteOfReferral r (nextId w) (S (nextId w)) in
  exists w',
    processReferral env r w = (Throw ErrSmtp, w')
    /\ trace w' = trace w
                  ++ [EvFindOne (queryOf r); EvCreateReferral d; EvCreateNotification n]
                  ++ emailDispatch env emailSubject (emailText r)
    /\ referrals w' = referrals w ++ [d]
    /\ notifications w' = notifications w ++ [n]
    /\ console w' = console w ++ ["Error sending email notification:"]
    /\ sameClock w w' /\ sameSession w w'.
Proof.
  intros Hfind Hname Hid Hne Hko d n.
  eexists. split.
  - unfold processReferral. unfold bind at 1. rewrite findOne_eq.
    fold (queryOf r). rewrite Hfind. cbv iota beta.
    unfold bind at 1. rewrite createReferral_eq. cbv iota beta.
    unfold bind at 1.
    rewrite createNotification_eq by (auto using notificationMessage_nonempty).
    cbv iota beta. unfold bind at 1. rewrite (sendEmail_fails _ _ _ _ Hne Hko).
    reflexivity.
  - unfold sameClock, sameSession. simpl. rewrite <- !app_assoc. simpl.
    repeat split; reflexivity.
Qed.

Lemma markNotified_self d : markNotified (Doc._id d) d = Doc.setNotified true d.
Proof. unfold markNotified. now rewrite Nat.eqb_refl. Qed.

Lemma markNotified_id id x : Doc._id (markNotified id x) = Doc._id x.
Proof. unfold markNotified. destruct (Doc._id x =? id)%nat; reflexivity. Qed.

Lemma markNotified_twice id x : markNotified id (markNotified id x) = markNotified id x.
Proof.
  unfold markNotified. destruct (Doc._id x =? id)%nat eqn:H.
  - cbn [Doc._id Doc.setNotified]. rewrite H. reflexivity.
  - rewrite H. reflexivity.
Qed.

Lemma markNotified_older id l :
  Forall (fun d => (Doc._id d < id)%nat) l -> map (markNotified id) l = l.
Proof.
  induction 1 as [|x l Hx _ IH]; [reflexivity|].
  cbn [map]. rewrite IH. unfold markNotified.
  destruct (Nat.eqb_spec (Doc._id x) id); [lia | reflexivity].
Qed.

Lemma matches_key i q d :
  matches (ByRequestOn i q) d = true <-> Doc.memberID d = i /\ Doc.requestOn d = q.
Proof. unfold matches. now rewrite andb_true_iff, !String.eqb_eq. Qed.

(** C7, as amended.  A candidate that reaches the loop is first looked up by
    its natural key (memberID, requestOn).  When a document with that key is
    stored, the lookup is all that happens: nothing is stored and no
    transport is called.  When none is stored, the candidate has a member
    name and a member ID, and both transports accept what they are given,
    the steps are, in this order: the document is created from the fields of
    the candidate with isNotified false; a notification that refers to it is
    created; the mail goes to the recipients of EMAIL_RECIPIENTS, when that
    is set; the text message goes to each number of SMS_RECIPIENTS, when the
    three Twilio variables are set; the document is saved with isNotified
    true.  Everything the steps store and send is written out.  The
    candidates are taken in the order of the list: the first is processed
    from the state the loop is entered in, the others from the state it
    leaves, and not at all when it throws. *)
Theorem candidate_steps_in_order env r w :
  let cfg := processEnv env in
  let mailTo := match EMAIL_RECIPIENTS cfg with
                | Some s => map Js.trim (Js.split Js.comma s)
                | None => []
                end in
  let smsTo := match SMS_RECIPIENTS cfg with
               | Some s => Js.split Js.comma s
               | None => []
               end in
  let newline := String (ascii_of_nat 10) EmptyString in
  let mailSubject := "New Referral Notification" in
  let mailText :=
    ("New referral received for " ++ Api.memberName r ++ " (ID: " ++ Api.memberID r ++ ")."
     ++ newline ++ newline
     ++ "Service: " ++ Api.serviceName r ++ newline
     ++ "Region: " ++ Api.regionName r ++ newline
     ++ "County: " ++ Api.county r ++ newline
     ++ "Plan: " ++ Api.plan r ++ newline
     ++ "Preferred Start Date: " ++ Api.preferredStartDate r ++ newline
     ++ "Status: " ++ Api.status r)%string in
  let smsBody :=
    ("New referral: " ++ Api.memberName r ++ " (" ++ Api.memberID r ++ ") for "
     ++ Api.serviceName r ++ ". Check dashboard for details.")%string in
  let key := ByRequestOn (Api.memberID r) (Api.requestOn r) in
  let stored := fun notified =>
    {| Doc._id := nextId w;
       Doc.memberID := Api.memberID r;
       Doc.memberName := Api.memberName r;
       Doc.serviceName := Api.serviceName r;
       Doc.regionName := Some (Api.regionName r);
       Doc.requestOn := Api.requestOn r;
       Doc.county := Some (Api.county r);
       Doc.plan := Some (Api.plan r);
       Doc.preferredStartDate := Some (Api.preferredStartDate r);
       Doc.status := Api.status r;
       Doc.isNotified := notified |} in
  let n :=
    {| Note._id := S (nextId w);
       Note.referralId := nextId w;
       Note.memberName := Api.memberName r;
       Note.memberID := Api.memberID r;
       Note.message := ("New referral for " ++ Api.memberName r ++ " (" ++ Api.serviceName r
                        ++ ") received on " ++ Api.requestOn r)%string;
       Note.isRead := false |} in
  let mail := match mailTo with
              | [] => []
              | _ :: _ =>
                  [EvSendMail (Js.orElse (EMAIL_FROM cfg) "adeoyeoluwaferanmi@gmail.com")
                              (Js.join "," mailTo) mailSubject mailText]
              end in
  let sms := if Js.falsy (TWILIO_SID cfg) || Js.falsy (TWILIO_AUTH_TOKEN cfg)
                || Js.falsy (TWILIO_PHONE_NUMBER cfg)
             then []
             else map (fun toNumber =>
                         EvTwilioCreate smsBody (Js.orElse (TWILIO_PHONE_NUMBER cfg) "")
                                        (Js.trim toNumber))
                      smsTo in
  let present := exists d0, In d0 (referrals w)
                            /\ Doc.memberID d0 = Api.memberID r
                            /\ Doc.requestOn d0 = Api.requestOn r in
  let w' := run (processReferral env r) w in
  (present ->
   outcome (processReferral env r) w = Ok tt
   /\ since w w' = [EvFindOne key]
   /\ referrals w' = referrals w
   /\ notifications w' = notifications w)
  /\ (~ present ->
      Api.memberName r <> "" -> Api.memberID r <> "" ->
      smtpOk env (Js.join "," mailTo) mailSubject mailText = true ->
      (forall toNumber, In toNumber smsTo -> twilioOk env (Js.trim toNumber) smsBody = true) ->
      outcome (processReferral env r) w = Ok tt
      /\ since w w' = [EvFindOne key; EvCreateReferral (stored false); EvCreateNotification n]
                      ++ mail ++ sms ++ [EvSave (nextId w)]
      /\ referrals w' = map (markNotified (nextId w)) (referrals w) ++ [stored true]
      /\ (wellFormed w -> referrals w' = referrals w ++ [stored true])
      /\ notifications w' = notifications w ++ [n])
  /\ (forall rest,
        forOf (r :: rest) (processReferral env) w
        = match processReferral env r w with
          | (Ok _, w1) => forOf rest (processReferral env) w1
          | (Throw e, w1) => (Throw e, w1)
          end).
Proof.
  intros cfg mailTo smsTo newline mailSubject mailText smsBody key stored n mail sms present w'.
  assert (Hloop : forall rest,
             forOf (r :: rest) (processReferral env) w
             = match processReferral env r w with
               | (Ok _, w1) => forOf rest (processReferral env) w1
               | (Throw e, w1) => (Throw e, w1)
               end).
  { intro rest. cbn [forOf]. unfold bind at 1.
    destruct (processReferral env r w) as [[u|e] w1]; reflexivity. }
  apply and_assoc. split; [|exact Hloop]. clear Hloop.
  subst w'. unfold outcome, run.
  destruct (find (matches (queryOf r)) (referrals w)) as [d0|] eqn:Hfind.
  - assert (Hpresent : present).
    { apply find_some in Hfind. destruct Hfind as (Hin & Hm).
      apply matches_key in Hm. exists d0. tauto. }
    split; [|intro Habsent; contradiction].
    intros _. rewrite (processReferral_present env r w d0 Hfind). cbn [fst snd].
    split; [reflexivity|]. split; [|split; reflexivity].
    apply since_app. reflexivity.
  - assert (Habsent : ~ present).
    { intros (d0 & Hin & Hi & Hq). pose proof (find_none _ _ Hfind d0 Hin) as Hno.
      assert (Hyes : matches (queryOf r) d0 = true) by (apply matches_key; tauto).
      congruence. }
    split; [intro Hpresent; contradiction|].
    intros _ Hname Hid Hmail Hsms.
    destruct (processReferral_absent env r w Hfind Hname Hid Hmail Hsms)
      as (w1 & E & Ht & Hr & Hn & _).
    rewrite E. cbn [fst snd]. split; [reflexivity|].
    assert (Hstore : referrals w1
                     = map (markNotified (nextId w)) (referrals w) ++ [stored true]).
    { rewrite Hr, map_app. f_equal. cbn [map]. unfold markNotified.
      cbn [docOfReferral Doc._id]. rewrite Nat.eqb_refl. reflexivity. }
    split; [|split; [exact Hstore | split; [|exact Hn]]].
    + assert (Hm : emailDispatch env emailSubject (emailText r) = mail).
      { unfold mail, mailTo, emailDispatch, emailRecipients, cfg.
        destruct (EMAIL_RECIPIENTS (processEnv env)) as [s|]; [|reflexivity].
        destruct (map Js.trim (Js.split Js.comma s)); reflexivity. }
      assert (Hs : smsDispatch env (smsText r) = sms) by reflexivity.
      apply since_app. rewrite Ht, Hm, Hs. reflexivity.
    + intro Hw. rewrite Hstore. f_equal. apply markNotified_older. exact Hw.
Qed.

Lemma posts_opening w : posts (opening w) = 0%nat.
Proof. unfold opening. destruct (isNull (browser w) || isNull (page w)); reflexivity. Qed.

(** What a computation adds to the trace stays in front of what a
    continuation and a handler add. *)
Lemma run_tryCatch_bind {A B} (m : M A) (k : A -> M B) (h : Error -> M B) w :
  (forall a, keeps extends (k a)) -> (forall e, keeps extends (h e)) ->
  extends (run m w) (run (tryCatch (bind m k) h) w).
Proof.
  intros Hk Hh. unfold run, tryCatch, bind.
  destruct (m w) as [[a|e] w1]; simpl.
  - pose proof (Hk a w1) as H1. unfold run in H1.
    destruct (k a w1) as [[b|e] w2]; simpl in *; [exact H1|].
    eapply extends_trans; [exact H1 | apply (Hh e w2)].
  - apply (Hh e w1).
Qed.


(** C8, as amended.  [sendEmail] returns without an error and without a
    transport call when EMAIL_RECIPIENTS is not set; [sendSMS] does so when
    one of TWILIO_SID, TWILIO_AUTH_TOKEN and TWILIO_PHONE_NUMBER is not set or
    empty, and when SMS_RECIPIENTS is not set.  In each case a warning is
    logged and nothing else changes. *)
Theorem unconfigured_channel_is_a_noop env subject text message w :
  (EMAIL_RECIPIENTS (processEnv env) = None ->
   sendEmail env subject text w
   = (Ok tt,
      setConsole (console w ++ ["No email recipients configured in environment variables"]) w))
  /\ (Js.falsy (TWILIO_SID (processEnv env)) = true
      \/ Js.falsy (TWILIO_AUTH_TOKEN (processEnv env)) = true
      \/ Js.falsy (TWILIO_PHONE_NUMBER (processEnv env)) = true ->
      sendSMS env message w
      = (Ok tt,
         setConsole
           (console w ++ ["Twilio credentials not configured in environment variables"]) w))
  /\ (Js.falsy (TWILIO_SID (processEnv env)) = false ->
      Js.falsy (TWILIO_AUTH_TOKEN (processEnv env)) = false ->
      Js.falsy (TWILIO_PHONE_NUMBER (processEnv env)) = false ->
      SMS_RECIPIENTS (processEnv env) = None ->
      sendSMS env message w
      = (Ok tt,
         setConsole
           (console w ++ ["No SMS recipients configured in environment variables"]) w)).
Proof.
  split; [|split].
  - intro H. unfold sendEmail, emailRecipients. rewrite H. reflexivity.
  - intro H. unfold sendSMS. cbv zeta.
    replace (Js.falsy (TWILIO_SID (processEnv env))
             || Js.falsy (TWILIO_AUTH_TOKEN (processEnv env))
             || Js.falsy (TWILIO_PHONE_NUMBER (processEnv env))) with true; [reflexivity|].
    symmetry. destruct H as [H | [H | H]]; rewrite H; rewrite ?orb_true_r; reflexivity.
  - intros H1 H2 H3 H. unfold sendSMS, toNumbers. cbv zeta. rewrite H1, H2, H3, H. reflexivity.
Qed.


(* ===================================================================== *)
(** * The rows of the page, the login, the polling cycle *)
(* ===================================================================== *)

Lemma findOne_sameClock q : keeps sameClock (findOne q).
Proof. intro w. apply sameData_sameClock, findOne_sameData. Qed.

Lemma setupBot_sameClock env : keeps sameClock (setupBot env).
Proof. intro w. apply sameData_sameClock, setupBot_sameData. Qed.

#[local] Hint Resolve findOne_sameClock setupBot_sameClock : keeps.

Section Cycle.

Variable parseDate : string -> option Z.
Variable toISOString : Z -> string.

Lemma saveMember_sameClock env m : keeps sameClock (saveMember toISOString env m).
Proof. unfold saveMember. keeps_clock. Qed.

Lemma saveMember_sameSession env m : keeps sameSession (saveMember toISOString env m).
Proof. unfold saveMember. keeps_session. Qed.

Lemma saveMember_silent env m : keeps silent (saveMember toISOString env m).
Proof. unfold saveMember. keeps_silent. Qed.

Lemma saveMember_offline env m : keeps offline (saveMember toISOString env m).
Proof. unfold saveMember. keeps_offline. Qed.

Lemma saveMember_extends env m : keeps extends (saveMember toISOString env m).
Proof. unfold saveMember. keeps_trace. Qed.

Hint Resolve saveMember_sameClock saveMember_sameSession saveMember_silent
  saveMember_offline saveMember_extends : keeps.

Lemma extractMemberInformation_sameClock env :
  keeps sameClock (extractMemberInformation toISOString env).
Proof.
  unfold extractMemberInformation, sendMemberInformationEmail, saveMembersToDatabase.
  keeps_clock.
Qed.

Lemma extractMemberInformation_sameSession env :
  keeps sameSession (extractMemberInformation toISOString env).
Proof.
  unfold extractMemberInformation, sendMemberInformationEmail, saveMembersToDatabase.
  keeps_session.
Qed.

Lemma extractMemberInformation_silent env :
  keeps silent (extractMemberInformation toISOString env).
Proof.
  unfold extractMemberInformation, sendMemberInformationEmail, saveMembersToDatabase.
  keeps_silent.
Qed.

Lemma extractMemberInformation_offline env :
  keeps offline (extractMemberInformation toISOString env).
Proof.
  unfold extractMemberInformation, sendMemberInformationEmail, saveMembersToDatabase.
  keeps_offline.
Qed.

Lemma extractMemberInformation_extends env :
  keeps extends (extractMemberInformation toISOString env).
Proof.
  unfold extractMemberInformation, sendMemberInformationEmail, saveMembersToDatabase.
  keeps_trace.
Qed.

Hint Resolve extractMemberInformation_sameClock extractMemberInformation_sameSession
  extractMemberInformation_silent extractMemberInformation_offline
  extractMemberInformation_extends : keeps.

(** Storing the rows never throws: what goes wrong is logged. *)
Lemma saveMembersToDatabase_returns env members w :
  outcome (saveMembersToDatabase toISOString env members) w = Ok tt.
Proof.
  unfold outcome, saveMembersToDatabase, tryCatch.
  destruct (forOf members (saveMember toISOString env) w) as [[[]|e] w1]; reflexivity.
Qed.

(** Mailing the rows never throws either. *)
Lemma sendMemberInformationEmail_returns env members w :
  outcome (sendMemberInformationEmail env members) w = Ok tt.
Proof.
  unfold outcome, sendMemberInformationEmail, tryCatch.
  destruct (sendEmail env memberEmailSubject (memberEmailContent members) w) as [[[]|e] w1];
    reflexivity.
Qed.

(** Reading the rows returns whatever happens: the rows, or none when
    something was thrown before they were mailed and stored. *)
Lemma extractMemberInformation_returns env w :
  exists members, outcome (extractMemberInformation toISOString env) w = Ok members.
Proof.
  unfold outcome, extractMemberInformation, tryCatch.
  destruct (scraped env) as [members|]; [|eexists; reflexivity].
  unfold bind at 1.
  assert (Hmail : exists w1,
             (if (0 <? List.length members)%nat
              then sendMemberInformationEmail env members else ret tt) w = (Ok tt, w1)).
  { destruct (0 <? List.length members)%nat; [|eexists; reflexivity].
    pose proof (sendMemberInformationEmail_returns env members w) as H. unfold outcome in H.
    destruct (sendMemberInformationEmail env members w) as [r w1]. simpl in H. subst r.
    eexists; reflexivity. }
  destruct Hmail as (w1 & ->). unfold bind at 1.
  pose proof (saveMembersToDatabase_returns env members w1) as H. unfold outcome in H.
  destruct (saveMembersToDatabase toISOString env members w1) as [r w2]. simpl in H. subst r.
  eexists; reflexivity.
Qed.

(** The part of the login that reads the page: it returns, the watermark and
    the session are as before, and it has made no lookup by natural key and
    no call of the referral API. *)
Lemma page_step env w :
  exists members w1 pageEvs,
    extractMemberInformation toISOString env w = (Ok members, w1)
    /\ sameClock w w1 /\ sameSession w w1
    /\ trace w1 = trace w ++ pageEvs
    /\ keyLookups pageEvs = [] /\ posts pageEvs = 0%nat.
Proof.
  destruct (extractMemberInformation_returns env w) as (members & Hok).
  pose proof (extractMemberInformation_sameClock env w) as HC.
  pose proof (extractMemberInformation_sameSession env w) as HS.
  destruct (extractMemberInformation_silent env w) as (evs & Ht & Hq).
  destruct (extractMemberInformation_offline env w) as (evs' & Ht' & Hp).
  unfold outcome, run in *.
  destruct (extractMemberInformation toISOString env w) as [r w1]. simpl in *. subst r.
  exists members, w1, evs.
  split; [reflexivity|]. split; [exact HC|]. split; [exact HS|]. split; [exact Ht|].
  split; [exact Hq|].
  rewrite Ht in Ht'. apply app_inv_head in Ht'. now subst evs'.
Qed.

Lemma loginToAvaility_sameClock env : keeps sameClock (loginToAvaility toISOString env).
Proof. unfold loginToAvaility. keeps_clock. Qed.

Lemma loginToAvaility_silent env : keeps silent (loginToAvaility toISOString env).
Proof. unfold loginToAvaility. keeps_silent. Qed.

Lemma loginToAvaility_offline env : keeps offline (loginToAvaility toISOString env).
Proof. unfold loginToAvaility. keeps_offline. Qed.

Lemma loginToAvaility_extends env : keeps extends (loginToAvaility toISOString env).
Proof. unfold loginToAvaility. keeps_trace. Qed.

Hint Resolve loginToAvaility_sameClock loginToAvaility_silent loginToAvaility_offline
  loginToAvaility_extends : keeps.

(** The first step of the login: a session is opened when the module holds
    none, and only then. *)
Lemma ensure_session env w :
  setup env = SetupOk ->
  exists w0,
    (if isNull (browser w) || isNull (page w) then setupBot env else ret tt) w = (Ok tt, w0)
    /\ sameData w w0 /\ console w0 = console w
    /\ trace w0 = trace w ++ opening w
    /\ browser w0 <> None /\ page w0 <> None.
Proof.
  intro Hs. unfold opening.
  destruct (browser w) as [b|] eqn:Hb; destruct (page w) as [p|] eqn:Hp; cbn [isNull orb];
    try (unfold setupBot, tryCatch, bind, get, emit, modify; rewrite Hs; simpl);
    eexists; (split; [reflexivity|]); unfold sameData; simpl;
    rewrite <- ?app_assoc, ?app_nil_r; simpl; rewrite ?Hb, ?Hp; repeat split; congruence.
Qed.

(** With a browser that launches and a portal that lets the worker through
    to the referral list, [loginToAvaility] returns [true]; it opens a
    session only when the module holds none, and it reads and stores the rows
    of the page on the way. *)
Lemma loginToAvaility_ok env w :
  setup env = SetupOk -> portalLogin env = true ->
  exists w1 pageEvs,
    loginToAvaility toISOString env w = (Ok true, w1)
    /\ sameClock w w1
    /\ trace w1 = trace w ++ opening w ++ EvPortalLogin :: pageEvs
    /\ keyLookups pageEvs = [] /\ posts pageEvs = 0%nat
    /\ browser w1 <> None /\ page w1 <> None.
Proof.
  intros Hs Hl.
  destruct (ensure_session env w Hs) as (w0 & E0 & D0 & _ & Ht0 & Hb0 & Hp0).
  destruct (page_step env (setTrace (trace w0 ++ [EvPortalLogin]) w0))
    as (ms & w1 & evs & E & HC1 & (Sb & Sp & _) & Ht1 & Hq & Hn).
  exists w1, evs. split.
  - unfold loginToAvaility, tryCatch. unfold bind at 1. unfold get at 1. cbv iota beta.
    unfold bind at 1. rewrite E0. cbv iota beta. unfold bind at 1, get at 1. cbv iota beta.
    destruct (page w0) as [pg|] eqn:Hpg; [|congruence].
    unfold bind at 1, emit at 1, modify at 1. cbv iota beta. rewrite Hl.
    unfold bind at 1. unfold ret at 1. cbv iota beta. unfold bind at 1. rewrite E.
    reflexivity.
  - split; [unfold sameClock in *; simpl in HC1; destruct D0 as (D0 & _); congruence|].
    split; [rewrite Ht1; simpl; rewrite Ht0, <- !app_assoc; reflexivity|].
    split; [exact Hq|]. split; [exact Hn|]. rewrite Sb, Sp. simpl. auto.
Qed.

(** The cycle up to the answer of the API: the session is ensured and the
    page is read, the cookies are read, one request is made; what follows
    depends on the answer alone. *)
Lemma cycle_head env w :
  setup env = SetupOk -> portalLogin env = true ->
  let cookies := cookieString (jar env) in
  let xsrf := extractXsrfToken cookies in
  exists w0 pageEvs,
    loginToAvaility toISOString env w = (Ok true, w0)
    /\ sameClock w w0
    /\ trace w0 = trace w ++ opening w ++ EvPortalLogin :: pageEvs
    /\ keyLookups pageEvs = [] /\ posts pageEvs = 0%nat
    /\ browser w0 <> None /\ page w0 <> None
    /\ checkForNewReferrals parseDate toISOString env w
       = let w1 := setTrace (trace w0 ++ [EvCookies; EvPost cookies xsrf]) w0 in
         match post env cookies xsrf with
         | Response status body =>
             if (200 <=? status)%Z && (status <? 300)%Z then
               match body with
               | Some response =>
                   match forOf (filter (isNew parseDate (lastCheckTime w)) response)
                               (processReferral env) w1 with
                   | (Ok _, w2) => (Ok tt, setLastCheckTime (now env) w2)
                   | (Throw e, w2) => catchCheckError env e w2
                   end
               | None => catchCheckError env ErrTypeError w1
               end
             else catchCheckError env (ErrAxios (Some status)) w1
         | NoResponse => catchCheckError env (ErrAxios None) w1
         end.
Proof.
  intros Hs Hl cookies xsrf.
  destruct (loginToAvaility_ok env w Hs Hl) as (w0 & evs & Hlogin & HC & Ht & Hq & Hn & Hb & Hp).
  exists w0, evs. do 7 (split; [assumption|]). cbv zeta.
  unfold checkForNewReferrals, tryCatch. unfold bind at 1. rewrite Hlogin.
  simpl negb. cbv iota. unfold bind at 1. unfold ret at 1. cbv iota beta.
  unfold bind at 1. unfold getSessionCookies at 1. unfold bind at 1. unfold get at 1.
  cbv iota beta. destruct (page w0) as [pg|] eqn:Hpg; [|congruence].
  unfold bind at 1, emit at 1, modify at 1. cbv iota beta. unfold ret at 1. cbv iota beta.
  fold cookies. fold xsrf.
  unfold bind at 1, axiosPost at 1, bind at 1, emit at 1, modify at 1. cbv iota beta.
  rewrite setTrace_setTrace. simpl trace. rewrite <- app_assoc. simpl app.
  destruct (post env cookies xsrf) as [status body|]; [|reflexivity].
  destruct ((200 <=? status)%Z && (status <? 300)%Z); [|reflexivity].
  destruct body as [response|]; [|reflexivity].
  unfold ret at 1. cbv iota beta. unfold bind at 1, get at 1. cbv iota beta zeta.
  unfold bind at 1. rewrite forOf_guard. simpl lastCheckTime.
  unfold sameClock in HC. rewrite HC.
  match goal with
  | |- context [forOf ?l ?b ?x] => destruct (forOf l b x) as [[u|e] w2]
  end; reflexivity.
Qed.

Section Cases.

Variable R : World -> World -> Prop.
Hypothesis R_refl : forall w, R w w.
Hypothesis R_trans : forall w1 w2 w3, R w1 w2 -> R w2 w3 -> R w1 w3.
Variable env : Env.
Hypothesis R_login : keeps R (loginToAvaility toISOString env).
Hypothesis R_cookies : keeps R (getSessionCookies env).
Hypothesis R_post : forall cookies xsrf, keeps R (axiosPost env cookies xsrf).
Hypothesis R_console : forall line, keeps R (consoleError line).

(** A cycle either fails before it has an answer with referrals, or runs the
    loop over the candidates that are later than the watermark held when the
    answer is there.  Up to that point it has done what the login, the read
    of the cookies and the request do. *)
Lemma cycle_cases w :
  (exists e w1,
      R w w1 /\ checkForNewReferrals parseDate toISOString env w = catchCheckError env e w1)
  \/ (exists response w1,
      R w w1
      /\ checkForNewReferrals parseDate toISOString env w
         = match forOf (filter (isNew parseDate (lastCheckTime w1)) response)
                       (processReferral env) w1 with
           | (Ok _, w2) => (Ok tt, setLastCheckTime (now env) w2)
           | (Throw e, w2) => catchCheckError env e w2
           end).
Proof.
  pose proof (R_login w) as R0. unfold run in R0.
  destruct (loginToAvaility toISOString env w) as [[b|e] w0] eqn:Hlogin; simpl in R0.
  2:{ left. exists e, w0. split; [exact R0|].
      unfold checkForNewReferrals, tryCatch. unfold bind at 1. now rewrite Hlogin. }
  destruct b.
  2:{ left. exists ErrFailedToLogin, (setConsole (console w0 ++ ["Failed to login to Availity"]) w0).
      split; [eapply R_trans; [exact R0 | apply (R_console _ w0)]|].
      unfold checkForNewReferrals, tryCatch. unfold bind at 1. now rewrite Hlogin. }
  pose proof (R_cookies w0) as R1. unfold run in R1.
  destruct (getSessionCookies env w0) as [[cookies|e] w1] eqn:Hcookies; simpl in R1.
  2:{ left. exists e, w1. split; [eapply R_trans; eauto|].
      unfold checkForNewReferrals, tryCatch. unfold bind at 1. rewrite Hlogin.
      simpl negb. cbv iota. unfold bind at 1. unfold ret at 1. cbv iota beta.
      unfold bind at 1. now rewrite Hcookies. }
  pose proof (R_post cookies (extractXsrfToken cookies) w1) as R2. unfold run in R2.
  destruct (axiosPost env cookies (extractXsrfToken cookies) w1) as [[response|e] w2] eqn:Hpost;
    simpl in R2.
  2:{ left. exists e, w2. split; [eauto|].
      unfold checkForNewReferrals, tryCatch. unfold bind at 1. rewrite Hlogin.
      simpl negb. cbv iota. unfold bind at 1. unfold ret at 1. cbv iota beta.
      unfold bind at 1. rewrite Hcookies. cbv iota beta zeta.
      unfold bind at 1. now rewrite Hpost. }
  right. exists response, w2. split; [eauto|].
  unfold checkForNewReferrals, tryCatch. unfold bind at 1. rewrite Hlogin.
  simpl negb. cbv iota. unfold bind at 1. unfold ret at 1. cbv iota beta.
  unfold bind at 1. rewrite Hcookies. cbv iota beta zeta.
  unfold bind at 1. rewrite Hpost. cbv iota beta.
  unfold bind at 1, get at 1. cbv iota beta zeta. unfold bind at 1. rewrite forOf_guard.
  match goal with
  | |- context [forOf ?l ?b ?x] => destruct (forOf l b x) as [[u|e] w3]
  end; reflexivity.
Qed.

End Cases.

Lemma calm_refl w : calm w w.
Proof. split; [apply sameClock_refl | apply silent_refl]. Qed.

Lemma calm_trans w1 w2 w3 : calm w1 w2 -> calm w2 w3 -> calm w1 w3.
Proof.
  intros (C1 & S1) (C2 & S2). split; [eapply sameClock_trans | eapply silent_trans]; eauto.
Qed.

Lemma keeps_calm {A} (m : M A) : keeps sameClock m -> keeps silent m -> keeps calm m.
Proof. intros H1 H2 w. split; [apply H1 | apply H2]. Qed.

(** [cycle_cases] for what every cycle keeps up to the loop. *)
Lemma cycle_cases_calm env w :
  (exists e w1,
      calm w w1 /\ checkForNewReferrals parseDate toISOString env w = catchCheckError env e w1)
  \/ (exists response w1,
      calm w w1
      /\ checkForNewReferrals parseDate toISOString env w
         = match forOf (filter (isNew parseDate (lastCheckTime w)) response)
                       (processReferral env) w1 with
           | (Ok _, w2) => (Ok tt, setLastCheckTime (now env) w2)
           | (Throw e, w2) => catchCheckError env e w2
           end).
Proof.
  assert (H1 : keeps calm (loginToAvaility toISOString env))
    by (apply keeps_calm; auto with keeps).
  assert (H2 : keeps calm (getSessionCookies env))
    by (apply keeps_calm;
        [intro x; apply sameData_sameClock, getSessionCookies_sameData | auto with keeps]).
  assert (H3 : forall c x, keeps calm (axiosPost env c x))
    by (intros c x; apply keeps_calm;
        [intro y; apply sameData_sameClock, axiosPost_sameData | auto with keeps]).
  assert (H4 : forall line, keeps calm (consoleError line))
    by (intro line; apply keeps_calm; [keeps_clock | keeps_silent]).
  destruct (cycle_cases calm calm_trans env H1 H2 H3 H4 w)
    as [(e & w1 & C & E) | (rs & w1 & C & E)].
  - left. eauto.
  - right. exists rs, w1. split; [exact C|]. destruct C as (C & _). unfold sameClock in C.
    rewrite <- C. exact E.
Qed.

(* ===================================================================== *)
(** * The polling cycle as a whole *)
(* ===================================================================== *)

Lemma loop_keyBound env l : keeps keyBound (forOf l (processReferral env)).
Proof. apply (keeps_forOf _ keyBound_refl keyBound_trans). apply processReferral_keyBound. Qed.

Lemma loop_sameClock env l : keeps sameClock (forOf l (processReferral env)).
Proof. apply (keeps_forOf _ sameClock_refl sameClock_trans). auto with keeps. Qed.

Lemma loop_sameSession env l : keeps sameSession (forOf l (processReferral env)).
Proof. apply (keeps_forOf _ sameSession_refl sameSession_trans). auto with keeps. Qed.

(** The watermark after a cycle is the one before it or the clock reading of
    the cycle. *)
Lemma cycle_watermark env w :
  match outcome (checkForNewReferrals parseDate toISOString env) w with
  | Ok _ => lastCheckTime (run (checkForNewReferrals parseDate toISOString env) w) = now env
  | Throw _ =>
      lastCheckTime (run (checkForNewReferrals parseDate toISOString env) w) = lastCheckTime w
  end.
Proof.
  unfold outcome, run.
  destruct (cycle_cases_calm env w) as [(e & w1 & (D & _) & E) | (rs & w1 & (D & _) & E)];
    rewrite E; unfold sameClock in D.
  - destruct (catchCheckError_throws env e w1) as (e' & He). unfold outcome in He. rewrite He.
    pose proof (catchCheckError_sameClock env e w1) as C. unfold run, sameClock in C.
    congruence.
  - pose proof (loop_sameClock env (filter (isNew parseDate (lastCheckTime w)) rs) w1) as L.
    unfold run, sameClock in L.
    destruct (forOf _ (processReferral env) w1) as [[u|e] w2]; simpl in L.
    + reflexivity.
    + destruct (catchCheckError_throws env e w2) as (e' & He). unfold outcome in He. rewrite He.
      pose proof (catchCheckError_sameClock env e w2) as C. unfold run, sameClock in C.
      congruence.
Qed.

(** C2, as amended.  After a polling cycle that completes, the watermark is
    the value the clock had when the cycle read it, which it does once the
    session is ensured and the API has answered; the time at which the cycle
    was entered plays no part. *)
Theorem watermark_is_clock_read_after_fetch env w :
  outcome (checkForNewReferrals parseDate toISOString env) w = Ok tt ->
  lastCheckTime (run (checkForNewReferrals parseDate toISOString env) w) = now env.
Proof.
  intro Hok. pose proof (cycle_watermark env w) as H. now rewrite Hok in H.
Qed.

Lemma isNew_iff lastCheck c :
  isNew parseDate lastCheck c = true
  <-> exists t, parseDate (Api.requestOn c) = Some t /\ (lastCheck < t)%Z.
Proof.
  unfold isNew. destruct (parseDate (Api.requestOn c)) as [t|].
  - rewrite Z.gtb_lt. split.
    + intro H. exists t. auto.
    + intros (t' & Ht & Hlt). injection Ht as <-. exact Hlt.
  - split; [discriminate | intros (t & Ht & _); discriminate].
Qed.


Lemma In_firstn {A} (x : A) k : forall l, In x (firstn k l) -> In x l.
Proof.
  induction k as [|k IH]; intros [|y l] H; simpl in *; try contradiction.
  destruct H as [H|H]; [now left | right; now apply IH].
Qed.

Lemma laterThan_new lastCheck l k :
  Forall (laterThan parseDate lastCheck) (map queryOf (firstn k (filter (isNew parseDate lastCheck) l))).
Proof.
  apply Forall_forall. intros q Hq. apply in_map_iff in Hq. destruct Hq as (c & <- & Hc).
  apply In_firstn in Hc. apply filter_In in Hc. destruct Hc as (_ & Hc).
  apply isNew_iff in Hc. exact Hc.
Qed.

(** The lookups by natural key of a cycle are for candidates of one list that
    are later than the watermark the cycle started with, in the order of that
    list. *)
Lemma cycle_lookups env w :
  exists evs k response,
    trace (run (checkForNewReferrals parseDate toISOString env) w) = trace w ++ evs
    /\ keyLookups evs
       = map queryOf (firstn k (filter (isNew parseDate (lastCheckTime w)) response)).
Proof.
  unfold run.
  destruct (cycle_cases_calm env w) as [(e & w1 & (_ & S) & E) | (rs & w1 & (_ & S) & E)];
    rewrite E.
  - pose proof (silent_trans _ _ _ S (catchCheckError_silent env e w1)) as (evs & Ht & Hq).
    exists evs, 0%nat, []. split; [exact Ht | exact Hq].
  - destruct (loop_lookups env (filter (isNew parseDate (lastCheckTime w)) rs) w1)
      as (evs2 & k & Ht2 & Hq2 & _).
    destruct S as (evs1 & Ht1 & Hq1). unfold run in Ht2.
    destruct (forOf _ (processReferral env) w1) as [[u|e] w2]; simpl in Ht2.
    + exists (evs1 ++ evs2), k, rs. simpl. split.
      * now rewrite Ht2, Ht1, app_assoc.
      * now rewrite keyLookups_app, Hq1, Hq2.
    + destruct (catchCheckError_silent env e w2) as (evs3 & Ht3 & Hq3). unfold run in Ht3.
      exists (evs1 ++ evs2 ++ evs3), k, rs. split.
      * now rewrite Ht3, Ht2, Ht1, !app_assoc.
      * now rewrite !keyLookups_app, Hq1, Hq2, Hq3, app_nil_r.
Qed.

Lemma laterThan_mono t0 t1 q :
  (t0 <= t1)%Z -> laterThan parseDate t1 q -> laterThan parseDate t0 q.
Proof.
  intros Hle. destruct q as [i r | i n]; simpl; [|auto].
  intros (t & Ht & Hlt). exists t. split; [exact Ht | lia].
Qed.

(** One monitored check keeps the watermark at or above a time that the
    clock has passed, and looks up by natural key only what is later than
    that time. *)
Lemma monitoredCheck_after t0 label env w :
  (t0 <= lastCheckTime w)%Z -> (t0 <= now env)%Z ->
  let w' := run (monitoredCheck parseDate toISOString label env) w in
  (t0 <= lastCheckTime w')%Z
  /\ exists evs, trace w' = trace w ++ evs /\ Forall (laterThan parseDate t0) (keyLookups evs).
Proof.
  intros Hw Hnow w'. subst w'.
  pose proof (cycle_watermark env w) as Hmark.
  destruct (cycle_lookups env w) as (evs & k & rs & Ht & Hq).
  unfold monitoredCheck, run, tryCatch. unfold outcome, run in Hmark. unfold run in Ht.
  destruct (checkForNewReferrals parseDate toISOString env w) as [[u|e] w1]; simpl in *.
  - split; [lia|]. exists evs. split; [exact Ht|]. rewrite Hq.
    eapply Forall_impl; [|apply laterThan_new]. intro q. now apply laterThan_mono.
  - split; [lia|]. exists evs. split; [exact Ht|]. rewrite Hq.
    eapply Forall_impl; [|apply laterThan_new]. intro q. now apply laterThan_mono.
Qed.

Lemma monitoring_loop_after t0 label ticks : forall w,
  (t0 <= lastCheckTime w)%Z ->
  (forall env, In env ticks -> (t0 <= now env)%Z) ->
  let w' := run (forOf ticks (monitoredCheck parseDate toISOString label)) w in
  (t0 <= lastCheckTime w')%Z
  /\ exists evs, trace w' = trace w ++ evs /\ Forall (laterThan parseDate t0) (keyLookups evs).
Proof.
  induction ticks as [|env ticks IH]; intros w Hw Hnow.
  - simpl. split; [exact Hw|]. exists []. rewrite app_nil_r. split; [reflexivity | constructor].
  - simpl forOf. cbv zeta. rewrite run_bind.
    destruct (monitoredCheck_after t0 label env w Hw (Hnow env (or_introl eq_refl)))
      as (H1 & evs1 & Ht1 & Hq1).
    unfold run in H1, Ht1.
    destruct (monitoredCheck parseDate toISOString label env w) as [[u|e] w1] eqn:Hrun; simpl in H1, Ht1.
    + destruct (IH w1 H1 (fun e He => Hnow e (or_intror He))) as (H2 & evs2 & Ht2 & Hq2).
      split; [exact H2|]. exists (evs1 ++ evs2). split.
      * now rewrite Ht2, Ht1, app_assoc.
      * rewrite keyLookups_app. apply Forall_app. auto.
    + split; [exact H1|]. exists evs1. auto.
Qed.

(** C9. The watermark starts as the time at which the process loaded the
    module.  While the clock does not read earlier than that time, the
    watermark never falls below it, and the API path never looks up a
    candidate whose requestOn is at or before it, in the first cycle or in a
    later one: every lookup by natural key of the monitoring run is for a
    requestOn strictly later than the start of the process. *)
Theorem no_backfill_before_process_start start docs notes fresh first ticks :
  (forall env, In env (first :: ticks) -> (start <= now env)%Z) ->
  let w0 := moduleLoad start docs notes fresh in
  let w' := run (startReferralMonitoring parseDate toISOString first ticks) w0 in
  lastCheckTime w0 = start
  /\ (start <= lastCheckTime w')%Z
  /\ Forall (laterThan parseDate start) (keyLookups (trace w')).
Proof.
  intros Hnow w0 w'. split; [reflexivity|]. subst w'.
  unfold startReferralMonitoring. rewrite run_bind.
  assert (H0 : (start <= lastCheckTime w0)%Z) by (simpl; lia).
  destruct (monitoredCheck_after start "Error in initial referral check:" first w0 H0
              (Hnow first (or_introl eq_refl))) as (H1 & evs1 & Ht1 & Hq1).
  unfold run in H1, Ht1.
  destruct (monitoredCheck parseDate toISOString _ first w0) as [[u|e] w1]; simpl in H1, Ht1.
  - destruct (monitoring_loop_after start "Error in scheduled referral check:" ticks w1 H1
                (fun e He => Hnow e (or_intror He))) as (H2 & evs2 & Ht2 & Hq2).
    split; [exact H2|]. rewrite Ht2, Ht1. simpl. rewrite keyLookups_app.
    apply Forall_app. auto.
  - split; [exact H1|]. rewrite Ht1. exact Hq1.
Qed.





(** X18. When the mail transport rejects the message for the first new candidate
    of a cycle, the cycle ends in that error: the candidate's document and
    notification are stored, the document with isNotified false; no text
    message is sent and the document is not saved again; the candidates after
    it are not looked up; the watermark is the one the cycle started with;
    the error is logged by [sendEmail] and by the cycle.  The store, the
    trace and the console are compared with what the login left. *)
Lemma email_failure_stops_cycle env w status response r rest :
  setup env = SetupOk -> portalLogin env = true ->
  post env (cookieString (jar env)) (extractXsrfToken (cookieString (jar env)))
  = Response status (Some response) ->
  (200 <= status < 300)%Z ->
  filter (isNew parseDate (lastCheckTime w)) response = r :: rest ->
  let w0 := run (loginToAvaility toISOString env) w in
  find (matches (queryOf r)) (referrals w0) = None ->
  Api.memberName r <> "" -> Api.memberID r <> "" ->
  emailRecipients (processEnv env) <> [] ->
  smtpOk env (Js.join "," (emailRecipients (processEnv env))) emailSubject (emailText r) = false ->
  let d := docOfReferral r (nextId w0) in
  let n := noteOfReferral r (nextId w0) (S (nextId w0)) in
  let w' := run (checkForNewReferrals parseDate toISOString env) w in
  outcome (checkForNewReferrals parseDate toISOString env) w = Throw ErrSmtp
  /\ lastCheckTime w' = lastCheckTime w
  /\ referrals w' = referrals w0 ++ [d] /\ Doc.isNotified d = false
  /\ notifications w' = notifications w0 ++ [n]
  /\ since w0 w' = [EvCookies;
                    EvPost (cookieString (jar env))
                           (extractXsrfToken (cookieString (jar env)));
                    EvFindOne (queryOf r); EvCreateReferral d; EvCreateNotification n]
                   ++ emailDispatch env emailSubject (emailText r)
  /\ console w' = console w0 ++ ["Error sending email notification:";
                                 "Error checking for new referrals:"].
Proof.
  intros Hs Hl Hpost Hstatus Hnew w0 Hfind Hname Hid Hne Hko d n w'.
  destruct (cycle_head env w Hs Hl) as (w0' & page & Hlogin & HC & _ & _ & _ & _ & _ & E).
  assert (Hw0 : w0 = w0') by (subst w0; unfold run; now rewrite Hlogin).
  subst w0'. cbv zeta in E. rewrite Hpost in E.
  replace ((200 <=? status)%Z && (status <? 300)%Z) with true in E
    by (symmetry; apply andb_true_iff; split; [apply Z.leb_le | apply Z.ltb_lt]; lia).
  rewrite Hnew in E. simpl forOf in E. unfold bind at 1 in E.
  match type of E with
  | context [processReferral env r ?x] =>
      destruct (processReferral_email_fails env r x Hfind Hname Hid Hne Hko)
        as (w2 & E2 & Ht2 & Hr2 & Hn2 & Hc2 & Hk2 & _)
  end.
  rewrite E2 in E.
  change (catchCheckError env ErrSmtp w2)
    with (@Throw unit ErrSmtp,
          setConsole (console w2 ++ ["Error checking for new referrals:"]) w2) in E.
  subst w'. unfold outcome, run. rewrite E. simpl.
  simpl in Ht2, Hr2, Hn2, Hc2, Hk2. unfold sameClock in Hk2, HC. simpl in Hk2.
  split; [reflexivity|]. split; [congruence|]. split; [exact Hr2|].
  split; [reflexivity|]. split; [exact Hn2|]. split.
  - apply since_app. simpl. rewrite Ht2. repeat rewrite <- app_assoc. reflexivity.
  - rewrite Hc2, <- app_assoc. reflexivity.
Qed.

(* ===================================================================== *)
(** * The rows scraped from the page *)
(* ===================================================================== *)

Lemma matches_ByMemberName i n d :
  matches (ByMemberName i n) d = true <-> Doc.memberID d = i /\ Doc.memberName d = n.
Proof. unfold matches. now rewrite andb_true_iff, !String.eqb_eq. Qed.

Lemma matches_ByRequestOn i r d :
  matches (ByRequestOn i r) d = true <-> Doc.memberID d = i /\ Doc.requestOn d = r.
Proof. unfold matches. now rewrite andb_true_iff, !String.eqb_eq. Qed.

(** C4, as amended.  The path that stores the rows scraped from the page
    looks a row up by memberID and memberName, not by memberID and
    requestOn: a row is skipped exactly when a stored document has its
    memberID and memberName, whatever the requestOn of either, and is stored
    otherwise.  Hence that path recognises a document of the API path when
    memberID and memberName agree, and the API path recognises a document of
    that path when memberID agrees and the candidate's requestOn is what the
    row was stored with: its requestDate or, without one, the time of
    storing.  The path never looks a row up by natural key. *)
Theorem scraped_rows_are_keyed_by_member_name env member w r id :
  let q := ByMemberName (Member.memberID member) (Member.memberName member) in
  let w' := run (saveMember toISOString env member) w in
  (exists evs, since w w' = EvFindOne q :: evs /\ keyLookups evs = [])
  /\ ((exists d, In d (referrals w)
                 /\ Doc.memberID d = Member.memberID member
                 /\ Doc.memberName d = Member.memberName member) ->
      referrals w' = referrals w)
  /\ ((forall d, In d (referrals w) ->
                 ~ (Doc.memberID d = Member.memberID member
                    /\ Doc.memberName d = Member.memberName member)) ->
      referrals w' = referrals w ++ [docOfMember toISOString env member (nextId w)])
  /\ (matches q (docOfReferral r id) = true
      <-> Api.memberID r = Member.memberID member
          /\ Api.memberName r = Member.memberName member)
  /\ (matches (queryOf r) (docOfMember toISOString env member id) = true
      <-> Member.memberID member = Api.memberID r
          /\ Js.orElse (Member.requestDate member) (toISOString (storedAt env member))
             = Api.requestOn r).
Proof.
  intros q w'.
  assert (Hrun :
    match find (matches q) (referrals w) with
    | Some _ => w' = setTrace (trace w ++ [EvFindOne q]) w
    | None =>
        exists evs, trace w' = trace w ++ EvFindOne q :: evs /\ keyLookups evs = []
        /\ referrals w' = referrals w ++ [docOfMember toISOString env member (nextId w)]
    end).
  { subst w'. unfold saveMember. rewrite run_bind, findOne_eq. fold q.
    cbn [referrals setTrace].
    destruct (find (matches q) (referrals w)) as [d0|]; [reflexivity|].
    rewrite run_bind, createReferral_eq.
    match goal with
    | |- context [run ?m ?w1] =>
        assert (Hs : keeps silent m) by keeps_silent;
        assert (Hr : keeps sameReferrals m) by keeps_referrals;
        destruct (Hs w1) as (evs & Ht & Hq); pose proof (Hr w1) as Hrefs
    end.
    exists (EvCreateReferral (docOfMember toISOString env member (nextId w)) :: evs).
    split; [|split].
    - rewrite Ht. simpl. rewrite <- !app_assoc. reflexivity.
    - simpl. exact Hq.
    - rewrite Hrefs. reflexivity. }
  split; [|split; [|split; [|split]]].
  - destruct (find (matches q) (referrals w)).
    + exists []. split; [|reflexivity]. apply since_app. now rewrite Hrun.
    + destruct Hrun as (evs & Ht & Hq & _). exists evs. split; [now apply since_app | exact Hq].
  - intros (d & Hin & Hid & Hname).
    destruct (find (matches q) (referrals w)) eqn:Hfind; [now rewrite Hrun|].
    apply (find_none _ _ Hfind) in Hin.
    assert (matches q d = true) by (apply matches_ByMemberName; auto). congruence.
  - intro Hnone. destruct (find (matches q) (referrals w)) as [d0|] eqn:Hfind.
    + apply find_some in Hfind. destruct Hfind as (Hin & Hm).
      apply matches_ByMemberName in Hm. exfalso. exact (Hnone d0 Hin Hm).
    + destruct Hrun as (_ & _ & _ & Hr). exact Hr.
  - unfold q. rewrite matches_ByMemberName. reflexivity.
  - unfold queryOf. rewrite matches_ByRequestOn. reflexivity.
Qed.

End Cycle.
(* ===================================================================== *)
(** * The worker on the scenarios *)
(* ===================================================================== *)

(** A natural key stored twice by two cycles.  The page shows the same row in
    both cycles, first without the member's name and then with it; the path
    that stores the rows of the page during the login looks the row up by
    memberID and memberName, finds none the second time and stores it again.
    The API offers nothing in either cycle. *)
Lemma natural_key_stored_twice_by_page_rows :
  let env1 := Demo.withRows [Demo.unnamedRow] (Demo.idle Demo.firstTick) in
  let env2 := Demo.withRows [Demo.namedRow] (Demo.idle Demo.secondTick) in
  let w' := run (checkForNewReferrals Demo.utcDate Demo.isoString env2)
                (run (checkForNewReferrals Demo.utcDate Demo.isoString env1) Demo.start) in
  referrals Demo.start = []
  /\ outcome (checkForNewReferrals Demo.utcDate Demo.isoString env1) Demo.start = Ok tt
  /\ countKey ("REF-77", "05/02/2024") (referrals w') = 2%nat
  /\ ~ uniqueKeys (referrals w').
Proof.
  cbv zeta. split; [reflexivity|]. split; [vm_compute; reflexivity|].
  assert (H : countKey ("REF-77", "05/02/2024")
                (referrals
                   (run (checkForNewReferrals Demo.utcDate Demo.isoString
                           (Demo.withRows [Demo.namedRow] (Demo.idle Demo.secondTick)))
                        (run (checkForNewReferrals Demo.utcDate Demo.isoString
                                (Demo.withRows [Demo.unnamedRow] (Demo.idle Demo.firstTick)))
                             Demo.start))) = 2%nat) by (vm_compute; reflexivity).
  split; [exact H|]. intro Hu. specialize (Hu ("REF-77", "05/02/2024")). rewrite H in Hu. lia.
Qed.

(** The watermark of a completed cycle is not the time at which the cycle was
    entered: the first cycle of the scenario is entered at 10:05:00.000 and
    leaves the watermark at 10:05:04.200. *)
Lemma watermark_is_not_time_of_entry :
  ~ (forall env w,
        outcome (checkForNewReferrals Demo.utcDate Demo.isoString env) w = Ok tt ->
        lastCheckTime (run (checkForNewReferrals Demo.utcDate Demo.isoString env) w) = enteredAt env).
Proof.
  intro H. specialize (H Demo.first Demo.start).
  assert (Hok : outcome (checkForNewReferrals Demo.utcDate Demo.isoString Demo.first) Demo.start = Ok tt)
    by (vm_compute; reflexivity).
  specialize (H Hok). vm_compute in H. discriminate H.
Qed.

Lemma watermark_is_clock_read_after_fetch_witness :
  outcome (checkForNewReferrals Demo.utcDate Demo.isoString Demo.first) Demo.start = Ok tt
  /\ lastCheckTime (run (checkForNewReferrals Demo.utcDate Demo.isoString Demo.first) Demo.start)
     = now Demo.first.
Proof.
  assert (Hok : outcome (checkForNewReferrals Demo.utcDate Demo.isoString Demo.first) Demo.start = Ok tt)
    by (vm_compute; reflexivity).
  split; [exact Hok|].
  exact (watermark_is_clock_read_after_fetch Demo.utcDate Demo.isoString Demo.first Demo.start Hok).
Defined.

(** C3 on a cycle whose mail transport rejects the message.  The cycle ends
    in the error of the transport; the only transport call of the cycle is
    that mail, so no text message was attempted; the document stays with
    isNotified false; the watermark has not moved.  The next cycle, offered
    the same candidate, finds it stored and never notifies for it. *)
Theorem email_failure_aborts_the_cycle :
  let failed := run (checkForNewReferrals Demo.utcDate Demo.isoString (Demo.smtpDown Demo.first)) Demo.start in
  let next := run (checkForNewReferrals Demo.utcDate Demo.isoString Demo.second) failed in
  outcome (checkForNewReferrals Demo.utcDate Demo.isoString (Demo.smtpDown Demo.first)) Demo.start
  = Throw ErrSmtp
  /\ List.length (filter isTransport (trace failed)) = 1%nat
  /\ filter isTransport (trace failed)
     = emailDispatch Demo.first emailSubject (emailText Demo.jane)
  /\ map Doc.isNotified (referrals failed) = [false]
  /\ List.length (notifications failed) = 1%nat
  /\ lastCheckTime failed = lastCheckTime Demo.start
  /\ console failed = ["Error sending email notification:";
                       "Error checking for new referrals:"]
  /\ map (fun d => (Doc.memberID d, Doc.isNotified d)) (referrals next)
     = [("A100", false); ("A101", true)].
Proof. vm_compute. repeat split; reflexivity. Qed.

(** The two paths do not recognise each other's documents by one key.  A row
    stored by the page path is stored again by the API path when the API
    offers the same referral; and a row for another request of a member is
    skipped by the page path once the API path has stored one request of that
    member. *)
Lemma paths_do_not_share_a_key :
  let scraped := run (saveMembersToDatabase Demo.isoString Demo.first [Demo.janeRow])
                     Demo.start in
  let polled := run (checkForNewReferrals Demo.utcDate Demo.isoString Demo.second) scraped in
  let polled' := run (checkForNewReferrals Demo.utcDate Demo.isoString Demo.first) Demo.start in
  let scraped' := run (saveMembersToDatabase Demo.isoString Demo.second [Demo.janeRowLater])
                      polled' in
  lookups (trace scraped) = [ByMemberName "A100" "DOE, JANE"]
  /\ map keyOf (referrals scraped) = [("A100", "2024-05-02T10:05:02.100Z")]
  /\ map (fun d => (Doc.memberID d, Doc.memberName d)) (referrals polled)
     = [("A100", "DOE, JANE"); ("A100", "DOE, JANE"); ("A101", "POE, JOHN")]
  /\ countKey ("A100", "2024-06-01T08:00:00.000Z") (referrals polled') = 0%nat
  /\ referrals scraped' = referrals polled'.
Proof. vm_compute. repeat split; reflexivity. Qed.

Lemma scraped_rows_are_keyed_by_member_name_witness :
  (exists d, In d (referrals (run (checkForNewReferrals Demo.utcDate Demo.isoString Demo.first) Demo.start))
             /\ Doc.memberID d = Member.memberID Demo.janeRowLater
             /\ Doc.memberName d = Member.memberName Demo.janeRowLater)
  /\ referrals (run (saveMember Demo.isoString Demo.second Demo.janeRowLater)
                    (run (checkForNewReferrals Demo.utcDate Demo.isoString Demo.first) Demo.start))
     = referrals (run (checkForNewReferrals Demo.utcDate Demo.isoString Demo.first) Demo.start).
Proof.
  assert (H : exists d,
             In d (referrals (run (checkForNewReferrals Demo.utcDate Demo.isoString Demo.first) Demo.start))
             /\ Doc.memberID d = Member.memberID Demo.janeRowLater
             /\ Doc.memberName d = Member.memberName Demo.janeRowLater).
  { eexists. vm_compute. split; [left; reflexivity | split; reflexivity]. }
  split; [exact H|].
  exact (proj1 (proj2 (scraped_rows_are_keyed_by_member_name Demo.isoString Demo.second
                         Demo.janeRowLater
                         (run (checkForNewReferrals Demo.utcDate Demo.isoString Demo.first) Demo.start)
                         Demo.jane 0%nat)) H).
Defined.



(** With recipients configured and no SMTP credentials, [sendEmail] still
    calls the transport. *)
Lemma sendEmail_without_credentials_calls_transport :
  let env := Demo.cycle Demo.cfgNoSmtpLogin NoResponse Demo.firstTick in
  EMAIL_USER (processEnv env) = None
  /\ EMAIL_PASS (processEnv env) = None
  /\ since Demo.start (run (sendEmail env "subject" "text") Demo.start)
     = [EvSendMail defaultSender "ops@example.org" "subject" "text"].
Proof. vm_compute. repeat split; reflexivity. Qed.

Lemma unconfigured_channel_is_a_noop_witness :
  let env := Demo.cycle Demo.cfgEmpty NoResponse Demo.firstTick in
  EMAIL_RECIPIENTS (processEnv env) = None
  /\ trace (run (sendEmail env "subject" "text") Demo.start) = trace Demo.start
  /\ Js.falsy (TWILIO_SID (processEnv env)) = true
  /\ trace (run (sendSMS env "message") Demo.start) = trace Demo.start.
Proof.
  intro env.
  destruct (unconfigured_channel_is_a_noop env "subject" "text" "message" Demo.start)
    as (Hmail & Hsms & _).
  split; [reflexivity|]. split.
  - unfold run. rewrite (Hmail eq_refl). reflexivity.
  - split; [reflexivity|]. unfold run. rewrite (Hsms (or_introl eq_refl)). reflexivity.
Defined.

Lemma no_backfill_before_process_start_witness :
  (forall env, In env [Demo.first; Demo.second] -> (Demo.processStart <= now env)%Z)
  /\ Forall (laterThan Demo.utcDate Demo.processStart)
       (keyLookups (trace (run (startReferralMonitoring Demo.utcDate Demo.isoString Demo.first [Demo.second])
                            Demo.start))).
Proof.
  assert (H : forall env, In env [Demo.first; Demo.second] ->
                          (Demo.processStart <= now env)%Z).
  { intros env [<- | [<- | []]]; vm_compute; discriminate. }
  split; [exact H|].
  exact (proj2 (proj2 (no_backfill_before_process_start Demo.utcDate Demo.isoString
                         Demo.processStart
                         [] [] 0%nat Demo.first [Demo.second] H))).
Defined.

(** C10 on a jar without a cookie named XSRF-TOKEN.  The pattern is not tied
    to the start of a cookie name, so the value of the cookie MY-XSRF-TOKEN is
    returned, and the request carries it in its X-XSRF-TOKEN header. *)
Theorem xsrf_token_taken_from_another_cookie :
  let env := Demo.withJar Demo.foreignJar Demo.first in
  let cookies := cookieString (jar env) in
  existsb (fun cookie => String.eqb (fst cookie) "XSRF-TOKEN") (jar env) = false
  /\ extractXsrfToken cookies = "abc"
  /\ In (EvPost cookies "abc")
        (trace (run (checkForNewReferrals Demo.utcDate Demo.isoString env) Demo.start)).
Proof.
  vm_compute. split; [reflexivity|]. split; [reflexivity|].
  do 4 right. left. reflexivity.
Qed.

(* ===================================================================== *)
(** * More of the two channels *)
(* ===================================================================== *)

Lemma split_nonempty sep s : Js.split sep s <> [].
Proof.
  destruct s as [|c rest]; simpl; [discriminate|].
  destruct (Ascii.eqb c sep); [discriminate|].
  destruct (Js.split sep rest); discriminate.
Qed.

(** X1. Once EMAIL_RECIPIENTS is set, to whatever string, [sendEmail] calls
    the transport exactly once, with the trimmed entries joined by commas:
    splitting a string never gives an empty array, so the guard for an empty
    recipient list cannot fire, not even for the empty string.  This holds
    whether the transport then accepts the message or rejects it. *)
Theorem set_recipients_always_reach_the_transport env subject text w recipients :
  EMAIL_RECIPIENTS (processEnv env) = Some recipients ->
  since w (run (sendEmail env subject text) w)
  = [EvSendMail (Js.orElse (EMAIL_FROM (processEnv env)) defaultSender)
                (Js.join "," (map Js.trim (Js.split Js.comma recipients)))
                subject text]
  /\ (EMAIL_RECIPIENTS (processEnv env) = Some "" ->
      since w (run (sendEmail env subject text) w)
      = [EvSendMail (Js.orElse (EMAIL_FROM (processEnv env)) defaultSender) ""
                    subject text]).
Proof.
  intro Hset.
  assert (Hgen : forall r,
             EMAIL_RECIPIENTS (processEnv env) = Some r ->
             since w (run (sendEmail env subject text) w)
             = [EvSendMail (Js.orElse (EMAIL_FROM (processEnv env)) defaultSender)
                           (Js.join "," (map Js.trim (Js.split Js.comma r)))
                           subject text]).
  { intros r Hr. apply since_app. unfold run, sendEmail, emailRecipients, tryCatch. rewrite Hr.
    destruct (map Js.trim (Js.split Js.comma r)) as [|x xs] eqn:Hmap.
    - apply map_eq_nil in Hmap. now apply split_nonempty in Hmap.
    - cbn [List.length Nat.eqb]. unfold bind, emit, modify.
      destruct (smtpOk env (Js.join "," (x :: xs)) subject text); reflexivity. }
  split; [now apply Hgen|]. intro Hempty. now rewrite (Hgen "" Hempty).
Qed.

Lemma set_recipients_always_reach_the_transport_witness :
  EMAIL_RECIPIENTS (processEnv Demo.first) = Some "ops@example.org, lead@example.org"
  /\ since Demo.start (run (sendEmail Demo.first "subject" "text") Demo.start)
     = [EvSendMail defaultSender "ops@example.org,lead@example.org" "subject" "text"].
Proof.
  split; [reflexivity|].
  exact (proj1 (set_recipients_always_reach_the_transport Demo.first "subject" "text"
                  Demo.start "ops@example.org, lead@example.org" eq_refl)).
Defined.

(** The loop of [sendSMS] up to the first message that is rejected. *)
Lemma twilio_loop_fails env message from before n after : forall w,
  (forall m, In m before -> twilioOk env (Js.trim m) message = true) ->
  twilioOk env (Js.trim n) message = false ->
  forOf (before ++ n :: after) (fun toNumber =>
             bind (emit (EvTwilioCreate message from (Js.trim toNumber)))
                  (fun _ => if twilioOk env (Js.trim toNumber) message
                            then ret tt else throw ErrTwilio)) w
  = (Throw ErrTwilio,
     setTrace (trace w ++ map (fun m => EvTwilioCreate message from (Js.trim m))
                              (before ++ [n])) w).
Proof.
  induction before as [|m before IH]; intros w Hok Hko.
  - simpl. unfold bind at 1. unfold bind at 1. unfold emit at 1, modify at 1.
    rewrite Hko. reflexivity.
  - simpl app. simpl forOf. unfold bind at 1. unfold bind at 1. unfold emit at 1, modify at 1.
    rewrite (Hok m (or_introl eq_refl)). unfold ret at 1.
    rewrite IH by (auto; intros; apply Hok; now right).
    rewrite setTrace_setTrace. simpl. rewrite <- app_assoc. reflexivity.
Qed.

(** X2. When the SMS transport rejects the message for one recipient,
    [sendSMS] has already sent it to the recipients before that one, sends
    nothing to those after it, logs the error and throws it on. *)
Theorem sms_stops_at_the_first_rejection env message w before n after :
  Js.falsy (TWILIO_SID (processEnv env)) = false ->
  Js.falsy (TWILIO_AUTH_TOKEN (processEnv env)) = false ->
  Js.falsy (TWILIO_PHONE_NUMBER (processEnv env)) = false ->
  toNumbers (processEnv env) = before ++ n :: after ->
  (forall m, In m before -> twilioOk env (Js.trim m) message = true) ->
  twilioOk env (Js.trim n) message = false ->
  sendSMS env message w
  = (Throw ErrTwilio,
     setConsole (console w ++ ["Error sending SMS notification:"])
       (setTrace
          (trace w
           ++ map (fun m => EvTwilioCreate message
                              (Js.orElse (TWILIO_PHONE_NUMBER (processEnv env)) "")
                              (Js.trim m))
                  (before ++ [n])) w)).
Proof.
  intros H1 H2 H3 Hto Hok Hko. unfold sendSMS, tryCatch. cbv zeta.
  rewrite H1, H2, H3. cbn [orb]. rewrite Hto.
  replace (List.length (before ++ n :: after) =? 0)%nat with false
    by (symmetry; apply Nat.eqb_neq; rewrite length_app; simpl; lia).
  rewrite (twilio_loop_fails env message _ before n after w Hok Hko). reflexivity.
Qed.

Lemma sms_stops_at_the_first_rejection_witness :
  let env := Demo.smsDownFor "+15550102" Demo.first in
  toNumbers (processEnv env) = ["+15550101"] ++ " +15550102" :: []
  /\ since Demo.start (run (sendSMS env "message") Demo.start)
     = [EvTwilioCreate "message" "+15550100" "+15550101";
        EvTwilioCreate "message" "+15550100" "+15550102"]
  /\ outcome (sendSMS env "message") Demo.start = Throw ErrTwilio.
Proof.
  intro env.
  assert (Hto : toNumbers (processEnv env) = ["+15550101"] ++ " +15550102" :: [])
    by reflexivity.
  assert (Hok : forall m, In m ["+15550101"] -> twilioOk env (Js.trim m) "message" = true)
    by (intros m [<- | []]; reflexivity).
  pose proof (sms_stops_at_the_first_rejection env "message" Demo.start
                ["+15550101"] " +15550102" [] eq_refl eq_refl eq_refl Hto Hok eq_refl) as H.
  split; [exact Hto|]. unfold outcome, run. rewrite H. split; reflexivity.
Defined.

(** X3. A candidate without a member name or without a member ID is stored
    as a referral and then refused by the notification schema, whose
    [memberName] and [memberID] are required: the document stays in the
    store with isNotified false, no notification is stored, no transport is
    called, and the validation error is thrown. *)
Theorem unnamed_candidate_is_stored_without_notification env r w :
  find (matches (queryOf r)) (referrals w) = None ->
  Api.memberName r = "" \/ Api.memberID r = "" ->
  let d := docOfReferral r (nextId w) in
  processReferral env r w
  = (Throw ErrValidation,
     setReferrals (referrals w ++ [d])
       (setNextId (S (nextId w))
          (setTrace (trace w ++ [EvFindOne (queryOf r); EvCreateReferral d]) w)))
  /\ Doc.isNotified d = false.
Proof.
  intros Hfind Hempty d. split; [|reflexivity].
  unfold processReferral. unfold bind at 1. rewrite findOne_eq.
  fold (queryOf r). rewrite Hfind. cbv iota beta.
  unfold bind at 1. rewrite createReferral_eq. cbv iota beta.
  unfold bind at 1. rewrite createNotification_invalid by exact Hempty.
  cbn [referrals nextId trace setTrace setNextId setReferrals]. fold d.
  rewrite <- app_assoc. reflexivity.
Qed.

Lemma unnamed_candidate_is_stored_without_notification_witness :
  outcome (processReferral Demo.first Demo.nameless) Demo.start = Throw ErrValidation
  /\ map Doc.isNotified
         (referrals (run (processReferral Demo.first Demo.nameless) Demo.start)) = [false]
  /\ notifications (run (processReferral Demo.first Demo.nameless) Demo.start) = [].
Proof.
  pose proof (unnamed_candidate_is_stored_without_notification Demo.first Demo.nameless
                Demo.start eq_refl (or_introl eq_refl)) as (H & _).
  unfold outcome, run. rewrite H. repeat split; reflexivity.
Defined.

(* ===================================================================== *)
(** * The helpers of bot.ts *)
(* ===================================================================== *)




Lemma untilSemicolon_clean s : Js.includes ";" (Js.untilSemicolon s) = false.
Proof.
  induction s as [|c s IH]; [reflexivity|].
  simpl Js.untilSemicolon. unfold Js.semicolon.
  destruct (Ascii.eqb c ";"%char) eqn:Hc; [reflexivity|].
  cbn [Js.includes String.prefix].
  destruct (ascii_dec ";"%char c) as [E|E].
  - subst c. rewrite Ascii.eqb_refl in Hc. discriminate.
  - simpl. exact IH.
Qed.

Lemma matchXsrf_cons c s :
  Js.matchXsrf (String c s)
  = if String.prefix Js.xsrfName (String c s)
    then match Js.untilSemicolon
                 (Js.dropPrefix (String.length Js.xsrfName) (String c s)) with
         | EmptyString => Js.matchXsrf s
         | group => Some group
         end
    else Js.matchXsrf s.
Proof. reflexivity. Qed.

Lemma matchXsrf_clean s : forall group,
  Js.matchXsrf s = Some group -> Js.includes ";" group = false /\ group <> "".
Proof.
  induction s as [|c s IH]; intros group H; [discriminate|].
  rewrite matchXsrf_cons in H.
  destruct (String.prefix Js.xsrfName (String c s)); [|now apply IH].
  destruct (Js.untilSemicolon (Js.dropPrefix (String.length Js.xsrfName) (String c s)))
    as [|g gs] eqn:Hg; [now apply IH|].
  injection H as <-. split; [|discriminate]. rewrite <- Hg. apply untilSemicolon_clean.
Qed.

Lemma matchXsrf_absent s : Js.includes Js.xsrfName s = false -> Js.matchXsrf s = None.
Proof.
  induction s as [|c s IH]; intro H; [reflexivity|].
  change (Js.includes Js.xsrfName (String c s))
    with (String.prefix Js.xsrfName (String c s) || Js.includes Js.xsrfName s) in H.
  apply orb_false_iff in H. destruct H as (Hp & Hrest).
  rewrite matchXsrf_cons, Hp. now apply IH.
Qed.

(** X5. [extractXsrfToken] never returns a string with a semicolon in it; it
    returns the empty string exactly when the pattern does not match, and in
    particular when the text [XSRF-TOKEN=] occurs nowhere in the cookie
    string. *)
Theorem extracted_token_has_no_semicolon cookies :
  Js.includes ";" (extractXsrfToken cookies) = false
  /\ (extractXsrfToken cookies = "" <-> Js.matchXsrf cookies = None)
  /\ (Js.includes Js.xsrfName cookies = false -> extractXsrfToken cookies = "").
Proof.
  unfold extractXsrfToken. split; [|split].
  - destruct (Js.matchXsrf cookies) as [g|] eqn:H; [|reflexivity].
    now apply (matchXsrf_clean cookies g).
  - destruct (Js.matchXsrf cookies) as [g|] eqn:H.
    + split; [|discriminate]. intros ->. now apply (matchXsrf_clean cookies "") in H.
    + split; reflexivity.
  - intro H. now rewrite (matchXsrf_absent cookies H).
Qed.

(** X6. [setupBot] assigns the module variables as it goes.  When opening
    the page is rejected after the browser has launched, the error is logged
    and thrown, [browser] holds the new browser, [page] is what it was, and
    nothing has closed the browser. *)
Theorem failed_page_leaves_the_browser_assigned env w :
  setup env = NewPageFails ->
  setupBot env w
  = (Throw ErrSetup,
     setConsole (console w ++ ["Error setting up bot:"])
       (setBrowser (Some (launched w))
          (setLaunched (S (launched w))
             (setTrace (trace w ++ [EvLaunch; EvNewPage]) w))))
  /\ page (run (setupBot env) w) = page w.
Proof.
  intro Hs. assert (H : setupBot env w
                        = (Throw ErrSetup,
                           setConsole (console w ++ ["Error setting up bot:"])
                             (setBrowser (Some (launched w))
                                (setLaunched (S (launched w))
                                   (setTrace (trace w ++ [EvLaunch; EvNewPage]) w))))).
  { unfold setupBot, tryCatch, bind, get, emit, modify, consoleError, throw. rewrite Hs. simpl.
    rewrite <- app_assoc. reflexivity. }
  split; [exact H|]. unfold run. rewrite H. reflexivity.
Qed.

Lemma failed_page_leaves_the_browser_assigned_witness :
  setup (Demo.withSetup NewPageFails Demo.first) = NewPageFails
  /\ browser (run (setupBot (Demo.withSetup NewPageFails Demo.first)) Demo.start) = Some 0%nat
  /\ page (run (setupBot (Demo.withSetup NewPageFails Demo.first)) Demo.start) = None.
Proof.
  pose proof (failed_page_leaves_the_browser_assigned
                (Demo.withSetup NewPageFails Demo.first) Demo.start eq_refl) as (H & Hp).
  split; [reflexivity|]. split; [|exact Hp]. unfold run. rewrite H. reflexivity.
Defined.

(* ===================================================================== *)
(** * More of the session and of the polling cycle *)
(* ===================================================================== *)

Lemma browserEvents_app evs evs' :
  browserEvents (evs ++ evs') = (browserEvents evs + browserEvents evs')%nat.
Proof. unfold browserEvents. now rewrite filter_app, length_app. Qed.

Lemma tidy_refl w : tidy w w.
Proof. exists []. now rewrite app_nil_r. Qed.

Lemma tidy_trans w1 w2 w3 : tidy w1 w2 -> tidy w2 w3 -> tidy w1 w3.
Proof.
  intros (e1 & H1 & Q1) (e2 & H2 & Q2). exists (e1 ++ e2). split.
  - now rewrite H2, H1, app_assoc.
  - now rewrite browserEvents_app, Q1, Q2.
Qed.

Ltac keeps_tidy :=
  keeps_with tidy_refl tidy_trans;
  try (unfold tidy; simpl;
       first [ (eexists; split; [reflexivity | reflexivity])
             | (exists []; rewrite app_nil_r; split; reflexivity) ]).

Lemma sendEmail_tidy env subject text : keeps tidy (sendEmail env subject text).
Proof. unfold sendEmail. keeps_tidy. Qed.

Lemma sendSMS_tidy env message : keeps tidy (sendSMS env message).
Proof. unfold sendSMS. keeps_tidy. Qed.

Lemma findOne_tidy q : keeps tidy (findOne q).
Proof. unfold findOne. keeps_tidy. Qed.

Lemma createReferral_tidy fields : keeps tidy (createReferral fields).
Proof. unfold createReferral. keeps_tidy. Qed.

Lemma createNotification_tidy i n m t : keeps tidy (createNotification i n m t).
Proof. unfold createNotification. keeps_tidy. Qed.

Lemma saveNotified_tidy d : keeps tidy (saveNotified d).
Proof. unfold saveNotified. keeps_tidy. Qed.

#[local] Hint Resolve sendEmail_tidy sendSMS_tidy findOne_tidy createReferral_tidy
  createNotification_tidy saveNotified_tidy : keeps.

Lemma processReferral_tidy env r : keeps tidy (processReferral env r).
Proof. unfold processReferral. keeps_tidy. Qed.

Lemma saveNotified_offline d : keeps offline (saveNotified d).
Proof. unfold saveNotified. keeps_offline. Qed.

#[local] Hint Resolve processReferral_tidy saveNotified_offline : keeps.

Lemma processReferral_offline env r : keeps offline (processReferral env r).
Proof. unfold processReferral. keeps_offline. Qed.

#[local] Hint Resolve processReferral_offline : keeps.

(** The [catch] clause on an error for which it does not close the browser. *)
Lemma catchCheckError_plain env e w :
  isAuthFailure e = false ->
  catchCheckError env e w
  = (Throw e, setConsole (console w ++ ["Error checking for new referrals:"]) w).
Proof.
  intro H. unfold catchCheckError, bind, consoleError, modify, throw.
  destruct e as [| | | | |[status|]| | | | |]; try reflexivity.
  simpl in H. rewrite H. reflexivity.
Qed.

(** The [catch] clause on an answer with status 401 or 403 when the browser
    refuses to close. *)
Lemma catchCheckError_close_fails env status w b :
  status = 401%Z \/ status = 403%Z -> browser w = Some b -> closeOk env = false ->
  catchCheckError env (ErrAxios (Some status)) w
  = (Throw ErrClose,
     setTrace (trace w ++ [EvBrowserClose])
       (setConsole (console w ++ ["Error checking for new referrals:"]) w)).
Proof.
  intros Hst Hb Hc.
  cbv [catchCheckError bind consoleError modify closeBrowser get emit throw ret].
  replace ((status =? 401)%Z || (status =? 403)%Z) with true
    by (destruct Hst as [-> | ->]; reflexivity).
  cbn [browser setConsole]. rewrite Hb, Hc. reflexivity.
Qed.

Section More.

Variable parseDate : string -> option Z.
Variable toISOString : Z -> string.

Lemma saveMember_tidy env m : keeps tidy (saveMember toISOString env m).
Proof. unfold saveMember. keeps_tidy. Qed.

Hint Resolve saveMember_tidy : keeps.

Lemma extractMemberInformation_tidy env :
  keeps tidy (extractMemberInformation toISOString env).
Proof.
  unfold extractMemberInformation, sendMemberInformationEmail, saveMembersToDatabase.
  keeps_tidy.
Qed.

(** With a session in the module variables, the login goes to the portal
    at once. *)
Lemma loginToAvaility_with_session env w b p :
  browser w = Some b -> page w = Some p ->
  loginToAvaility toISOString env w
  = tryCatch
      (bind (if portalLogin env then ret tt else throw ErrPortalLogin)
            (fun _ => bind (extractMemberInformation toISOString env) (fun _ => ret true)))
      (fun error => bind (consoleError "Error during login attempt:") (fun _ => throw error))
      (setTrace (trace w ++ [EvPortalLogin]) w).
Proof.
  intros Hb Hp. unfold loginToAvaility, tryCatch. unfold bind at 1. unfold get at 1.
  cbv iota beta. rewrite Hb, Hp. cbn [isNull orb]. unfold bind at 1. unfold ret at 1.
  cbv iota beta. unfold bind at 1. unfold get at 1. cbv iota beta. rewrite Hp.
  unfold bind at 1. unfold emit at 1, modify at 1. cbv iota beta. reflexivity.
Qed.

(** With a session in the module variables and a portal that lets the
    worker through, the login returns [true] without touching the session. *)
Lemma loginToAvaility_reuses env w b p :
  browser w = Some b -> page w = Some p -> portalLogin env = true ->
  exists pageEvs,
    outcome (loginToAvaility toISOString env) w = Ok true
    /\ since w (run (loginToAvaility toISOString env) w) = EvPortalLogin :: pageEvs
    /\ browserEvents pageEvs = 0%nat
    /\ sameSession w (run (loginToAvaility toISOString env) w).
Proof.
  intros Hb Hp Hl.
  assert (E : exists w1 evs,
             loginToAvaility toISOString env w = (Ok true, w1)
             /\ trace w1 = (trace w ++ [EvPortalLogin]) ++ evs
             /\ browserEvents evs = 0%nat /\ sameSession w w1).
  { rewrite (loginToAvaility_with_session env w b p Hb Hp). rewrite Hl.
    unfold tryCatch. unfold bind at 1. unfold ret at 1. cbv iota beta. unfold bind at 1.
    destruct (extractMemberInformation_returns toISOString env
                (setTrace (trace w ++ [EvPortalLogin]) w)) as (ms & Hok).
    destruct (extractMemberInformation_tidy env (setTrace (trace w ++ [EvPortalLogin]) w))
      as (evs & Ht & Hq).
    pose proof (extractMemberInformation_sameSession toISOString env
                  (setTrace (trace w ++ [EvPortalLogin]) w)) as HS.
    unfold outcome, run in *.
    destruct (extractMemberInformation toISOString env
                (setTrace (trace w ++ [EvPortalLogin]) w)) as [r w1].
    simpl in *. subst r. exists w1, evs. repeat split; try assumption; apply HS. }
  destruct E as (w1 & evs & E & Ht & Hq & HS). unfold outcome, run. rewrite E.
  exists evs. split; [reflexivity|]. split; [|split; [exact Hq | exact HS]].
  apply since_app. simpl. rewrite Ht, <- app_assoc. reflexivity.
Qed.


(** X8. When the referral API answers 401 or 403 and the browser then
    refuses to close, the assignments that clear the session are never
    reached: the cycle ends in the error of the close, not in the error of
    the request, and the module still holds the browser and the page, so the
    next cycle launches nothing and goes on with the refused session. *)
Theorem close_failure_keeps_the_session env next w status body :
  setup env = SetupOk -> portalLogin env = true -> closeOk env = false ->
  post env (cookieString (jar env)) (extractXsrfToken (cookieString (jar env)))
  = Response status body ->
  status = 401%Z \/ status = 403%Z ->
  let w' := run (checkForNewReferrals parseDate toISOString env) w in
  outcome (checkForNewReferrals parseDate toISOString env) w = Throw ErrClose
  /\ browser w' <> None /\ page w' <> None
  /\ lastCheckTime w' = lastCheckTime w
  /\ (portalLogin next = true ->
      exists pageEvs,
        since w' (run (loginToAvaility toISOString next) w') = EvPortalLogin :: pageEvs
        /\ browserEvents pageEvs = 0%nat).
Proof.
  intros Hs Hl Hc Hpost Hst w'.
  destruct (cycle_head parseDate toISOString env w Hs Hl)
    as (w0 & pageEvs & _ & HC & _ & _ & _ & Hb & Hp & E).
  cbv zeta in E. rewrite Hpost in E.
  replace ((200 <=? status)%Z && (status <? 300)%Z) with false in E
    by (destruct Hst as [-> | ->]; reflexivity).
  destruct (browser w0) as [b|] eqn:Hb0; [|congruence].
  destruct (page w0) as [p|] eqn:Hp0; [|congruence].
  rewrite (catchCheckError_close_fails env status
             (setTrace (trace w0
                        ++ [EvCookies;
                            EvPost (cookieString (jar env))
                                   (extractXsrfToken (cookieString (jar env)))]) w0)
             b Hst Hb0 Hc) in E.
  assert (Hb' : browser w' = Some b) by (subst w'; unfold run; rewrite E; exact Hb0).
  assert (Hp' : page w' = Some p) by (subst w'; unfold run; rewrite E; exact Hp0).
  split; [unfold outcome; now rewrite E|].
  split; [congruence|]. split; [congruence|].
  split; [subst w'; unfold run; rewrite E; simpl; apply HC|].
  intro Hnext.
  destruct (loginToAvaility_reuses next w' b p Hb' Hp' Hnext) as (evs & _ & Hsince & Hq & _).
  exists evs. auto.
Qed.

(** X9. When the request to the referral API fails in any way other than an
    answer with status 401 or 403 (another status outside 200..299, no answer
    at all, or an answer without a list of referrals), the cycle logs the
    error and throws it on; the browser is not closed, and the session, the
    store and the watermark are as the login left them. *)
Theorem other_fetch_failures_keep_the_session env w e :
  setup env = SetupOk -> portalLogin env = true ->
  fetchError (post env (cookieString (jar env)) (extractXsrfToken (cookieString (jar env))))
  = Some e ->
  isAuthFailure e = false ->
  let w0 := run (loginToAvaility toISOString env) w in
  let w' := run (checkForNewReferrals parseDate toISOString env) w in
  outcome (checkForNewReferrals parseDate toISOString env) w = Throw e
  /\ since w0 w' = [EvCookies;
                    EvPost (cookieString (jar env))
                           (extractXsrfToken (cookieString (jar env)))]
  /\ sameSession w0 w' /\ sameData w0 w'
  /\ lastCheckTime w' = lastCheckTime w
  /\ console w' = console w0 ++ ["Error checking for new referrals:"].
Proof.
  intros Hs Hl Hfetch Hauth w0 w'.
  destruct (cycle_head parseDate toISOString env w Hs Hl)
    as (w0' & pageEvs & Hlogin & HC & _ & _ & _ & _ & _ & E).
  assert (Hw0 : w0 = w0') by (subst w0; unfold run; now rewrite Hlogin).
  subst w0'. cbv zeta in E.
  assert (E' : checkForNewReferrals parseDate toISOString env w
               = catchCheckError env e
                   (setTrace (trace w0
                              ++ [EvCookies;
                                  EvPost (cookieString (jar env))
                                         (extractXsrfToken (cookieString (jar env)))]) w0)).
  { rewrite E. unfold fetchError in Hfetch.
    destruct (post env (cookieString (jar env)) (extractXsrfToken (cookieString (jar env))))
      as [status body|].
    - destruct ((200 <=? status)%Z && (status <? 300)%Z).
      + destruct body; [discriminate|]. injection Hfetch as <-. reflexivity.
      + injection Hfetch as <-. reflexivity.
    - injection Hfetch as <-. reflexivity. }
  rewrite (catchCheckError_plain env e _ Hauth) in E'.
  subst w'. unfold outcome, run. rewrite E'. simpl.
  split; [reflexivity|]. split; [apply since_app; reflexivity|].
  split; [unfold sameSession; simpl; auto|]. split; [unfold sameData; simpl; auto|].
  split; [apply HC | reflexivity].
Qed.

(** X10. When the cookie string holds the text [XSRF-TOKEN=] nowhere, the
    cycle still makes its request to the referral API, with an empty
    X-XSRF-TOKEN header. *)
Theorem request_goes_out_with_an_empty_token env w :
  setup env = SetupOk -> portalLogin env = true ->
  Js.includes Js.xsrfName (cookieString (jar env)) = false ->
  In (EvPost (cookieString (jar env)) "")
     (since w (run (checkForNewReferrals parseDate toISOString env) w))
  /\ posts (since w (run (checkForNewReferrals parseDate toISOString env) w)) = 1%nat.
Proof.
  intros Hs Hl Habsent.
  destruct (cycle_head parseDate toISOString env w Hs Hl)
    as (w0 & pageEvs & _ & _ & Ht0 & _ & Hn0 & _ & _ & E).
  cbv zeta in E.
  assert (Hempty : extractXsrfToken (cookieString (jar env)) = "")
    by (unfold extractXsrfToken; now rewrite (matchXsrf_absent _ Habsent)).
  rewrite Hempty in *.
  set (w1 := setTrace (trace w0 ++ [EvCookies; EvPost (cookieString (jar env)) ""]) w0) in *.
  assert (Hrest : offline w1 (run (checkForNewReferrals parseDate toISOString env) w)).
  { unfold run. rewrite E.
    destruct (post env (cookieString (jar env)) "") as [status body|];
      [|apply catchCheckError_offline].
    destruct ((200 <=? status)%Z && (status <? 300)%Z); [|apply catchCheckError_offline].
    destruct body as [response|]; [|apply catchCheckError_offline].
    pose proof (keeps_forOf offline offline_refl offline_trans
                  (filter (isNew parseDate (lastCheckTime w)) response) (processReferral env)
                  (processReferral_offline env) w1) as L.
    unfold run in L.
    destruct (forOf _ (processReferral env) w1) as [[u|e] w2]; simpl in L.
    - exact L.
    - eapply offline_trans; [exact L | apply catchCheckError_offline]. }
  destruct Hrest as (rest & Ht & Hn).
  assert (Hsince : since w (run (checkForNewReferrals parseDate toISOString env) w)
                   = opening w ++ [EvPortalLogin] ++ pageEvs
                     ++ [EvCookies; EvPost (cookieString (jar env)) ""] ++ rest).
  { apply since_app. rewrite Ht. subst w1. simpl. rewrite Ht0.
    repeat rewrite <- app_assoc. reflexivity. }
  rewrite Hsince. split.
  - apply in_or_app. right. apply in_or_app. right. apply in_or_app. right.
    simpl. right. left. reflexivity.
  - rewrite !posts_app, posts_opening, Hn0, Hn. reflexivity.
Qed.







Hint Resolve loginToAvaility_extends loginToAvaility_offline loginToAvaility_silent
  loginToAvaility_sameClock extractMemberInformation_extends saveMember_extends
  saveMember_sameClock saveMember_sameSession saveMember_silent saveMember_offline : keeps.

(** A browser that launches and opens its page: [setupBot] assigns both
    module variables, whatever they held. *)
Lemma setupBot_ok env w :
  setup env = SetupOk ->
  setupBot env w
  = (Ok tt,
     setPage (Some (launched w))
       (setBrowser (Some (launched w))
          (setLaunched (S (launched w))
             (setTrace (trace w ++ [EvLaunch; EvNewPage]) w)))).
Proof.
  intro Hs. unfold setupBot, tryCatch, bind, get, emit, modify. rewrite Hs. simpl.
  rewrite <- app_assoc. reflexivity.
Qed.

(** X12. A browser that is left without a page (as after a failed
    [setupBot]) is never closed: the next login launches another browser and
    assigns it to the module variable in place of the first. *)
Theorem browser_without_page_is_replaced env w b :
  browser w = Some b -> page w = None ->
  setup env = SetupOk -> portalLogin env = true ->
  let w' := run (loginToAvaility toISOString env) w in
  outcome (loginToAvaility toISOString env) w = Ok true
  /\ browser w' = Some (launched w) /\ page w' = Some (launched w)
  /\ launched w' = S (launched w)
  /\ exists pageEvs,
       since w w' = EvLaunch :: EvNewPage :: EvPortalLogin :: pageEvs
       /\ browserEvents pageEvs = 0%nat.
Proof.
  intros Hb Hp Hs Hl w'.
  set (w0 := setPage (Some (launched w))
               (setBrowser (Some (launched w))
                  (setLaunched (S (launched w))
                     (setTrace (trace w ++ [EvLaunch; EvNewPage]) w)))).
  assert (E : loginToAvaility toISOString env w
              = tryCatch
                  (bind (if portalLogin env then ret tt else throw ErrPortalLogin)
                        (fun _ => bind (extractMemberInformation toISOString env)
                                       (fun _ => ret true)))
                  (fun error => bind (consoleError "Error during login attempt:")
                                     (fun _ => throw error))
                  (setTrace (trace w0 ++ [EvPortalLogin]) w0)).
  { unfold loginToAvaility, tryCatch. unfold bind at 1. unfold get at 1.
    cbv iota beta. rewrite Hb, Hp. cbn [isNull orb]. unfold bind at 1.
    rewrite (setupBot_ok env w Hs). fold w0. cbv iota beta.
    unfold bind at 1. unfold get at 1. cbv iota beta.
    change (page w0) with (Some (launched w)). cbv iota.
    unfold bind at 1. unfold emit at 1, modify at 1. cbv iota beta. reflexivity. }
  rewrite Hl in E. unfold tryCatch in E. unfold bind at 1 in E. unfold ret at 1 in E.
  cbv iota beta in E. unfold bind at 1 in E.
  destruct (extractMemberInformation_returns toISOString env
              (setTrace (trace w0 ++ [EvPortalLogin]) w0)) as (ms & Hok).
  destruct (extractMemberInformation_tidy env (setTrace (trace w0 ++ [EvPortalLogin]) w0))
    as (evs & Ht & Hq).
  pose proof (extractMemberInformation_sameSession toISOString env
                (setTrace (trace w0 ++ [EvPortalLogin]) w0)) as (Sb & Sp & Sl).
  unfold outcome, run in Hok, Ht, Sb, Sp, Sl.
  destruct (extractMemberInformation toISOString env (setTrace (trace w0 ++ [EvPortalLogin]) w0))
    as [r w1].
  simpl in Hok, Ht, Sb, Sp, Sl. subst r. unfold ret in E.
  subst w'. unfold outcome, run. rewrite E. simpl.
  split; [reflexivity|]. split; [exact Sb|]. split; [exact Sp|]. split; [exact Sl|].
  exists evs. split; [|exact Hq].
  apply since_app. rewrite Ht. repeat rewrite <- app_assoc. reflexivity.
Qed.

(** X13. The handler of [POST /start-bot] always launches a browser, also
    when the module already holds a session, which it then drops without
    closing it.  The handler never throws; it answers 200 when the browser
    starts and the portal lets the worker through, and 500 otherwise. *)
Theorem start_bot_always_launches env w :
  (exists rest, since w (run (startBot toISOString env) w) = EvLaunch :: rest)
  /\ (exists status, outcome (startBot toISOString env) w = Ok status
                     /\ (status = 200%Z \/ status = 500%Z))
  /\ (setup env = SetupOk -> portalLogin env = true ->
      outcome (startBot toISOString env) w = Ok 200%Z
      /\ browser (run (startBot toISOString env) w) = Some (launched w)
      /\ exists pageEvs,
           since w (run (startBot toISOString env) w)
           = EvLaunch :: EvNewPage :: EvPortalLogin :: pageEvs
           /\ browserEvents pageEvs = 0%nat)
  /\ (setup env <> SetupOk \/ portalLogin env = false ->
      outcome (startBot toISOString env) w = Ok 500%Z).
Proof.
  assert (Hfirst : exists rest, trace (run (setupBot env) w) = trace w ++ EvLaunch :: rest).
  { unfold run, setupBot, tryCatch, bind, get, emit, modify, consoleError, throw, ret.
    destruct (setup env); simpl; eexists; rewrite <- ?app_assoc; reflexivity. }
  assert (Hstatus : exists status, outcome (startBot toISOString env) w = Ok status
                                   /\ (status = 200%Z \/ status = 500%Z)).
  { unfold outcome, startBot, tryCatch. unfold bind at 1.
    destruct (setupBot env w) as [[u|e] w0]; [|eexists; split; [reflexivity | now right]].
    unfold bind at 1.
    destruct (loginToAvaility toISOString env w0) as [[[|]|e] w1];
      eexists; (split; [reflexivity | auto]). }
  split; [|split; [exact Hstatus|split]].
  - destruct Hfirst as (rest1 & H1).
    assert (Hext : extends (run (setupBot env) w) (run (startBot toISOString env) w)).
    { unfold startBot. apply run_tryCatch_bind; intro; keeps_trace. }
    destruct Hext as (rest2 & H2). exists (rest1 ++ rest2). apply since_app.
    rewrite H2, H1, <- app_assoc. reflexivity.
  - intros Hs Hl.
    set (w0 := setPage (Some (launched w))
                 (setBrowser (Some (launched w))
                    (setLaunched (S (launched w))
                       (setTrace (trace w ++ [EvLaunch; EvNewPage]) w)))).
    destruct (loginToAvaility_reuses env w0 (launched w) (launched w) eq_refl eq_refl Hl)
      as (evs & Hok & Hsince & Hq & (Sb & _ & _)).
    assert (E : startBot toISOString env w
                = (Ok 200%Z, run (loginToAvaility toISOString env) w0)).
    { unfold startBot, tryCatch. unfold bind at 1. rewrite (setupBot_ok env w Hs). fold w0.
      unfold bind at 1. unfold outcome, run in *.
      destruct (loginToAvaility toISOString env w0) as [r w1]. simpl in Hok. subst r.
      reflexivity. }
    unfold outcome, run at 1 2. rewrite E. simpl fst. simpl snd.
    split; [reflexivity|]. split; [exact Sb|]. exists evs. split; [|exact Hq].
    apply since_app.
    assert (Ht : trace (run (loginToAvaility toISOString env) w0)
                 = trace w0 ++ EvPortalLogin :: evs).
    { unfold since in Hsince.
      destruct (loginToAvaility_extends toISOString env w0) as (rest & Hrest).
      rewrite Hrest in Hsince. rewrite skipn_app, skipn_all, Nat.sub_diag in Hsince.
      simpl in Hsince. rewrite Hrest, Hsince. reflexivity. }
    rewrite Ht. subst w0. simpl. rewrite <- app_assoc. reflexivity.
  - intros Hfail. unfold outcome, startBot, tryCatch. unfold bind at 1.
    destruct (setup env) eqn:Hs.
    + destruct Hfail as [Hfail | Hfail]; [congruence|].
      rewrite (setupBot_ok env w Hs).
      set (w0 := setPage (Some (launched w))
                   (setBrowser (Some (launched w))
                      (setLaunched (S (launched w))
                         (setTrace (trace w ++ [EvLaunch; EvNewPage]) w)))).
      unfold bind at 1.
      rewrite (loginToAvaility_with_session env w0 (launched w) (launched w) eq_refl eq_refl).
      rewrite Hfail. reflexivity.
    + unfold setupBot, tryCatch, bind, get, emit, modify, consoleError, throw. rewrite Hs.
      reflexivity.
    + unfold setupBot, tryCatch, bind, get, emit, modify, consoleError, throw. rewrite Hs.
      reflexivity.
    + unfold setupBot, tryCatch, bind, get, emit, modify, consoleError, throw. rewrite Hs.
      reflexivity.
Qed.

(* ===================================================================== *)
(** * More of the rows of the page *)
(* ===================================================================== *)

Lemma memberMessage_nonempty member : memberMessage member <> "".
Proof. unfold memberMessage. simpl. discriminate. Qed.

(** X14. The rows of the page are stored whether or not their mail went out:
    when the transport rejects the mail, the error is logged by [sendEmail]
    and by [sendMemberInformationEmail] and goes no further, and
    [extractMemberInformation] goes on to store the rows and returns them. *)
Theorem rows_are_stored_when_their_mail_fails env w rows :
  scraped env = Some rows -> rows <> [] ->
  emailRecipients (processEnv env) <> [] ->
  smtpOk env (Js.join "," (emailRecipients (processEnv env))) memberEmailSubject
         (memberEmailContent rows) = false ->
  let mailed :=
    setConsole (console w ++ ["Error sending email notification:";
                              "Error sending member information email:"])
      (setTrace (trace w ++ emailDispatch env memberEmailSubject (memberEmailContent rows)) w) in
  extractMemberInformation toISOString env w
  = (Ok rows, run (saveMembersToDatabase toISOString env rows) mailed).
Proof.
  intros Hrows Hne Hrec Hko mailed.
  unfold extractMemberInformation, tryCatch. rewrite Hrows. unfold bind at 1.
  replace (0 <? List.length rows)%nat with true
    by (destruct rows; [congruence | reflexivity]).
  assert (Hmail : sendMemberInformationEmail env rows w = (Ok tt, mailed)).
  { unfold sendMemberInformationEmail, tryCatch.
    rewrite (sendEmail_fails env _ _ w Hrec Hko). unfold consoleError, modify. simpl.
    subst mailed. rewrite <- app_assoc. reflexivity. }
  rewrite Hmail. unfold bind at 1.
  pose proof (saveMembersToDatabase_returns toISOString env rows mailed) as Hok.
  unfold outcome, run in *.
  destruct (saveMembersToDatabase toISOString env rows mailed) as [r w1]. simpl in Hok.
  subst r. reflexivity.
Qed.

(** X15. When the SMS transport rejects the message for a row that has just
    been stored, [saveMembersToDatabase] stops: the row and its notification
    stay stored, the rows after it are not looked up in this pass, and the
    error is logged by [sendSMS] and by [saveMembersToDatabase] and goes no
    further. *)
Theorem rejected_sms_stops_the_rows_quietly env w member rest number others :
  find (matches (ByMemberName (Member.memberID member) (Member.memberName member)))
       (referrals w) = None ->
  Member.memberName member <> "" -> Member.memberID member <> "" ->
  Js.falsy (TWILIO_SID (processEnv env)) = false ->
  Js.falsy (TWILIO_AUTH_TOKEN (processEnv env)) = false ->
  Js.falsy (TWILIO_PHONE_NUMBER (processEnv env)) = false ->
  toNumbers (processEnv env) = number :: others ->
  twilioOk env (Js.trim number) (memberSms member) = false ->
  let d := docOfMember toISOString env member (nextId w) in
  let n := {| Note._id := S (nextId w); Note.referralId := nextId w;
              Note.memberName := Member.memberName member;
              Note.memberID := Member.memberID member;
              Note.message := memberMessage member; Note.isRead := false |} in
  let w' := run (saveMembersToDatabase toISOString env (member :: rest)) w in
  outcome (saveMembersToDatabase toISOString env (member :: rest)) w = Ok tt
  /\ referrals w' = referrals w ++ [d]
  /\ notifications w' = notifications w ++ [n]
  /\ since w w'
     = [EvFindOne (ByMemberName (Member.memberID member) (Member.memberName member));
        EvCreateReferral d; EvCreateNotification n;
        EvTwilioCreate (memberSms member)
                       (Js.orElse (TWILIO_PHONE_NUMBER (processEnv env)) "")
                       (Js.trim number)]
  /\ console w' = console w ++ ["Error sending SMS notification:";
                                "Error saving members to database:"].
Proof.
  intros Hfind Hname Hid H1 H2 H3 Hto Hko d n w'.
  assert (E : saveMember toISOString env member w
              = (Throw ErrTwilio,
                 setConsole (console w ++ ["Error sending SMS notification:"])
                   (setTrace
                      (trace w
                       ++ [EvFindOne (ByMemberName (Member.memberID member)
                                                   (Member.memberName member));
                           EvCreateReferral d; EvCreateNotification n;
                           EvTwilioCreate (memberSms member)
                             (Js.orElse (TWILIO_PHONE_NUMBER (processEnv env)) "")
                             (Js.trim number)])
                      (setNotifications (notifications w ++ [n])
                         (setNextId (S (S (nextId w)))
                            (setReferrals (referrals w ++ [d]) w)))))).
  { unfold saveMember. unfold bind at 1. rewrite findOne_eq. cbn [referrals setTrace].
    rewrite Hfind. cbv iota beta. unfold bind at 1. rewrite createReferral_eq. cbv iota beta.
    unfold bind at 1.
    rewrite createNotification_eq by (auto using memberMessage_nonempty).
    cbv iota beta. unfold sendSMS, tryCatch. cbv zeta. rewrite H1, H2, H3. cbn [orb].
    rewrite Hto. cbn [List.length Nat.eqb].
    rewrite (twilio_loop_fails env (memberSms member) _ [] number others _
               (fun m (H : In m []) => match H with end) Hko).
    unfold consoleError, bind, modify, throw. simpl. repeat rewrite <- app_assoc. reflexivity. }
  subst w'. unfold outcome, run, saveMembersToDatabase, tryCatch. simpl forOf.
  unfold bind at 1 2 3 4 5. rewrite E. unfold consoleError, modify. simpl.
  repeat split; try reflexivity.
  - apply since_app. reflexivity.
  - rewrite <- app_assoc. reflexivity.
Qed.

Lemma nameBound_refl w : nameBound w w.
Proof. intros i n. lia. Qed.

Lemma nameBound_trans w1 w2 w3 : nameBound w1 w2 -> nameBound w2 w3 -> nameBound w1 w3.
Proof. intros H1 H2 i n. specialize (H1 i n). specialize (H2 i n). lia. Qed.

Lemma sameReferrals_nameBound w w' : sameReferrals w w' -> nameBound w w'.
Proof. unfold sameReferrals. intros H i n. rewrite H. lia. Qed.

Lemma sameData_nameBound w w' : sameData w w' -> nameBound w w'.
Proof. intros (_ & H & _) i n. rewrite H. lia. Qed.

Lemma countBy_app q l l' : countBy q (l ++ l') = (countBy q l + countBy q l')%nat.
Proof. unfold countBy. now rewrite filter_app, length_app. Qed.

Lemma saveMember_nameBound env member : keeps nameBound (saveMember toISOString env member).
Proof.
  intros w i n.
  remember (Nat.max 1 (countBy (ByMemberName i n) (referrals w))) as bound eqn:Hb.
  unfold saveMember. rewrite run_bind, findOne_eq. cbn [referrals setTrace].
  destruct (find _ (referrals w)) eqn:Hfind.
  - cbn [run snd ret referrals setTrace]. lia.
  - rewrite run_bind, createReferral_eq.
    match goal with
    | |- context [run ?m ?w1] =>
        assert (Hk : keeps sameReferrals m) by keeps_referrals; pose proof (Hk w1) as Hr
    end.
    unfold sameReferrals in Hr. rewrite Hr.
    cbn [referrals nextId trace setReferrals setNextId setTrace].
    rewrite countBy_app. apply countKey_absent in Hfind.
    unfold countBy at 2. cbn [filter].
    destruct (matches (ByMemberName i n) (docOfMember toISOString env member (nextId w)))
      eqn:Hm; cbn [List.length]; [|lia].
    apply matches_ByMemberName in Hm. destruct Hm as (Hi & Hn).
    cbn [docOfMember Doc.memberID Doc.memberName] in Hi, Hn. subst i n.
    unfold countBy in *. rewrite Hfind in *. lia.
Qed.

Lemma login_nameBound env : keeps nameBound (loginToAvaility toISOString env).
Proof.
  assert (Hweak : forall A (m : M A), keeps sameData m -> keeps nameBound m)
    by (intros A m; apply keeps_weaken; exact sameData_nameBound).
  pose proof (saveMember_nameBound env) as Hsave.
  assert (Hmail : forall s t, keeps nameBound (sendEmail env s t))
    by (intros s t; apply Hweak; auto with keeps).
  assert (Hsetup : keeps nameBound (setupBot env)) by (apply Hweak; auto with keeps).
  unfold loginToAvaility, extractMemberInformation, sendMemberInformationEmail,
    saveMembersToDatabase.
  keeps_with nameBound_refl nameBound_trans;
    try (apply Hsave);
    try (apply sameData_nameBound; unfold sameData; simpl; repeat split; reflexivity).
Qed.

(** X16. The login, which stores the rows of the page, never stores a second
    document for a pair of memberID and memberName that is stored: no such
    pair is stored more often after a login than before it, at least once
    apart. *)
Theorem login_stores_a_member_name_once env w i n :
  (countBy (ByMemberName i n) (referrals (run (loginToAvaility toISOString env) w))
   <= Nat.max 1 (countBy (ByMemberName i n) (referrals w)))%nat.
Proof. exact (login_nameBound env w i n). Qed.
Lemma marked_refl id w : marked id w w.
Proof. split; [lia | now left]. Qed.

Lemma marked_trans id w1 w2 w3 : marked id w1 w2 -> marked id w2 w3 -> marked id w1 w3.
Proof.
  intros (Hn1 & H1) (Hn2 & H2). split; [lia|].
  destruct H1 as [H1|H1], H2 as [H2|H2]; rewrite H2, H1; auto.
  right. rewrite map_map. apply map_ext. intro x. apply markNotified_twice.
Qed.

Lemma sameData_marked id w w' : sameData w w' -> marked id w w'.
Proof. intros (_ & Hr & _ & Hn). split; [lia | now left]. Qed.

Lemma grown_refl w : grown w w.
Proof.
  intro H. repeat split; [exact H | lia |]. exists []. now rewrite app_nil_r.
Qed.

Lemma grown_trans w1 w2 w3 : grown w1 w2 -> grown w2 w3 -> grown w1 w3.
Proof.
  intros H1 H2 Hw. destruct (H1 Hw) as (Hw2 & Hn1 & a1 & E1).
  destruct (H2 Hw2) as (Hw3 & Hn2 & a2 & E2).
  repeat split; [exact Hw3 | lia |]. exists (a1 ++ a2). now rewrite E2, E1, app_assoc.
Qed.

Lemma sameData_grown w w' : sameData w w' -> grown w w'.
Proof.
  intros (_ & Hr & _ & Hn) Hw. unfold wellFormed in *. rewrite Hr, Hn.
  repeat split; [exact Hw | lia |]. exists []. now rewrite app_nil_r.
Qed.

Lemma rest_of_candidate_marked env r d :
  keeps (marked (Doc._id d))
    (_ <- createNotification (Doc._id d) (Api.memberName r) (Api.memberID r)
            (notificationMessage r) ;;
     sendEmail env emailSubject (emailText r) ;;
     sendSMS env (smsText r) ;;
     saveNotified d).
Proof.
  assert (Hweak : forall A (m : M A), keeps sameData m -> keeps (marked (Doc._id d)) m)
    by (intros A m; apply keeps_weaken; exact (sameData_marked _)).
  assert (Hmail : forall s t, keeps (marked (Doc._id d)) (sendEmail env s t))
    by (intros s t; apply Hweak; auto with keeps).
  assert (Hsms : forall s, keeps (marked (Doc._id d)) (sendSMS env s))
    by (intros s; apply Hweak; auto with keeps).
  unfold createNotification, saveNotified.
  keeps_with (marked_refl (Doc._id d)) (marked_trans (Doc._id d));
    (split; [cbn; lia | cbn; auto]).
Qed.

Lemma wellFormed_snoc w w' d :
  wellFormed w ->
  (nextId w < nextId w')%nat ->
  Doc._id d = nextId w ->
  referrals w' = referrals w ++ [d] ->
  wellFormed w'.
Proof.
  unfold wellFormed. intros Hw Hn Hd Hr. rewrite Hr. apply Forall_app. split.
  - eapply Forall_impl; [|exact Hw]. cbv beta. intros; lia.
  - constructor; [lia | constructor].
Qed.

Lemma marked_after_create w w1 w2 d :
  wellFormed w ->
  Doc._id d = nextId w ->
  referrals w1 = referrals w ++ [d] ->
  nextId w1 = S (nextId w) ->
  marked (nextId w) w1 w2 ->
  wellFormed w2 /\ (nextId w <= nextId w2)%nat
  /\ exists added, referrals w2 = referrals w ++ added.
Proof.
  intros Hw Hd Hr1 Hn1 (Hn & Hr).
  assert (Hsame : exists d', Doc._id d' = nextId w /\ referrals w2 = referrals w ++ [d']).
  { destruct Hr as [Hr|Hr]; rewrite Hr, Hr1.
    - now exists d.
    - rewrite map_app, (markNotified_older _ _ Hw). cbn [map].
      eexists; split; [|reflexivity]. now rewrite markNotified_id. }
  destruct Hsame as (d' & Hd' & Hr').
  repeat split; [| lia | now exists [d']].
  apply (wellFormed_snoc w w2 d'); auto; lia.
Qed.

Lemma processReferral_grown env r : keeps grown (processReferral env r).
Proof.
  intros w Hw. unfold processReferral. rewrite run_bind, findOne_eq.
  destruct (find _ (referrals w)) eqn:Hfind.
  - cbn [run snd ret]. repeat split; [exact Hw | cbn; lia |].
    exists []. cbn. now rewrite app_nil_r.
  - rewrite run_bind, createReferral_eq.
    pose proof (rest_of_candidate_marked env r (docOfReferral r (nextId w))) as Hk.
    match goal with
    | |- context [run ?m ?w1] =>
        pose proof (Hk w1 : marked (nextId w) w1 (run m w1)) as Hk';
        remember (run m w1) as w2 eqn:Hw2 in *
    end.
    clear Hw2 Hk.
    eapply (marked_after_create w _ w2 (docOfReferral r (nextId w)) Hw); [| | |exact Hk'];
      reflexivity.
Qed.

Lemma rest_of_row_marked env member d :
  keeps (marked (Doc._id d))
    (_ <- createNotification (Doc._id d) (Member.memberName member)
            (Member.memberID member) (memberMessage member) ;;
     sendSMS env (memberSms member)).
Proof.
  assert (Hsms : forall s, keeps (marked (Doc._id d)) (sendSMS env s)).
  { intros s. apply (keeps_weaken sameData); [exact (sameData_marked _) | auto with keeps]. }
  unfold createNotification.
  keeps_with (marked_refl (Doc._id d)) (marked_trans (Doc._id d));
    (split; [cbn; lia | cbn; auto]).
Qed.

Lemma saveMember_grown env member : keeps grown (saveMember toISOString env member).
Proof.
  intros w Hw. unfold saveMember. rewrite run_bind, findOne_eq.
  destruct (find _ (referrals w)) eqn:Hfind.
  - cbn [run snd ret]. repeat split; [exact Hw | cbn; lia |].
    exists []. cbn. now rewrite app_nil_r.
  - rewrite run_bind, createReferral_eq.
    pose proof (rest_of_row_marked env member
                  (docOfMember toISOString env member (nextId w))) as Hk.
    match goal with
    | |- context [run ?m ?w1] =>
        pose proof (Hk w1 : marked (nextId w) w1 (run m w1)) as Hk';
        remember (run m w1) as w2 eqn:Hw2 in *
    end.
    clear Hw2 Hk.
    eapply (marked_after_create w _ w2 (docOfMember toISOString env member (nextId w)) Hw);
      [| | |exact Hk']; reflexivity.
Qed.

Ltac grown_leaf :=
  let H := fresh in
  intro H; unfold wellFormed in *; cbn;
  repeat split; [exact H | lia | exists []; now rewrite app_nil_r].

Lemma login_grown env : keeps grown (loginToAvaility toISOString env).
Proof.
  pose proof (saveMember_grown env) as Hsave.
  assert (Hmail : forall s t, keeps grown (sendEmail env s t)).
  { intros s t. apply (keeps_weaken sameData); [exact sameData_grown | auto with keeps]. }
  assert (Hsetup : keeps grown (setupBot env)).
  { apply (keeps_weaken sameData); [exact sameData_grown | auto with keeps]. }
  unfold loginToAvaility, extractMemberInformation, sendMemberInformationEmail,
    saveMembersToDatabase.
  keeps_with grown_refl grown_trans; try (apply Hsave); try grown_leaf.
Qed.

Lemma check_grown env : keeps grown (checkForNewReferrals parseDate toISOString env).
Proof.
  pose proof (login_grown env) as Hlogin.
  pose proof (processReferral_grown env) as Hloop.
  assert (Hweak : forall A (m : M A), keeps sameData m -> keeps grown m)
    by (intros A m; apply keeps_weaken; exact sameData_grown).
  assert (Hcookies : keeps grown (getSessionCookies env)) by (apply Hweak; auto with keeps).
  assert (Hpost : forall c x, keeps grown (axiosPost env c x))
    by (intros c x; apply Hweak; auto with keeps).
  assert (Hclose : keeps grown (closeBrowser env)) by (apply Hweak; auto with keeps).
  unfold checkForNewReferrals, catchCheckError.
  keeps_with grown_refl grown_trans; try (apply Hloop); try grown_leaf.
Qed.

(** X17. A polling cycle only appends to the store of referrals.  Over a
    store in which every [_id] was handed out before, the documents that were
    there before the cycle are all there after it, in their order and field
    by field as they were, whatever the cycle met on its way; the only
    document a cycle marks as notified is one it has created itself.  So a
    document that a cycle left with [isNotified] false is never marked by a
    later one. *)
Theorem cycle_only_appends_to_the_store env w :
  wellFormed w ->
  wellFormed (run (checkForNewReferrals parseDate toISOString env) w)
  /\ exists added,
       referrals (run (checkForNewReferrals parseDate toISOString env) w)
       = referrals w ++ added.
Proof.
  intro Hw. destruct (check_grown env w Hw) as (Hw' & _ & Hadded). now split.
Qed.

(* ===================================================================== *)
(** * The natural key over the rows of the page and the answers of the API *)
(* ===================================================================== *)

Lemma guarded_refl shown w : guarded shown w w.
Proof. intro H. split; [exact H | apply keyBound_refl]. Qed.

Lemma guarded_trans shown w1 w2 w3 :
  guarded shown w1 w2 -> guarded shown w2 w3 -> guarded shown w1 w3.
Proof.
  intros H1 H2 H. destruct (H1 H) as (N2 & K1). destruct (H2 N2) as (N3 & K2).
  split; [exact N3 | eapply keyBound_trans; eauto].
Qed.

Lemma sameData_guarded shown w w' : sameData w w' -> guarded shown w w'.
Proof.
  intros D H. split; [|now apply sameData_keyBound].
  destruct D as (_ & -> & _). exact H.
Qed.

Lemma oneName_markNotified shown id d : oneName shown d -> oneName shown (markNotified id d).
Proof. unfold markNotified. destruct (Doc._id d =? id)%nat; auto. Qed.

Lemma marked_oneName shown id w w' :
  marked id w w' -> Forall (oneName shown) (referrals w) ->
  Forall (oneName shown) (referrals w').
Proof.
  intros (_ & [-> | ->]) H; [exact H|].
  apply Forall_map. eapply Forall_impl; [|exact H].
  intros d Hd. now apply oneName_markNotified.
Qed.

Lemma marked_sameKeys id w w' : marked id w w' -> sameKeys w w'.
Proof.
  unfold sameKeys. intros (_ & [-> | ->]); [reflexivity|].
  rewrite map_map. apply map_ext. intro d. unfold markNotified.
  destruct (Doc._id d =? id)%nat; reflexivity.
Qed.

Lemma keeps_forOf_Forall {A} (R : World -> World -> Prop) (P : A -> Prop)
      (l : list A) (body : A -> M unit) :
  (forall w, R w w) -> (forall w1 w2 w3, R w1 w2 -> R w2 w3 -> R w1 w3) ->
  Forall P l -> (forall x, P x -> keeps R (body x)) -> keeps R (forOf l body).
Proof.
  intros Hrefl Htrans Hl Hbody. induction Hl as [|x l Hx _ IH]; cbn [forOf].
  - now apply keeps_ret.
  - apply (keeps_bind _ Htrans); [now apply Hbody | intros _; exact IH].
Qed.

Lemma countKey_positive k l :
  countKey k l = 0%nat \/ exists d, In d l /\ hasKey k d = true.
Proof.
  unfold countKey. destruct (filter (hasKey k) l) as [|d rest] eqn:Hf; [now left|].
  right. exists d. apply filter_In. rewrite Hf. now left.
Qed.

(** A row is stored under a natural key only when no document has that key,
    as long as no document shows the row's referral under another name. *)
Lemma saveMember_guarded shown env member :
  In (docOfMember toISOString env member 0) shown ->
  oneName shown (docOfMember toISOString env member 0) ->
  keeps (guarded shown) (saveMember toISOString env member).
Proof.
  intros Hin Hone w Hnamed. unfold saveMember. rewrite run_bind, findOne_eq.
  destruct (find _ (referrals w)) eqn:Hfind.
  - cbn [run snd ret]. split; [exact Hnamed|].
    apply sameData_keyBound. unfold sameData. cbn. auto.
  - rewrite run_bind, createReferral_eq.
    pose proof (rest_of_row_marked env member
                  (docOfMember toISOString env member (nextId w))) as Hk.
    match goal with
    | |- context [run ?m ?w1] =>
        pose proof (Hk w1 : marked (nextId w) w1 (run m w1)) as Hk';
        remember (run m w1) as w2 eqn:Hw2 in *;
        remember w1 as w1' eqn:Hw1 in *
    end.
    clear Hw2 Hk.
    assert (Hr1 : referrals w1' = referrals w ++ [docOfMember toISOString env member (nextId w)])
      by (subst w1'; reflexivity).
    clear Hw1. split.
    + apply (marked_oneName shown _ _ _ Hk'). rewrite Hr1. apply Forall_app.
      split; [exact Hnamed|]. constructor; [exact Hone | constructor].
    + intro k. rewrite (countKey_keys k _ _ (marked_sameKeys _ _ _ Hk')), Hr1, countKey_app.
      unfold countKey at 2. cbn [filter].
      destruct (hasKey k (docOfMember toISOString env member (nextId w))) eqn:Hk;
        cbn [List.length]; [|lia].
      destruct (countKey_positive k (referrals w)) as [-> | (d0 & Hd0 & Hk0)]; [lia|].
      exfalso. apply hasKey_true in Hk. apply hasKey_true in Hk0.
      assert (Hkey : keyOf (docOfMember toISOString env member 0) = keyOf d0)
        by (rewrite <- Hk0, Hk; reflexivity).
      rewrite Forall_forall in Hnamed.
      pose proof (Hnamed d0 Hd0 _ Hin Hkey) as Hname.
      pose proof (find_none _ _ Hfind d0 Hd0) as Hno.
      assert (Hyes : matches (ByMemberName (Member.memberID member) (Member.memberName member))
                       d0 = true).
      { apply matches_ByMemberName. split; [|symmetry; exact Hname].
        unfold keyOf in Hkey. cbn [docOfMember Doc.memberID Doc.requestOn] in Hkey.
        congruence. }
      congruence.
Qed.

Lemma processReferral_guarded shown env r :
  oneName shown (docOfReferral r 0) -> keeps (guarded shown) (processReferral env r).
Proof.
  intros Hone w Hnamed. split; [|apply processReferral_keyBound].
  unfold processReferral. rewrite run_bind, findOne_eq.
  destruct (find _ (referrals w)) eqn:Hfind.
  - cbn [run snd ret]. exact Hnamed.
  - rewrite run_bind, createReferral_eq.
    pose proof (rest_of_candidate_marked env r (docOfReferral r (nextId w))) as Hk.
    match goal with
    | |- context [run ?m ?w1] =>
        pose proof (Hk w1 : marked (nextId w) w1 (run m w1)) as Hk'
    end.
    apply (marked_oneName shown _ _ _ Hk').
    cbn [referrals setReferrals]. apply Forall_app.
    split; [exact Hnamed|]. constructor; [exact Hone | constructor].
Qed.

Ltac guarded_leaf := apply sameData_guarded; unfold sameData; cbn; auto.

Lemma login_guarded shown env :
  incl (rowDocs toISOString env) shown ->
  Forall (oneName shown) (rowDocs toISOString env) ->
  keeps (guarded shown) (loginToAvaility toISOString env).
Proof.
  intros Hincl Hrows.
  assert (Hweak : forall A (m : M A), keeps sameData m -> keeps (guarded shown) m)
    by (intros A m; apply keeps_weaken; exact (sameData_guarded shown)).
  assert (Hmail : forall s t, keeps (guarded shown) (sendEmail env s t))
    by (intros s t; apply Hweak; auto with keeps).
  assert (Hsetup : keeps (guarded shown) (setupBot env)) by (apply Hweak; auto with keeps).
  assert (Hextract : keeps (guarded shown) (extractMemberInformation toISOString env)).
  { unfold extractMemberInformation. unfold rowDocs in Hincl, Hrows.
    destruct (scraped env) as [members|].
    - assert (Hsave : keeps (guarded shown) (saveMembersToDatabase toISOString env members)).
      { unfold saveMembersToDatabase.
        apply (keeps_tryCatch _ (guarded_trans shown)); [|intro; apply keeps_modify; intro; guarded_leaf].
        apply (keeps_forOf_Forall _
                 (fun member => In (docOfMember toISOString env member 0) shown
                                /\ oneName shown (docOfMember toISOString env member 0)));
          [exact (guarded_refl shown) | exact (guarded_trans shown) | |].
        - apply Forall_forall. intros member Hm. split.
          + apply Hincl. apply in_map_iff. now exists member.
          + rewrite Forall_forall in Hrows. apply Hrows. apply in_map_iff. now exists member.
        - intros member (Hin & Hone). now apply saveMember_guarded. }
      unfold sendMemberInformationEmail.
      keeps_with (guarded_refl shown) (guarded_trans shown); guarded_leaf.
    - keeps_with (guarded_refl shown) (guarded_trans shown); guarded_leaf. }
  unfold loginToAvaility.
  keeps_with (guarded_refl shown) (guarded_trans shown); guarded_leaf.
Qed.

Lemma axiosPost_answer env cookies xsrf w response w1 :
  axiosPost env cookies xsrf w = (Ok response, w1) ->
  exists status, post env cookies xsrf = Response status (Some response).
Proof.
  unfold axiosPost, bind, emit, modify.
  destruct (post env cookies xsrf) as [status [body|]|]; cbn;
    try (destruct ((200 <=? status)%Z && (status <? 300)%Z)); cbn; try discriminate.
  intro H. injection H as <- _. now exists status.
Qed.

(** [cycle_cases] with the request that the candidates are the answer to. *)
Lemma cycle_cases_answer (R : World -> World -> Prop) env w :
  (forall w1 w2 w3, R w1 w2 -> R w2 w3 -> R w1 w3) ->
  keeps R (loginToAvaility toISOString env) ->
  keeps R (getSessionCookies env) ->
  (forall cookies xsrf, keeps R (axiosPost env cookies xsrf)) ->
  (forall line, keeps R (consoleError line)) ->
  (exists e w1,
      R w w1 /\ checkForNewReferrals parseDate toISOString env w = catchCheckError env e w1)
  \/ (exists cookies xsrf status response w1,
      post env cookies xsrf = Response status (Some response)
      /\ R w w1
      /\ checkForNewReferrals parseDate toISOString env w
         = match forOf (filter (isNew parseDate (lastCheckTime w1)) response)
                       (processReferral env) w1 with
           | (Ok _, w2) => (Ok tt, setLastCheckTime (now env) w2)
           | (Throw e, w2) => catchCheckError env e w2
           end).
Proof.
  intros R_trans R_login R_cookies R_post R_console.
  pose proof (R_login w) as R0. unfold run in R0.
  destruct (loginToAvaility toISOString env w) as [[b|e] w0] eqn:Hlogin; simpl in R0.
  2:{ left. exists e, w0. split; [exact R0|].
      unfold checkForNewReferrals, tryCatch. unfold bind at 1. now rewrite Hlogin. }
  destruct b.
  2:{ left. exists ErrFailedToLogin, (setConsole (console w0 ++ ["Failed to login to Availity"]) w0).
      split; [eapply R_trans; [exact R0 | apply (R_console _ w0)]|].
      unfold checkForNewReferrals, tryCatch. unfold bind at 1. now rewrite Hlogin. }
  pose proof (R_cookies w0) as R1. unfold run in R1.
  destruct (getSessionCookies env w0) as [[cookies|e] w1] eqn:Hcookies; simpl in R1.
  2:{ left. exists e, w1. split; [eapply R_trans; eauto|].
      unfold checkForNewReferrals, tryCatch. unfold bind at 1. rewrite Hlogin.
      simpl negb. cbv iota. unfold bind at 1. unfold ret at 1. cbv iota beta.
      unfold bind at 1. now rewrite Hcookies. }
  pose proof (R_post cookies (extractXsrfToken cookies) w1) as R2. unfold run in R2.
  destruct (axiosPost env cookies (extractXsrfToken cookies) w1) as [[response|e] w2] eqn:Hpost;
    simpl in R2.
  2:{ left. exists e, w2. split; [eauto|].
      unfold checkForNewReferrals, tryCatch. unfold bind at 1. rewrite Hlogin.
      simpl negb. cbv iota. unfold bind at 1. unfold ret at 1. cbv iota beta.
      unfold bind at 1. rewrite Hcookies. cbv iota beta zeta.
      unfold bind at 1. now rewrite Hpost. }
  destruct (axiosPost_answer _ _ _ _ _ _ Hpost) as (status & Hanswer).
  right. exists cookies, (extractXsrfToken cookies), status, response, w2.
  split; [exact Hanswer|]. split; [eauto|].
  unfold checkForNewReferrals, tryCatch. unfold bind at 1. rewrite Hlogin.
  simpl negb. cbv iota. unfold bind at 1. unfold ret at 1. cbv iota beta.
  unfold bind at 1. rewrite Hcookies. cbv iota beta zeta.
  unfold bind at 1. rewrite Hpost. cbv iota beta.
  unfold bind at 1, get at 1. cbv iota beta zeta. unfold bind at 1. rewrite forOf_guard.
  match goal with
  | |- context [forOf ?l ?b ?x] => destruct (forOf l b x) as [[u|e] w3]
  end; reflexivity.
Qed.

Lemma oneName_incl shown later d : incl later shown -> oneName shown d -> oneName later d.
Proof. intros Hincl H x Hx. apply H. now apply Hincl. Qed.

(** A cycle, the rows of its page and the candidates of its answer taken
    together: the rows [shown] count up to the end of the login, the rows
    [later] from then on. *)
Lemma check_guarded shown later env w :
  incl (rowDocs toISOString env) shown ->
  incl later shown ->
  Forall (oneName shown) (rowDocs toISOString env) ->
  (forall cookies xsrf status response,
      post env cookies xsrf = Response status (Some response) ->
      Forall (fun r => oneName later (docOfReferral r 0)) response) ->
  Forall (oneName shown) (referrals w) ->
  Forall (oneName later) (referrals (run (checkForNewReferrals parseDate toISOString env) w))
  /\ keyBound w (run (checkForNewReferrals parseDate toISOString env) w).
Proof.
  intros Hincl Hlater Hrows Hanswers Hstored.
  assert (Hweak : forall A (m : M A), keeps sameData m -> keeps (guarded shown) m)
    by (intros A m; apply keeps_weaken; exact (sameData_guarded shown)).
  assert (H1 : keeps (guarded shown) (loginToAvaility toISOString env))
    by now apply login_guarded.
  assert (H2 : keeps (guarded shown) (getSessionCookies env)) by (apply Hweak; auto with keeps).
  assert (H3 : forall c x, keeps (guarded shown) (axiosPost env c x))
    by (intros c x; apply Hweak; auto with keeps).
  assert (H4 : forall line, keeps (guarded shown) (consoleError line))
    by (intros line; apply keeps_modify; intro; guarded_leaf).
  assert (Hcatch : forall e w1, sameData w1 (snd (catchCheckError env e w1)))
    by (intros e w1; apply catchCheckError_sameData).
  assert (Hdown : forall l, Forall (oneName shown) l -> Forall (oneName later) l).
  { intros l Hl. eapply Forall_impl; [|exact Hl]. intros d. now apply oneName_incl. }
  unfold run.
  destruct (cycle_cases_answer (guarded shown) env w (guarded_trans shown) H1 H2 H3 H4)
    as [(e & w1 & K & E) | (c & x & status & rs & w1 & Hpost & K & E)]; rewrite E.
  - destruct (K Hstored) as (N1 & K1). destruct (Hcatch e w1) as (_ & Hr & _).
    split; [rewrite Hr; now apply Hdown|].
    apply (keyBound_trans w w1); [exact K1 | now apply sameData_keyBound].
  - destruct (K Hstored) as (N1 & K1).
    assert (L : keeps (guarded later)
                  (forOf (filter (isNew parseDate (lastCheckTime w1)) rs) (processReferral env))).
    { apply (keeps_forOf_Forall _ (fun r => oneName later (docOfReferral r 0)));
        [exact (guarded_refl later) | exact (guarded_trans later) | |].
      - pose proof (Hanswers c x status rs Hpost) as Hall. rewrite Forall_forall in *.
        intros r Hr. apply Hall. apply filter_In in Hr. apply Hr.
      - intros r Hr. now apply processReferral_guarded. }
    specialize (L w1 (Hdown _ N1)). destruct L as (N2 & K2). unfold run in N2, K2.
    destruct (forOf _ (processReferral env) w1) as [[u|e] w2]; cbn [snd] in *.
    + split; [exact N2|]. apply (keyBound_trans w w1); [exact K1 | exact K2].
    + destruct (Hcatch e w2) as (_ & Hr & _). split; [rewrite Hr; exact N2|].
      apply (keyBound_trans w w1); [exact K1|].
      apply (keyBound_trans w1 w2); [exact K2 | now apply sameData_keyBound].
Qed.

(** C1, as amended.  For every two polling cycles run one after the other,
    whatever the pages show and the API answers, provided no row of the two
    pages shows a referral, told by its natural key (memberID, requestOn),
    under another member name than it has in another row, in a document
    stored before the first cycle, or, for the rows of the second page, in
    the answer of the API in the first cycle: when no natural key is stored
    more than once before the first cycle, none is stored more than once
    after the second. *)
Theorem natural_key_stored_once env1 env2 w :
  let rows1 := rowDocs toISOString env1 in
  let rows2 := rowDocs toISOString env2 in
  Forall (oneName (rows1 ++ rows2)) (rows1 ++ rows2) ->
  Forall (oneName (rows1 ++ rows2)) (referrals w) ->
  (forall cookies xsrf status response r,
      post env1 cookies xsrf = Response status (Some response) ->
      In r response ->
      forall x, In x rows2 -> keyOf x = (Api.memberID r, Api.requestOn r) ->
                Doc.memberName x = Api.memberName r) ->
  uniqueKeys (referrals w) ->
  uniqueKeys
    (referrals (run (checkForNewReferrals parseDate toISOString env2)
                    (run (checkForNewReferrals parseDate toISOString env1) w))).
Proof.
  intros rows1 rows2 Hrows Hstored Hanswers Hu k.
  apply Forall_app in Hrows as Hsplit. destruct Hsplit as (Hrows1 & Hrows2).
  destruct (check_guarded (rows1 ++ rows2) rows2 env1 w) as (Hstored1 & K1).
  - apply incl_appl, incl_refl.
  - apply incl_appr, incl_refl.
  - exact Hrows1.
  - intros c x status response Hpost. apply Forall_forall. intros r Hr.
    exact (Hanswers c x status response r Hpost Hr).
  - exact Hstored.
  - destruct (check_guarded rows2 [] env2
                (run (checkForNewReferrals parseDate toISOString env1) w)) as (_ & K2).
    + apply incl_refl.
    + apply incl_nil_l.
    + eapply Forall_impl; [|exact Hrows2].
      intros d. apply oneName_incl. apply incl_appr, incl_refl.
    + intros c x status response Hpost. apply Forall_forall. intros r Hr y [].
    + exact Hstored1.
    + specialize (K1 k). specialize (K2 k). specialize (Hu k). lia.
Qed.
End More.

(* ===================================================================== *)
(** * The properties above on the scenarios *)
(* ===================================================================== *)


Lemma extracted_token_has_no_semicolon_witness :
  Js.includes Js.xsrfName "JSESSIONID=9f2c" = false
  /\ extractXsrfToken "JSESSIONID=9f2c" = "".
Proof.
  split; [reflexivity|].
  exact (proj2 (proj2 (extracted_token_has_no_semicolon "JSESSIONID=9f2c")) eq_refl).
Defined.


Lemma close_failure_keeps_the_session_witness :
  let env := Demo.closeFails Demo.denied in
  let w' := run (checkForNewReferrals Demo.utcDate Demo.isoString env) Demo.start in
  outcome (checkForNewReferrals Demo.utcDate Demo.isoString env) Demo.start = Throw ErrClose
  /\ browser w' <> None /\ page w' <> None.
Proof.
  intros env w'.
  pose proof (close_failure_keeps_the_session Demo.utcDate Demo.isoString env Demo.first
                Demo.start 401%Z None eq_refl eq_refl eq_refl eq_refl (or_introl eq_refl))
    as H.
  cbv zeta in H. destruct H as (H1 & H2 & H3 & _). repeat split; assumption.
Defined.

Lemma other_fetch_failures_keep_the_session_witness :
  let w0 := run (loginToAvaility Demo.isoString Demo.unavailable) Demo.start in
  let w' := run (checkForNewReferrals Demo.utcDate Demo.isoString Demo.unavailable)
                Demo.start in
  outcome (checkForNewReferrals Demo.utcDate Demo.isoString Demo.unavailable) Demo.start
  = Throw (ErrAxios (Some 503%Z))
  /\ sameSession w0 w' /\ sameData w0 w'.
Proof.
  intros w0 w'.
  pose proof (other_fetch_failures_keep_the_session Demo.utcDate Demo.isoString
                Demo.unavailable Demo.start (ErrAxios (Some 503%Z))
                eq_refl eq_refl eq_refl eq_refl) as H.
  cbv zeta in H. destruct H as (H1 & _ & H3 & H4 & _). repeat split; assumption.
Defined.

Lemma request_goes_out_with_an_empty_token_witness :
  let env := Demo.withJar [("JSESSIONID", "9f2c")] Demo.first in
  Js.includes Js.xsrfName (cookieString (jar env)) = false
  /\ In (EvPost "JSESSIONID=9f2c" "")
        (since Demo.start
           (run (checkForNewReferrals Demo.utcDate Demo.isoString env) Demo.start)).
Proof.
  intro env. split; [reflexivity|].
  exact (proj1 (request_goes_out_with_an_empty_token Demo.utcDate Demo.isoString env
                  Demo.start eq_refl eq_refl eq_refl)).
Defined.


Lemma browser_without_page_is_replaced_witness :
  let w := run (setupBot (Demo.withSetup NewPageFails Demo.first)) Demo.start in
  let w' := run (loginToAvaility Demo.isoString Demo.first) w in
  browser w = Some 0%nat /\ page w = None
  /\ browser w' = Some 1%nat /\ page w' = Some 1%nat /\ launched w' = 2%nat.
Proof.
  intros w w'.
  pose proof (browser_without_page_is_replaced Demo.isoString Demo.first w 0%nat
                eq_refl eq_refl eq_refl eq_refl) as H.
  cbv zeta in H. destruct H as (_ & H2 & H3 & H4 & _).
  split; [reflexivity|]. split; [reflexivity|]. repeat split; assumption.
Defined.

Lemma start_bot_always_launches_witness :
  let w := run (setupBot Demo.first) Demo.start in
  outcome (startBot Demo.isoString Demo.first) w = Ok 200%Z
  /\ browser w = Some 0%nat
  /\ browser (run (startBot Demo.isoString Demo.first) w) = Some 1%nat
  /\ outcome (startBot Demo.isoString (Demo.portalFails Demo.first)) w = Ok 500%Z.
Proof.
  intro w.
  destruct (start_bot_always_launches Demo.isoString Demo.first w) as (_ & _ & H & _).
  destruct (H eq_refl eq_refl) as (H1 & H2 & _).
  destruct (start_bot_always_launches Demo.isoString (Demo.portalFails Demo.first) w)
    as (_ & _ & _ & H').
  split; [exact H1|]. split; [reflexivity|]. split; [exact H2|].
  exact (H' (or_intror eq_refl)).
Defined.

Lemma rows_are_stored_when_their_mail_fails_witness :
  let env := Demo.smtpDown (Demo.withRows [Demo.janeRow] Demo.first) in
  outcome (extractMemberInformation Demo.isoString env) Demo.start = Ok [Demo.janeRow]
  /\ map Doc.memberID
         (referrals (run (extractMemberInformation Demo.isoString env) Demo.start))
     = ["A100"].
Proof.
  intro env.
  assert (Hrows : [Demo.janeRow] <> []) by discriminate.
  assert (Hto : emailRecipients (processEnv env) <> []) by (vm_compute; discriminate).
  pose proof (rows_are_stored_when_their_mail_fails Demo.isoString env Demo.start
                [Demo.janeRow] eq_refl Hrows Hto eq_refl) as H.
  cbv zeta in H. unfold outcome, run at 1. rewrite H. split; reflexivity.
Defined.

Lemma rejected_sms_stops_the_rows_quietly_witness :
  let env := Demo.smsDownFor "+15550101" Demo.first in
  let w' := run (saveMembersToDatabase Demo.isoString env [Demo.janeRow; Demo.namedRow])
                Demo.start in
  outcome (saveMembersToDatabase Demo.isoString env [Demo.janeRow; Demo.namedRow])
          Demo.start = Ok tt
  /\ map Doc.memberID (referrals w') = ["A100"]
  /\ console w' = ["Error sending SMS notification:"; "Error saving members to database:"].
Proof.
  intros env w'.
  assert (Hname : Member.memberName Demo.janeRow <> "") by discriminate.
  assert (Hid : Member.memberID Demo.janeRow <> "") by discriminate.
  pose proof (rejected_sms_stops_the_rows_quietly Demo.isoString env Demo.start
                Demo.janeRow [Demo.namedRow] "+15550101" [" +15550102"]
                eq_refl Hname Hid eq_refl eq_refl eq_refl eq_refl eq_refl) as H.
  cbv zeta in H. destruct H as (H1 & H2 & _ & _ & H5).
  split; [exact H1|]. split; [|exact H5]. subst w'. rewrite H2. reflexivity.
Defined.

Lemma email_failure_stops_cycle_witness :
  let env := Demo.smtpDown Demo.first in
  let w' := run (checkForNewReferrals Demo.utcDate Demo.isoString env) Demo.start in
  outcome (checkForNewReferrals Demo.utcDate Demo.isoString env) Demo.start = Throw ErrSmtp
  /\ lastCheckTime w' = Demo.processStart
  /\ map Doc.isNotified (referrals w') = [false].
Proof.
  intros env w'.
  assert (Hstatus : (200 <= 200 < 300)%Z) by lia.
  assert (Hnew : filter (isNew Demo.utcDate (lastCheckTime Demo.start))
                        [Demo.early; Demo.jane] = [Demo.jane])
    by (vm_compute; reflexivity).
  assert (Habsent : find (matches (queryOf Demo.jane))
                      (referrals (run (loginToAvaility Demo.isoString env) Demo.start))
                    = None) by (vm_compute; reflexivity).
  assert (Hname : Api.memberName Demo.jane <> "") by discriminate.
  assert (Hid : Api.memberID Demo.jane <> "") by discriminate.
  assert (Hto : emailRecipients (processEnv env) <> []) by (vm_compute; discriminate).
  pose proof (email_failure_stops_cycle Demo.utcDate Demo.isoString env Demo.start 200%Z
                [Demo.early; Demo.jane] Demo.jane [] eq_refl eq_refl eq_refl Hstatus Hnew
                Habsent Hname Hid Hto eq_refl) as H.
  cbv zeta in H. destruct H as (H1 & H2 & H3 & _).
  split; [exact H1|]. split; [exact H2|]. subst w'. rewrite H3. reflexivity.
Defined.

Lemma cycle_only_appends_to_the_store_witness :
  let w := run (checkForNewReferrals Demo.utcDate Demo.isoString (Demo.smtpDown Demo.first))
               Demo.start in
  let w' := run (checkForNewReferrals Demo.utcDate Demo.isoString Demo.second) w in
  wellFormed w
  /\ map Doc.isNotified (referrals w) = [false]
  /\ exists added, referrals w' = referrals w ++ added.
Proof.
  intros w w'.
  assert (Hw : wellFormed w).
  { unfold wellFormed. vm_compute. repeat constructor. }
  split; [exact Hw|]. split; [reflexivity|].
  exact (proj2 (cycle_only_appends_to_the_store Demo.utcDate Demo.isoString Demo.second w Hw)).
Defined.

(** Two cycles with rows on their pages.  The first page shows the member of
    [jane] without a date, the second shows that row again and the referral
    of [john], which the API offers in the second cycle as well. *)
Lemma natural_key_stored_once_witness :
  let env1 := Demo.withRows [Demo.janeRow] Demo.first in
  let env2 := Demo.withRows [Demo.janeRow; Demo.johnRow] Demo.second in
  let w' := run (checkForNewReferrals Demo.utcDate Demo.isoString env2)
                (run (checkForNewReferrals Demo.utcDate Demo.isoString env1) Demo.start) in
  map (fun d => (keyOf d, Doc.memberName d)) (referrals w')
  = [(("A100", "2024-05-02T10:05:02.100Z"), "DOE, JANE");
     (("A100", "2024-05-02T10:00:00.000Z"), "DOE, JANE");
     (("A101", "2024-05-02T10:07:30.000Z"), "POE, JOHN")]
  /\ uniqueKeys (referrals w').
Proof.
  intros env1 env2 w'. split; [vm_compute; reflexivity|].
  assert (Hu : uniqueKeys (referrals Demo.start)) by (intro k; cbv; lia).
  assert (Hshown : rowDocs Demo.isoString env1 ++ rowDocs Demo.isoString env2
                   = [docOfMember Demo.isoString env1 Demo.janeRow 0;
                      docOfMember Demo.isoString env2 Demo.janeRow 0;
                      docOfMember Demo.isoString env2 Demo.johnRow 0]) by reflexivity.
  assert (Hrows : Forall (oneName (rowDocs Demo.isoString env1 ++ rowDocs Demo.isoString env2))
                         (rowDocs Demo.isoString env1 ++ rowDocs Demo.isoString env2)).
  { rewrite Hshown. repeat constructor; intros x Hin Hkey;
      destruct Hin as [<-|[<-|[<-|[]]]];
      first [reflexivity | vm_compute in Hkey; discriminate Hkey]. }
  assert (Hanswers : forall cookies xsrf status response r,
             post env1 cookies xsrf = Response status (Some response) ->
             In r response ->
             forall x, In x (rowDocs Demo.isoString env2) ->
                       keyOf x = (Api.memberID r, Api.requestOn r) ->
                       Doc.memberName x = Api.memberName r).
  { intros c t status response r Hpost Hr x Hin Hkey.
    cbn in Hpost. injection Hpost as _ <-.
    destruct Hr as [<-|[<-|[]]]; destruct Hin as [<-|[<-|[]]];
      first [reflexivity | vm_compute in Hkey; discriminate Hkey]. }
  exact (natural_key_stored_once Demo.utcDate Demo.isoString env1 env2 Demo.start
           Hrows (Forall_nil _) Hanswers Hu).
Defined.

(** The steps for a candidate end where one of them fails.  A candidate that
    the API sends without the member's name is stored, and the creation of
    its notification is refused by the schema: nothing is sent and the
    document stays with isNotified false.  A candidate whose mail the
    transport rejects is stored with its notification: no text message is
    sent and the document stays with isNotified false. *)
Lemma candidate_steps_stop_where_one_fails :
  let unnamed := run (processReferral Demo.first Demo.nameless) Demo.start in
  let unmailed := run (processReferral (Demo.smtpDown Demo.first) Demo.jane) Demo.start in
  Api.memberName Demo.nameless = ""
  /\ outcome (processReferral Demo.first Demo.nameless) Demo.start = Throw ErrValidation
  /\ since Demo.start unnamed
     = [EvFindOne (ByRequestOn "A102" "2024-05-02T10:01:00.000Z");
        EvCreateReferral (docOfReferral Demo.nameless 0)]
  /\ map Doc.isNotified (referrals unnamed) = [false]
  /\ notifications unnamed = []
  /\ outcome (processReferral (Demo.smtpDown Demo.first) Demo.jane) Demo.start = Throw ErrSmtp
  /\ since Demo.start unmailed
     = [EvFindOne (ByRequestOn "A100" "2024-05-02T10:00:00.000Z");
        EvCreateReferral (docOfReferral Demo.jane 0);
        EvCreateNotification (noteOfReferral Demo.jane 0 1);
        EvSendMail "adeoyeoluwaferanmi@gmail.com" "ops@example.org,lead@example.org"
                   "New Referral Notification" (emailText Demo.jane)]
  /\ map Doc.isNotified (referrals unmailed) = [false].
Proof. vm_compute. repeat split; reflexivity. Qed.

Lemma candidate_steps_in_order_witness :
  let newline := String (ascii_of_nat 10) EmptyString in
  let key := ByRequestOn "A100" "2024-05-02T10:00:00.000Z" in
  let stored := fun notified =>
    {| Doc._id := 0; Doc.memberID := "A100"; Doc.memberName := "DOE, JANE";
       Doc.serviceName := "Personal Care"; Doc.regionName := Some "Middle";
       Doc.requestOn := "2024-05-02T10:00:00.000Z"; Doc.county := Some "Davidson";
       Doc.plan := Some "CHOICES"; Doc.preferredStartDate := Some "2024-05-10";
       Doc.status := "NEW"; Doc.isNotified := notified |} in
  let n :=
    {| Note._id := 1; Note.referralId := 0; Note.memberName := "DOE, JANE";
       Note.memberID := "A100";
       Note.message :=
         "New referral for DOE, JANE (Personal Care) received on 2024-05-02T10:00:00.000Z";
       Note.isRead := false |} in
  let smsBody :=
    "New referral: DOE, JANE (A100) for Personal Care. Check dashboard for details." in
  let w1 := run (processReferral Demo.first Demo.jane) Demo.start in
  let w2 := run (processReferral Demo.second Demo.jane) w1 in
  outcome (processReferral Demo.first Demo.jane) Demo.start = Ok tt
  /\ since Demo.start w1
     = [EvFindOne key; EvCreateReferral (stored false); EvCreateNotification n;
        EvSendMail "adeoyeoluwaferanmi@gmail.com" "ops@example.org,lead@example.org"
                   "New Referral Notification"
                   ("New referral received for DOE, JANE (ID: A100)." ++ newline ++ newline
                    ++ "Service: Personal Care" ++ newline
                    ++ "Region: Middle" ++ newline
                    ++ "County: Davidson" ++ newline
                    ++ "Plan: CHOICES" ++ newline
                    ++ "Preferred Start Date: 2024-05-10" ++ newline
                    ++ "Status: NEW")%string;
        EvTwilioCreate smsBody "+15550100" "+15550101";
        EvTwilioCreate smsBody "+15550100" "+15550102";
        EvSave 0]
  /\ referrals w1 = [stored true]
  /\ notifications w1 = [n]
  /\ since w1 w2 = [EvFindOne key]
  /\ referrals w2 = [stored true]
  /\ notifications w2 = [n].
Proof.
  intros newline key stored n smsBody w1 w2.
  assert (Habsent : ~ exists d0, In d0 (referrals Demo.start)
                                 /\ Doc.memberID d0 = Api.memberID Demo.jane
                                 /\ Doc.requestOn d0 = Api.requestOn Demo.jane)
    by (intros (d0 & [] & _)).
  assert (Hname : Api.memberName Demo.jane <> "") by discriminate.
  assert (Hid : Api.memberID Demo.jane <> "") by discriminate.
  destruct (proj1 (proj2 (candidate_steps_in_order Demo.first Demo.jane Demo.start))
              Habsent Hname Hid eq_refl (fun _ _ => eq_refl))
    as (H1 & H2 & _ & H3 & H4).
  assert (Hw : wellFormed Demo.start) by constructor.
  specialize (H3 Hw).
  assert (Hpresent : exists d0, In d0 (referrals w1)
                                /\ Doc.memberID d0 = Api.memberID Demo.jane
                                /\ Doc.requestOn d0 = Api.requestOn Demo.jane).
  { exists (stored true). split; [|split; reflexivity].
    unfold w1. rewrite H3. left. reflexivity. }
  destruct (proj1 (candidate_steps_in_order Demo.second Demo.jane w1) Hpresent)
    as (_ & H5 & H6 & H7).
  split; [exact H1|]. split; [exact H2|]. split; [exact H3|]. split; [exact H4|].
  split; [exact H5|]. fold w2 in H6, H7. rewrite H6, H7. split; [exact H3 | exact H4].
Defined.
